(** * Life-Expectancy-Factors: the chart-generation script

    A shallow embedding of [src/python/generate_charts.py]: the in-memory
    table the script builds with pandas, the cleaning steps (lines 26-44),
    the gender filter and the continent enrichment (lines 46-47) and the two
    chart builders (lines 51-167).

    What is outside the script is taken as a parameter or modelled by its
    documented behaviour:
    - the string-to-number conversion of [pd.to_numeric] is a parameter
      [parse_number]; [parse_decimal] is a reference instance used for the
      worked examples;
    - the three [pycountry_convert] calls are parameters that may raise;
    - pandas behaves as in its 2.x releases ([errors='ignore'] is accepted,
      text columns have the [object] dtype, the cast to [Int64] refuses
      what is no 64-bit integer);
    - a float is an exact rational ([Qc]) or an infinity, and an integer
      widened to a float keeps its value: binary rounding plays no part in
      what is proved here, and what is said of the integers read from text
      is said up to magnitude 2^53, where float64 is exact;
    - column labels are byte strings; [lower] is [str.lower] on ASCII
      labels ([ascii_label]), the labels the properties about lowercased
      labels are stated for. *)

From Stdlib Require Import Ascii String QArith Qcanon.
From stdpp Require Import base list sets strings numbers sorting.

Local Open Scope Z_scope.

(** ** Values, exceptions, series and frames *)

(** A cell of a table: a missing value (NaN, None, pd.NA), a Python string,
    an integer, a finite float or an infinite one. *)
Inductive cell : Type :=
  | NA
  | Str (s : string)
  | Int (z : Z)
  | Float (q : Qc)
  | Inf (negative : bool).

Global Instance cell_eq_dec : EqDecision cell.
Proof. solve_decision. Defined.

(** The exceptions the script can meet. *)
Inductive exn : Type :=
  | KeyError (key : string)
  | TypeError
  | OverflowError
  | AttributeError
  | IndexError.

Global Instance exn_eq_dec : EqDecision exn.
Proof. solve_decision. Defined.

Inductive result (A : Type) : Type :=
  | Ok (a : A)
  | Raise (e : exn).
Arguments Ok {A} a.
Arguments Raise {A} e.

Global Instance result_ret : MRet result := fun A a => Ok a.
Global Instance result_bind : MBind result := fun A B f m =>
  match m with
  | Ok a => f a
  | Raise e => Raise e
  end.

Definition is_ok {A} (m : result A) : bool :=
  match m with Ok _ => true | Raise _ => false end.

(** Left-to-right iteration of a step that may raise: a [for] loop. *)
Fixpoint for_each {A S} (step : S -> A -> result S) (xs : list A) (s : S)
  : result S :=
  match xs with
  | [] => Ok s
  | x :: xs' => s' ← step s x; for_each step xs' s'
  end.

(** Column types (the pandas dtypes that occur in the script).
    [object_or_category] is the type of a column computed by
    [Series.apply]: categorical when the column it is computed from is
    categorical and the values computed for its categories are distinct
    and not null, [object] otherwise. The categories of a column are not
    part of this model, so which of the two it is stays open. *)
Inductive Dtype : Type :=
  | object | int64 | float64 | Int64 | category | object_or_category.

Global Instance Dtype_eq_dec : EqDecision Dtype.
Proof. solve_decision. Defined.

Record Series : Type := mkSeries {
  name : string;
  dtype : Dtype;
  values : list cell
}.

Global Instance Series_eq_dec : EqDecision Series.
Proof. solve_decision. Defined.

(** A DataFrame is the list of its columns, in column order. *)
Abbreviation DataFrame := (list Series).
Abbreviation Row := (list cell).

Definition columns (df : DataFrame) : list string := name <$> df.

Definition nrows (df : DataFrame) : nat :=
  match df with
  | [] => 0%nat
  | c :: _ => length (values c)
  end.

(** Every column holds one value per row. *)
Definition well_formed (df : DataFrame) : Prop :=
  Forall (fun c => length (values c) = nrows df) df.

Global Instance well_formed_dec df : Decision (well_formed df).
Proof. unfold well_formed. apply _. Defined.

(** The rows of a frame: row [i] lists the [i]-th value of every column. *)
Fixpoint rows_from (n : nat) (df : DataFrame) : list Row :=
  match df with
  | [] => replicate n []
  | c :: df' => zip_with cons (values c) (rows_from n df')
  end.

Definition rows (df : DataFrame) : list Row := rows_from (nrows df) df.

(** The range of a 64-bit signed integer. *)
Definition in_int64 (z : Z) : bool := (- 2 ^ 63 <=? z) && (z <? 2 ^ 63).

(** The values an Int64 column holds. *)
Definition integer_or_null (v : cell) : Prop :=
  v = NA \/ exists z, v = Int z /\ in_int64 z = true.

(** [df[key]]: the columns labelled [key]. pandas hands back a Series when
    there is exactly one, raises [KeyError] when there is none, and hands
    back a sub-frame when the label is duplicated; [on_frame] is the
    exception the consumer raises when it is given a frame where it needs
    a Series. *)
Definition getitem (on_frame : exn) (df : DataFrame) (key : string)
  : result Series :=
  match filter (fun c => name c = key) df with
  | [] => Raise (KeyError key)
  | [c] => Ok c
  | _ => Raise on_frame
  end.

(** Exactly one column carries the label. *)
Definition unique_label (df : DataFrame) (key : string) : Prop :=
  exists c, filter (fun x => name x = key) df = [c].

(** [df[key] = s]: replaces the column labelled [key], or appends it. *)
Definition setitem (df : DataFrame) (key : string) (s : Series) : DataFrame :=
  let s' := mkSeries key (dtype s) (values s) in
  if bool_decide (key ∈ columns df)
  then (fun c => if decide (name c = key) then s' else c) <$> df
  else df ++ [s'].

(** [df.columns = labels]. *)
Definition set_columns (labels : list string) (df : DataFrame) : DataFrame :=
  zip_with (fun l c => mkSeries l (dtype c) (values c)) labels df.

(** Boolean indexing [xs[mask]]. *)
Fixpoint mask_filter {A} (mask : list bool) (xs : list A) : list A :=
  match mask, xs with
  | b :: mask', x :: xs' =>
      if b then x :: mask_filter mask' xs' else mask_filter mask' xs'
  | _, _ => []
  end.

(** [df[mask]]: the same columns, restricted to the rows where the mask
    holds. *)
Definition bool_index (mask : list bool) (df : DataFrame) : DataFrame :=
  (fun c => mkSeries (name c) (dtype c) (mask_filter mask (values c))) <$> df.

(** [df.duplicated()]: a row is flagged when an equal row occurs before
    it; missing values compare equal to each other. *)
Fixpoint duplicated_from {A} `{EqDecision A} (seen xs : list A) : list bool :=
  match xs with
  | [] => []
  | x :: xs' => bool_decide (x ∈ seen) :: duplicated_from (x :: seen) xs'
  end.

Definition duplicated (df : DataFrame) : list bool :=
  duplicated_from [] (rows df).

(** [df.drop_duplicates()]. *)
Definition drop_duplicates (df : DataFrame) : DataFrame :=
  bool_index (negb <$> duplicated df) df.

(** [df.dropna(subset=keys)]: [KeyError] when a label is absent; otherwise
    the rows that have no missing value under any of the labels. *)
Definition notna (v : cell) : bool :=
  match v with NA => false | _ => true end.

Definition and_masks (m1 m2 : list bool) : list bool := zip_with andb m1 m2.

Fixpoint dropna_mask (df : DataFrame) (keys : list string) (n : nat)
  : result (list bool) :=
  match keys with
  | [] => Ok (replicate n true)
  | k :: keys' =>
      match filter (fun c => name c = k) df with
      | [] => Raise (KeyError k)
      | cs =>
          m ← dropna_mask df keys' n;
          Ok (foldr (fun c acc => and_masks (notna <$> values c) acc) m cs)
      end
  end.

Definition dropna (subset : list string) (df : DataFrame) : result DataFrame :=
  m ← dropna_mask df subset (nrows df);
  Ok (bool_index m df).

Global Instance cell_inhabited : Inhabited cell := populate NA.

(** The position of the first column labelled [key], and the value a row
    holds under that label. *)
Definition column_index (key : string) (df : DataFrame) : option nat :=
  fst <$> list_find (fun c => name c = key) df.

Definition at_label (df : DataFrame) (key : string) (r : Row) : cell :=
  match column_index key df with
  | Some i => r !!! i
  | None => NA
  end.

(** The number of rows a mask keeps. *)
Definition popcount (m : list bool) : nat := length (mask_filter m m).

(** ** Lines 10-12: [clean_col] *)

Definition lower_ascii (c : ascii) : ascii :=
  let n := N_of_ascii c in
  if ((65 <=? n) && (n <=? 90))%N then ascii_of_N (n + 32) else c.

Fixpoint lower (s : string) : string :=
  match s with
  | EmptyString => EmptyString
  | String c s' => String (lower_ascii c) (lower s')
  end.

Definition clean_col (name : string) : string := lower name.

(** ** pandas conversions used by the Normalizer *)

(** What a string converts to under [pd.to_numeric]. *)
Inductive number : Type :=
  | NumInt (z : Z)
  | NumFloat (q : Qc)
  | NumInf (negative : bool)
  | NumNaN.

Definition cell_of_number (n : number) : cell :=
  match n with
  | NumInt z => Int z
  | NumFloat q => Float q
  | NumInf negative => Inf negative
  | NumNaN => NA
  end.

Definition Qc_of_Z (z : Z) : Qc := Q2Qc (inject_Z z).

(** The integer a float stands for, when it has no fractional part. *)
Definition Qc_to_Z (q : Qc) : option Z :=
  if decide (Qden (this q) = 1%positive) then Some (Qnum (this q)) else None.

Definition is_int (v : cell) : bool :=
  match v with Int _ => true | _ => false end.

Definition to_float (v : cell) : cell :=
  match v with Int z => Float (Qc_of_Z z) | _ => v end.

Definition is_numeric_dtype (d : Dtype) : bool :=
  match d with
  | int64 | float64 | Int64 => true
  | object | category | object_or_category => false
  end.

(** The Series a converted column is packed into: [int64] when every value
    is an integer, [float64] (integers widened) otherwise. *)
Definition pack_numeric (label : string) (vs : list cell) : Series :=
  if forallb is_int vs then mkSeries label int64 vs
  else mkSeries label float64 (to_float <$> vs).

(** [s.astype('category')]: the values are kept, the column type changes. *)
Definition astype_category (s : Series) : Series :=
  mkSeries (name s) category (values s).

(** [s.astype('Int64')], one value: missing values stay missing, and a
    number is cast when it is a whole number within the 64-bit range; a
    float with a fractional part, a number out of range and an infinity
    cannot be cast safely. *)
Definition to_Int64_cell (v : cell) : option cell :=
  match v with
  | NA => Some NA
  | Int z => if in_int64 z then Some (Int z) else None
  | Float q =>
      match Qc_to_Z q with
      | Some z => if in_int64 z then Some (Int z) else None
      | None => None
      end
  | Inf _ | Str _ => None
  end.

(** The exception of a cast that is not safe. pandas looks at the greatest
    value of a float column first: Python's [int] of an infinity raises
    [OverflowError]; when that value is a whole number the column is cast
    as floats and compared, which ends in a [TypeError]; when it has a
    fractional part the column is cast value by value through Python's
    [int], which overflows on an infinity and on a number beyond the 64-bit
    range, and is compared afterwards. An integer column out of range is a
    [TypeError]. *)
Definition float_value (v : cell) : option Q :=
  match v with
  | Int z => Some (inject_Z z)
  | Float q => Some (this q)
  | _ => None
  end.

Definition leb_float (a b : cell) : bool :=
  match a, b with
  | Inf true, _ => true
  | _, Inf false => true
  | Inf false, _ => false
  | _, Inf true => false
  | _, _ =>
      match float_value a, float_value b with
      | Some x, Some y => Qle_bool x y
      | _, _ => true
      end
  end.

(** [np.nanmax]. *)
Definition nanmax (vs : list cell) : option cell :=
  foldl (fun acc v =>
           match v, acc with
           | NA, _ => acc
           | _, None => Some v
           | _, Some m => if leb_float v m then Some m else Some v
           end) None vs.

Definition is_whole (v : cell) : bool :=
  match v with
  | Int _ => true
  | Float q => bool_decide (is_Some (Qc_to_Z q))
  | _ => false
  end.

(** Python's [int(x)] as a C long. *)
Definition truncate (q : Qc) : Z := Z.quot (Qnum (this q)) (Z.pos (Qden (this q))).

Definition overflows (v : cell) : bool :=
  match v with
  | Inf _ => true
  | Int z => negb (in_int64 z)
  | Float q => negb (in_int64 (truncate q))
  | _ => false
  end.

Definition cast_error (d : Dtype) (vs : list cell) : exn :=
  match d with
  | float64 =>
      match nanmax vs with
      | Some (Inf _) => OverflowError
      | Some m =>
          if is_whole m then TypeError
          else if existsb overflows vs then OverflowError
          else TypeError
      | None => TypeError
      end
  | _ => TypeError
  end.

Fixpoint traverse {A B} (f : A -> result B) (xs : list A) : result (list B) :=
  match xs with
  | [] => Ok []
  | x :: xs' => y ← f x; ys ← traverse f xs'; Ok (y :: ys)
  end.

Definition astype_Int64 (s : Series) : result Series :=
  match mapM to_Int64_cell (values s) with
  | Some vs => Ok (mkSeries (name s) Int64 vs)
  | None => Raise (cast_error (dtype s) (values s))
  end.

Section Normalizer.

(** The string-to-number conversion of [pd.to_numeric]: [None] when the
    string does not parse. *)
Variable parse_number : string -> option number.

(** One value under [pd.to_numeric]: strings are parsed, anything else is
    numeric or missing already. *)
Definition convert_cell (v : cell) : option cell :=
  match v with
  | Str s => cell_of_number <$> parse_number s
  | _ => Some v
  end.

(** [pd.to_numeric(s, errors='coerce')]: invalid parsing is set to NaN. *)
Definition to_numeric_coerce (s : Series) : Series :=
  if is_numeric_dtype (dtype s) then s
  else pack_numeric (name s) ((fun v => default NA (convert_cell v)) <$> values s).

(** [pd.to_numeric(s, errors='ignore')]: invalid parsing returns the
    input, so one value that does not parse leaves the whole column as it
    was. *)
Definition to_numeric_ignore (s : Series) : Series :=
  if is_numeric_dtype (dtype s) then s
  else match mapM convert_cell (values s) with
       | Some vs => pack_numeric (name s) vs
       | None => s
       end.

(** ** Lines 26-44: the Normalizer *)

(** Lines 32-35, [df[key] = df[key].astype('category')]. *)
Definition categorical (key : string) (df : DataFrame) : DataFrame :=
  if bool_decide (key ∈ columns df)
  then (fun c => if decide (name c = key) then astype_category c else c) <$> df
  else df.

(** Lines 38-39. [pd.to_numeric] rejects a frame with a [TypeError]. *)
Definition year_to_integer (df : DataFrame) : result DataFrame :=
  if bool_decide ("year" ∈ columns df) then
    year ← getitem TypeError df "year";
    year' ← astype_Int64 (to_numeric_coerce year);
    Ok (setitem df "year" year')
  else Ok df.

(** Lines 43-44, the body of the loop. A frame has no [dtype]
    attribute. *)
Definition coerce_step (df : DataFrame) (col : string) : result DataFrame :=
  s ← getitem AttributeError df col;
  if bool_decide (dtype s = object) && bool_decide (col ∉ ["country"; "gender"])
  then Ok (setitem df col (to_numeric_ignore s))
  else Ok df.

Definition normalize (df : DataFrame) : result DataFrame :=
  (* line 26 *)
  let df := set_columns (clean_col <$> columns df) df in
  (* line 29 *)
  let df := drop_duplicates df in
  (* lines 32-35 *)
  let df := categorical "country" df in
  let df := categorical "gender" df in
  (* lines 38-39 *)
  df ← year_to_integer df;
  (* lines 42-44 *)
  for_each coerce_step (columns df) df.

(** Lines 26-29: the table the type coercions start from. *)
Definition deduplicated (df : DataFrame) : DataFrame :=
  drop_duplicates (set_columns (clean_col <$> columns df) df).

(** What lines 32-35, 38-39 and 42-44 do to one column. *)
Definition category_column (c : Series) : Series :=
  if decide (name c = "country" \/ name c = "gender") then astype_category c
  else c.

Definition year_column (c : Series) : result Series :=
  if decide (name c = "year") then astype_Int64 (to_numeric_coerce c)
  else Ok c.

Definition coerce_column (c : Series) : Series :=
  if bool_decide (dtype c = object)
     && bool_decide (name c ∉ ["country"; "gender"])
  then to_numeric_ignore c
  else c.

(** What lines 38-39 do to one value of a year column of type [d];
    [None] when the value cannot be cast. *)
Definition year_cell (d : Dtype) (v : cell) : option cell :=
  to_Int64_cell (if is_numeric_dtype d then v else default NA (convert_cell v)).

Definition normalize_column (c : Series) : result Series :=
  c' ← year_column (category_column c);
  Ok (coerce_column c').


End Normalizer.

(** ** A reference numeric parser: signed decimal literals *)

Definition digit_of (c : ascii) : option Z :=
  let n := Z.of_N (N_of_ascii c) in
  if (48 <=? n) && (n <=? 57) then Some (n - 48) else None.

Fixpoint digits_value (acc : Z) (cs : list ascii) : option Z :=
  match cs with
  | [] => Some acc
  | c :: cs' => d ← digit_of c; digits_value (10 * acc + d) cs'
  end.

(** The characters up to the first dot, and those after it if there is
    one. *)
Fixpoint split_dot (cs : list ascii) : list ascii * option (list ascii) :=
  match cs with
  | [] => ([], None)
  | c :: cs' =>
      if decide (c = "."%char) then ([], Some cs')
      else let '(i, f) := split_dot cs' in (c :: i, f)
  end.

Definition parse_unsigned (cs : list ascii) : option number :=
  if decide (cs = ["i"; "n"; "f"]%char) then Some (NumInf false) else
  match split_dot cs with
  | ([], _) => None
  | (i, None) => NumInt <$> digits_value 0 i
  | (i, Some f) =>
      m ← digits_value 0 (i ++ f);
      Some (NumFloat (Q2Qc (Qmake m (Z.to_pos (10 ^ Z.of_nat (length f))))))
  end.

Definition negate (n : number) : number :=
  match n with
  | NumInt z => NumInt (- z)
  | NumFloat q => NumFloat (- q)%Qc
  | NumInf negative => NumInf (negb negative)
  | NumNaN => NumNaN
  end.

(** An optional sign, then [inf] or digits with an optional fractional
    part. *)
Definition parse_decimal (s : string) : option number :=
  match list_ascii_of_string s with
  | "-"%char :: cs => negate <$> parse_unsigned cs
  | "+"%char :: cs => parse_unsigned cs
  | cs => parse_unsigned cs
  end.

(** ** Chart specifications

    What the script hands to the charting library. The presentation
    attributes (titles, sizes, colour schemes, number formats) do not bear
    on which rows reach a chart and are left out. *)

Inductive Mark : Type := mark_circle | mark_line.

(** [alt.binding_range(min, max, step, name)]. *)
Record BindingRange : Type := binding_range {
  range_min : Z;
  range_max : Z;
  range_step : Z;
  range_name : string
}.

(** [alt.selection_point(fields, bind, value)]. *)
Record SelectionPoint : Type := selection_point {
  fields : list string;
  bind : BindingRange;
  value : Z
}.

Inductive Transform : Type :=
  | transform_loess (on loess : string) (bandwidth : Qc)
  | transform_filter (selection : SelectionPoint).

Record Chart : Type := mkChart {
  data : DataFrame;
  mark : Mark;
  encode : list (string * string);
  transforms : list Transform;
  params : list SelectionPoint
}.

(** A saved document: the layers of the chart and where it was written. *)
Record Document : Type := mkDocument {
  path : string;
  layers : list Chart;
  interactive : bool
}.

(** [s.unique()]: the distinct values, in order of first appearance. *)
Definition unique {A} `{EqDecision A} (xs : list A) : list A :=
  mask_filter (negb <$> duplicated_from [] xs) xs.

(** A value of the year column read as a Python [int]. *)
Definition as_int (v : cell) : result Z :=
  match v with
  | Int z => Ok z
  | _ => Raise TypeError
  end.

(** [xs[0]] and [xs[-1]]. *)
Definition first_item {A} (xs : list A) : result A :=
  match xs with
  | [] => Raise IndexError
  | x :: _ => Ok x
  end.

Definition last_item {A} (xs : list A) : result A :=
  match last xs with
  | None => Raise IndexError
  | Some x => Ok x
  end.

(** The rows a chart draws once its filter transforms are applied with the
    slider at [chosen]: a point selection projected on fields keeps the
    rows whose value under every field equals the selected one. *)
Fixpoint selection_mask (df : DataFrame) (fs : list string) (chosen : Z) (n : nat)
  : list bool :=
  match fs with
  | [] => replicate n true
  | f :: fs' =>
      foldr (fun c acc =>
               and_masks ((fun v => bool_decide (v = Int chosen)) <$> values c) acc)
            (selection_mask df fs' chosen n)
            (filter (fun c => name c = f) df)
  end.

Definition apply_transform (chosen : Z) (df : DataFrame) (t : Transform)
  : DataFrame :=
  match t with
  | transform_loess _ _ _ => df
  | transform_filter sel =>
      bool_index (selection_mask df (fields sel) chosen (nrows df)) df
  end.

Definition rendered (c : Chart) (chosen : Z) : DataFrame :=
  foldl (apply_transform chosen) (data c) (transforms c).

Section Script.

Variable parse_number : string -> option number.

(** The three calls into [pycountry_convert]; each may raise. *)
Variable country_name_to_country_alpha2 : cell -> result string.
Variable country_alpha2_to_continent_code : string -> result string.
Variable convert_continent_code_to_continent_name : string -> result string.

(** ** Lines 14-24: [country_to_continent] *)

(** The body of the [try]. *)
Definition continent_lookup (country_name : cell) : result string :=
  country_code ← country_name_to_country_alpha2 country_name;
  continent_code ← country_alpha2_to_continent_code country_code;
  convert_continent_code_to_continent_name continent_code.

(** The bare [except] catches whatever the body raises. *)
Definition country_to_continent (country_name : cell) : cell :=
  match continent_lookup country_name with
  | Ok continent_name => Str continent_name
  | Raise _ => NA
  end.

(** ** Line 46: the gender filter *)
Definition both_sexes (df : DataFrame) : result DataFrame :=
  gender ← getitem TypeError df "gender";
  Ok (bool_index ((fun v => bool_decide (v = Str "Both sexes")) <$> values gender) df).

(** ** Line 47: the continent column *)
Definition add_continent (df_both : DataFrame) : result DataFrame :=
  country ← getitem TypeError df_both "country";
  Ok (setitem df_both "continent"
        (mkSeries "country" object_or_category
           (country_to_continent <$> values country))).

(** Lines 26-47. *)
Definition prepare (df : DataFrame) : result DataFrame :=
  df ← normalize parse_number df;
  df_both ← both_sexes df;
  add_continent df_both.

(** The order of section 2 of the specification, for comparison: the
    continent is added to the normalized table and the gender filter
    comes last. *)
Definition enrich_then_filter (df : DataFrame) : result DataFrame :=
  df ← normalize parse_number df;
  df_geo ← add_continent df;
  both_sexes df_geo.

(** ** Lines 51-94: the scatter chart *)
Definition scatter_columns : list string :=
  ["diet composition fruit and vegetables"; "life expectancy"].

Definition scatter_builder (df_both : DataFrame) : result Document :=
  df_scatter ← dropna scatter_columns df_both;
  let scatter :=
    mkChart df_scatter mark_circle
      [("x", "diet composition fruit and vegetables:Q");
       ("y", "life expectancy:Q");
       ("color", "continent:N");
       ("tooltip", "country:N");
       ("tooltip", "diet composition fruit and vegetables:Q");
       ("tooltip", "life expectancy:Q");
       ("tooltip", "continent:N")]
      [] [] in
  let lowess_curve :=
    mkChart df_scatter mark_line
      [("x", "diet composition fruit and vegetables:Q");
       ("y", "life expectancy:Q")]
      [transform_loess "diet composition fruit and vegetables"
                       "life expectancy" (Q2Qc (3 # 10))]
      [] in
  Ok (mkDocument "../charts/fruit_vegetable_life_expectancy.html"
        [scatter; lowess_curve] true).

(** ** Lines 97-167: the bubble chart *)
Definition gapminder_columns : list string :=
  ["gdp per capita"; "life expectancy"; "total population"; "continent"; "year"].

(** Line 103. *)
Definition sorted_years (df_gapminder : DataFrame) : result (list Z) :=
  year ← getitem TypeError df_gapminder "year";
  ys ← traverse as_int (unique (values year));
  Ok (merge_sort Z.le ys).

Definition bubble_builder (df_both : DataFrame) : result Document :=
  df_gapminder ← dropna gapminder_columns df_both;
  years ← sorted_years df_gapminder;
  (* line 104 *)
  _ ← first_item years;
  _ ← last_item years;
  let bubble_chart :=
    mkChart df_gapminder mark_circle
      [("x", "gdp per capita:Q");
       ("y", "life expectancy:Q");
       ("size", "total population:Q");
       ("color", "continent:N");
       ("tooltip", "country:N");
       ("tooltip", "year:O");
       ("tooltip", "gdp per capita:Q");
       ("tooltip", "life expectancy:Q");
       ("tooltip", "total population:Q");
       ("tooltip", "continent:N")]
      [] [] in
  (* lines 146-151 *)
  lo ← first_item years;
  hi ← last_item years;
  let year_slider := binding_range lo hi 1 "Year: " in
  (* lines 153-157 *)
  v ← first_item years;
  let year_selection := selection_point ["year"] year_slider v in
  (* lines 160-164 *)
  let animated_chart :=
    mkChart (data bubble_chart) (mark bubble_chart) (encode bubble_chart)
      (transforms bubble_chart ++ [transform_filter year_selection])
      (params bubble_chart ++ [year_selection]) in
  Ok (mkDocument "../charts/gdp_life_expectancy_bubble_chart.html"
        [animated_chart] true).

(** ** The whole script: the documents written, in order, and the
    exception that stopped it, if any. *)
Definition script (df : DataFrame) : list Document * option exn :=
  match prepare df with
  | Raise e => ([], Some e)
  | Ok df_both =>
      match scatter_builder df_both with
      | Raise e => ([], Some e)
      | Ok scatter_doc =>
          match bubble_builder df_both with
          | Raise e => ([scatter_doc], Some e)
          | Ok bubble_doc => ([scatter_doc; bubble_doc], None)
          end
      end
  end.

End Script.

(** ** A small lookup capability and small tables for the worked examples *)

Definition demo_alpha2 (country_name : cell) : result string :=
  match country_name with
  | Str s =>
      if decide (s = "France") then Ok "FR"
      else if decide (s = "Japan") then Ok "JP"
      else Raise (KeyError s)
  | _ => Raise TypeError
  end.

Definition demo_continent_code (country_code : string) : result string :=
  if decide (country_code = "FR") then Ok "EU"
  else if decide (country_code = "JP") then Ok "AS"
  else Raise (KeyError country_code).

Definition demo_continent_name (continent_code : string) : result string :=
  if decide (continent_code = "EU") then Ok "Europe"
  else if decide (continent_code = "AS") then Ok "Asia"
  else Raise (KeyError continent_code).

Definition demo_script : DataFrame -> list Document * option exn :=
  script parse_decimal demo_alpha2 demo_continent_code demo_continent_name.

Definition demo_prepare : DataFrame -> result DataFrame :=
  prepare parse_decimal demo_alpha2 demo_continent_code demo_continent_name.

(** A table as [pd.read_csv] delivers it: numeric columns parsed, the
    others left as text. *)
Definition health_csv : DataFrame :=
  [ mkSeries "Country" object [Str "France"; Str "France"; Str "Neverland"; Str "Japan"];
    mkSeries "Gender" object [Str "Both sexes"; Str "Male"; Str "Both sexes"; Str "both sexes"];
    mkSeries "Year" int64 [Int 2010; Int 2010; Int 2012; Int 2011];
    mkSeries "GDP per capita" float64
      [Float (Qc_of_Z 35000); Float (Qc_of_Z 35000); Float (Qc_of_Z 900); Float (Qc_of_Z 40000)];
    mkSeries "Life expectancy" float64
      [Float (Q2Qc (815 # 10)); Float (Q2Qc (78 # 1)); Float (Qc_of_Z 70); Float (Qc_of_Z 83)];
    mkSeries "Total population" int64
      [Int 65000000; Int 32000000; Int 1000; Int 127000000];
    mkSeries "Diet composition fruit and vegetables" float64
      [Float (Qc_of_Z 200); Float (Qc_of_Z 190); Float (Qc_of_Z 150); Float (Qc_of_Z 210)] ].


Definition health_normalized : DataFrame := Eval vm_compute in
    match normalize parse_decimal health_csv with
    | Ok df => df
    | Raise _ => []
    end.

(** A table in which the third row repeats the first. *)
Definition repeated_csv : DataFrame :=
  [ mkSeries "Country" object [Str "France"; Str "Japan"; Str "France"; Str "France"];
    mkSeries "Gender" object
      [Str "Both sexes"; Str "Both sexes"; Str "Both sexes"; Str "Male"];
    mkSeries "Year" int64 [Int 2010; Int 2010; Int 2010; Int 2010] ].

Definition repeated_normalized : DataFrame := Eval vm_compute in
    match normalize parse_decimal repeated_csv with
    | Ok df => df
    | Raise _ => []
    end.

(** Two rows that differ only in a year that does not read as a number. *)
Definition undated_csv : DataFrame :=
  [ mkSeries "Country" object [Str "France"; Str "France"];
    mkSeries "Gender" object [Str "Both sexes"; Str "Both sexes"];
    mkSeries "Year" object [Str "unknown"; Str "circa 2010"] ].

Definition undated_normalized : DataFrame :=
  [ mkSeries "country" category [Str "France"; Str "France"];
    mkSeries "gender" category [Str "Both sexes"; Str "Both sexes"];
    mkSeries "year" Int64 [NA; NA] ].

(** A year with a fractional part next to one that is not a number. *)
Definition fractional_year_csv : DataFrame :=
  [ mkSeries "Country" object [Str "France"; Str "Japan"];
    mkSeries "Year" object [Str "2010.5"; Str "unknown"] ].

(** A text column of which one value reads as a number. *)
Definition partly_numeric_csv : DataFrame :=
  [ mkSeries "Country" object [Str "France"; Str "Japan"];
    mkSeries "Smokers" object [Str "12"; Str "no data"] ].

Definition demo_enrich_then_filter : DataFrame -> result DataFrame :=
  enrich_then_filter parse_decimal demo_alpha2 demo_continent_code
    demo_continent_name.

Definition demo_add_continent : DataFrame -> result DataFrame :=
  add_continent demo_alpha2 demo_continent_code demo_continent_name.

Definition demo_continent_lookup : cell -> result string :=
  continent_lookup demo_alpha2 demo_continent_code demo_continent_name.

(** The table of [health_csv] after line 47, and the documents the script
    writes from it. *)
Definition health_both : DataFrame := Eval vm_compute in
    match demo_prepare health_csv with
    | Ok df => df
    | Raise _ => []
    end.

Definition health_filtered : DataFrame := Eval vm_compute in
    match both_sexes health_normalized with
    | Ok df => df
    | Raise _ => []
    end.

Definition neverland_row : Row :=
  [ Str "Neverland"; Str "Both sexes"; Int 2012; Float (Qc_of_Z 900);
    Float (Qc_of_Z 70); Int 1000; Float (Qc_of_Z 150); NA ].

(** A table in which the gender labels differ in case, or are missing. *)
Definition gender_table : DataFrame :=
  [ mkSeries "country" category [Str "France"; Str "Japan"; Str "Chad"; Str "Peru"];
    mkSeries "gender" category [Str "Both sexes"; Str "both sexes"; Str "Male"; NA] ].

(** A table with neither a gender nor a country column. *)
Definition year_only_csv : DataFrame :=
  [ mkSeries "Year" int64 [Int 2010; Int 2011] ].

(** A table whose only country is unknown to the lookup. *)
Definition neverland_csv : DataFrame :=
  [ mkSeries "Country" object [Str "Neverland"];
    mkSeries "Gender" object [Str "Both sexes"];
    mkSeries "Year" int64 [Int 2012];
    mkSeries "GDP per capita" int64 [Int 900];
    mkSeries "Life expectancy" int64 [Int 70];
    mkSeries "Total population" int64 [Int 1000];
    mkSeries "Diet composition fruit and vegetables" int64 [Int 150] ].

Definition neverland_both : DataFrame := Eval vm_compute in
    match demo_prepare neverland_csv with
    | Ok df => df
    | Raise _ => []
    end.

Definition neverland_documents : list Document := Eval vm_compute in
  (demo_script neverland_csv).1.

(** A table in which the first and the last year lack the GDP, and the
    years are not in order. *)
Definition sparse_years_csv : DataFrame :=
  [ mkSeries "Country" object
      [Str "Japan"; Str "France"; Str "France"; Str "Japan"; Str "France"];
    mkSeries "Gender" object
      [Str "Both sexes"; Str "Both sexes"; Str "Both sexes"; Str "Both sexes";
       Str "Both sexes"];
    mkSeries "Year" int64 [Int 2012; Int 2005; Int 2010; Int 2015; Int 2012];
    mkSeries "GDP per capita" float64
      [Float (Qc_of_Z 40000); NA; Float (Qc_of_Z 35000); NA; Float (Qc_of_Z 36000)];
    mkSeries "Life expectancy" float64
      [Float (Qc_of_Z 83); Float (Qc_of_Z 80); Float (Qc_of_Z 81);
       Float (Qc_of_Z 84); Float (Qc_of_Z 82)];
    mkSeries "Total population" int64
      [Int 127000000; Int 63000000; Int 65000000; Int 126000000; Int 66000000];
    mkSeries "Diet composition fruit and vegetables" float64
      [Float (Qc_of_Z 210); Float (Qc_of_Z 195); Float (Qc_of_Z 200);
       Float (Qc_of_Z 215); Float (Qc_of_Z 205)] ].

Definition sparse_years_both : DataFrame := Eval vm_compute in
    match demo_prepare sparse_years_csv with
    | Ok df => df
    | Raise _ => []
    end.

(** ** Vocabulary for the further properties *)

(** An uppercase ASCII letter. *)
Definition is_upper (c : ascii) : bool :=
  let n := N_of_ascii c in ((65 <=? n) && (n <=? 90))%N.

Definition no_uppercase (s : string) : Prop :=
  Forall (fun c => is_upper c = false) (list_ascii_of_string s).

(** A label of ASCII characters only; on such a label [lower] is Python's
    [str.lower]. *)
Definition ascii_label (s : string) : Prop :=
  Forall (fun c => (N_of_ascii c < 128)%N) (list_ascii_of_string s).

Global Instance ascii_label_dec s : Decision (ascii_label s).
Proof. unfold ascii_label. apply _. Defined.

Definition is_KeyError (e : exn) : Prop :=
  match e with KeyError _ => True | _ => False end.



(** A table without a gender column, and one without a country column. *)
Definition no_gender_csv : DataFrame :=
  [ mkSeries "Country" object [Str "France"];
    mkSeries "Year" int64 [Int 2010] ].

Definition no_country_csv : DataFrame :=
  [ mkSeries "Gender" object [Str "Both sexes"];
    mkSeries "Year" int64 [Int 2010] ].

(** A table that comes with a continent column of its own. *)
Definition labelled_table : DataFrame :=
  [ mkSeries "country" category [Str "France"; Str "Neverland"];
    mkSeries "continent" object [Str "Old World"; Str "Nowhere"];
    mkSeries "year" Int64 [Int 2010; Int 2012] ].

(** The integer a whole float stands for. *)
Definition as_integer (v : cell) : cell :=
  match v with
  | Float q =>
      match Qc_to_Z q with
      | Some z => Int z
      | None => v
      end
  | _ => v
  end.

(** A year column with a gap: [pd.read_csv] loads it as floats. *)
Definition float_year_csv : DataFrame :=
  [ mkSeries "Country" object [Str "France"; Str "Japan"; Str "Chad"];
    mkSeries "Gender" object [Str "Both sexes"; Str "Both sexes"; Str "Both sexes"];
    mkSeries "Year" float64 [Float (Qc_of_Z 2010); NA; Float (Qc_of_Z 2011)] ].

Definition float_year_normalized : DataFrame := Eval vm_compute in
    match normalize parse_decimal float_year_csv with
    | Ok df => df
    | Raise _ => []
    end.

(** A year column loaded as text: a year, a word and a gap. *)
Definition text_year_csv : DataFrame :=
  [ mkSeries "Country" object [Str "France"; Str "Japan"; Str "Chad"];
    mkSeries "Year" object [Str "2010"; Str "unknown"; NA] ].

Definition text_year_normalized : DataFrame := Eval vm_compute in
    match normalize parse_decimal text_year_csv with
    | Ok df => df
    | Raise _ => []
    end.

(** A year that reads as infinity. *)
Definition infinite_year_csv : DataFrame :=
  [ mkSeries "Country" object [Str "France"; Str "Japan"];
    mkSeries "Year" object [Str "2010"; Str "inf"] ].

(** Closes a decidable goal by evaluation. *)
Ltac by_compute :=
  match goal with
  | |- ?P => apply (bool_decide_unpack P); vm_compute; exact I
  end.
(** * Properties *)

(** ** Boolean masks *)

Section mask_filter_facts.
Context {A B C : Type}.
Implicit Types (m : list bool) (xs : list A).

Lemma mask_filter_nil_r m : mask_filter m (@nil A) = [].
Proof. by destruct m as [|[] m]. Qed.

Lemma mask_filter_fmap (f : A -> B) m xs :
  mask_filter m (f <$> xs) = f <$> mask_filter m xs.
Proof.
  revert xs. induction m as [|b m IH]; intros [|x xs]; simpl; try done.
  destruct b; simpl; by rewrite IH.
Qed.

Lemma mask_filter_zip_with (f : A -> B -> C) m xs (ys : list B) :
  mask_filter m (zip_with f xs ys)
  = zip_with f (mask_filter m xs) (mask_filter m ys).
Proof.
  revert xs ys. induction m as [|b m IH]; intros [|x xs] [|y ys]; simpl; try done.
  - destruct b; simpl; by rewrite ?zip_with_nil_r.
  - destruct b; simpl; by rewrite IH.
Qed.

Lemma mask_filter_pred (P : A -> Prop) `{!forall x, Decision (P x)} xs :
  mask_filter ((fun x => bool_decide (P x)) <$> xs) xs = filter P xs.
Proof.
  induction xs as [|x xs IH]; [done|].
  rewrite filter_cons, fmap_cons. cbn [mask_filter]. rewrite IH.
  destruct (decide (P x)) as [HP|HP].
  - by rewrite bool_decide_true by done.
  - by rewrite bool_decide_false by done.
Qed.

Lemma mask_filter_length m xs :
  length m = length xs -> length (mask_filter m xs) = popcount m.
Proof.
  unfold popcount. revert xs.
  induction m as [|b m IH]; intros [|x xs] Hlen; simpl in *; try done.
  destruct b; simpl; rewrite (IH xs) by lia; done.
Qed.

Lemma mask_filter_replicate m n (x : A) :
  length m = n -> mask_filter m (replicate n x) = replicate (popcount m) x.
Proof.
  unfold popcount. revert n.
  induction m as [|b m IH]; intros [|n] Hlen; simpl in *; try done.
  destruct b; simpl; rewrite (IH n) by lia; done.
Qed.

Lemma mask_filter_all m xs :
  Forall (fun b => b = true) m -> length m = length xs -> mask_filter m xs = xs.
Proof.
  intros Hall. revert xs.
  induction Hall as [|b m -> _ IH]; intros [|x xs] Hlen; simpl in *; try done.
  by rewrite IH by lia.
Qed.

Lemma mask_filter_sublist m xs : mask_filter m xs `sublist_of` xs.
Proof.
  revert xs. induction m as [|b m IH]; intros [|x xs]; simpl; try done.
  - apply sublist_nil_l.
  - destruct b; [by apply sublist_skip|by apply sublist_cons].
Qed.

Lemma elem_of_mask_filter m xs x : x ∈ mask_filter m xs -> x ∈ xs.
Proof. intros Hx. eapply elem_of_sublist; [exact Hx|apply mask_filter_sublist]. Qed.

End mask_filter_facts.

(** ** Duplicates: first occurrences are kept *)

Section unique_facts.
Context {A : Type} `{EqDecision A}.
Implicit Types (xs seen : list A).

Lemma length_duplicated_from seen xs :
  length (duplicated_from seen xs) = length xs.
Proof.
  revert seen. induction xs as [|x xs IH]; intros seen; simpl; [done|].
  by rewrite IH.
Qed.

(** A position is flagged exactly when its value has occurred before. *)
Lemma duplicated_from_lookup seen xs i x :
  xs !! i = Some x ->
  duplicated_from seen xs !! i
  = Some (bool_decide (x ∈ seen \/ x ∈ take i xs)).
Proof.
  revert seen i. induction xs as [|y xs IH]; intros seen [|i] Hi;
    simplify_eq/=.
  - f_equal. apply bool_decide_ext. rewrite elem_of_nil. tauto.
  - rewrite (IH _ _ Hi). f_equal. apply bool_decide_ext.
    rewrite !elem_of_cons. tauto.
Qed.

Lemma elem_of_keep_first seen xs x :
  x ∈ mask_filter (negb <$> duplicated_from seen xs) xs
  <-> x ∈ xs /\ x ∉ seen.
Proof.
  revert seen. induction xs as [|y xs IH]; intros seen; simpl.
  - rewrite elem_of_nil. tauto.
  - case_bool_decide as Hy; simpl.
    + rewrite IH, !elem_of_cons.
      split; [tauto|]. intros [[->|Hx] Hn]; [done|]. split; [done|].
      intros [->|?]; done.
    + rewrite elem_of_cons, IH, !elem_of_cons.
      split.
      * intros [->|[Hx Hn]]; [tauto|]. split; [tauto|]. tauto.
      * intros [[->|Hx] Hn]; [tauto|].
        destruct (decide (x = y)) as [->|Hne]; [tauto|]. right.
        split; [done|]. tauto.
Qed.

Lemma NoDup_keep_first seen xs :
  NoDup (mask_filter (negb <$> duplicated_from seen xs) xs).
Proof.
  revert seen. induction xs as [|y xs IH]; intros seen; simpl.
  - constructor.
  - case_bool_decide as Hy; simpl; [apply IH|].
    constructor; [|apply IH].
    rewrite elem_of_keep_first, elem_of_cons. tauto.
Qed.

Lemma keep_first_NoDup seen xs :
  NoDup xs -> (forall x, x ∈ xs -> x ∉ seen) ->
  Forall (fun b => b = false) (duplicated_from seen xs).
Proof.
  revert seen. induction xs as [|y xs IH]; intros seen Hnd Hseen; simpl.
  - constructor.
  - apply NoDup_cons in Hnd as [Hy Hnd]. constructor.
    + apply bool_decide_eq_false. apply Hseen. by left.
    + apply IH; [done|]. intros x Hx [->|Hx']%elem_of_cons; [done|].
      eapply Hseen; [by right|done].
Qed.

Lemma NoDup_unique xs : NoDup (unique xs).
Proof. apply NoDup_keep_first. Qed.

Lemma elem_of_unique xs x : x ∈ unique xs <-> x ∈ xs.
Proof. unfold unique. rewrite elem_of_keep_first, elem_of_nil. tauto. Qed.

Lemma unique_sublist xs : unique xs `sublist_of` xs.
Proof. apply mask_filter_sublist. Qed.

Lemma unique_NoDup xs : NoDup xs -> unique xs = xs.
Proof.
  intros Hnd. unfold unique. apply mask_filter_all.
  - apply Forall_fmap. eapply Forall_impl.
    + apply keep_first_NoDup; [done|]. intros x _. apply not_elem_of_nil.
    + by intros b ->.
  - by rewrite length_fmap, length_duplicated_from.
Qed.

End unique_facts.

(** ** Rows and columns of a frame *)

Lemma length_rows_from n (df : DataFrame) :
  Forall (fun c => length (values c) = n) df -> length (rows_from n df) = n.
Proof.
  induction 1 as [|c df Hc _ IH]; simpl.
  - by rewrite length_replicate.
  - rewrite length_zip_with. lia.
Qed.

Lemma length_rows (df : DataFrame) :
  well_formed df -> length (rows df) = nrows df.
Proof. apply length_rows_from. Qed.

Lemma rows_from_bool_index m n (df : DataFrame) :
  length m = n ->
  Forall (fun c => length (values c) = n) df ->
  rows_from (popcount m) (bool_index m df) = mask_filter m (rows_from n df).
Proof.
  intros Hm. induction 1 as [|c df Hc _ IH]; simpl.
  - by rewrite mask_filter_replicate.
  - by rewrite IH, mask_filter_zip_with.
Qed.

Lemma rows_bool_index m (df : DataFrame) :
  well_formed df -> length m = nrows df ->
  rows (bool_index m df) = mask_filter m (rows df).
Proof.
  intros Hwf Hm. destruct df as [|c df].
  - unfold rows; simpl. by rewrite mask_filter_nil_r.
  - unfold rows at 1. change (nrows (bool_index m (c :: df)))
      with (length (mask_filter m (values c))).
    rewrite mask_filter_length by done.
    by apply rows_from_bool_index.
Qed.

Lemma columns_bool_index m (df : DataFrame) :
  columns (bool_index m df) = columns df.
Proof. unfold columns, bool_index. rewrite <-list_fmap_compose. done. Qed.

Lemma well_formed_bool_index m (df : DataFrame) :
  well_formed df -> length m = nrows df -> well_formed (bool_index m df).
Proof.
  intros Hwf Hm. destruct df as [|c df]; [constructor|].
  unfold well_formed in *.
  change (nrows (bool_index m (c :: df))) with (length (mask_filter m (values c))).
  rewrite mask_filter_length by done.
  unfold bool_index. rewrite Forall_fmap.
  eapply Forall_impl; [exact Hwf|]. intros c' Hc'; simpl in *.
  apply mask_filter_length. congruence.
Qed.

Lemma project_zip_with_cons_0 (vs : Row) (rs : list Row) :
  length vs = length rs ->
  (fun r : Row => r !!! 0%nat) <$> zip_with cons vs rs = vs.
Proof.
  revert rs. induction vs as [|v vs IH]; intros [|r rs] Hlen; simpl in *; try done.
  f_equal. apply IH. lia.
Qed.

Lemma project_zip_with_cons_S i (vs : Row) (rs : list Row) :
  length vs = length rs ->
  (fun r : Row => r !!! S i) <$> zip_with cons vs rs
  = (fun r : Row => r !!! i) <$> rs.
Proof.
  revert rs. induction vs as [|v vs IH]; intros [|r rs] Hlen; simpl in *; try done.
  f_equal. apply IH. lia.
Qed.

(** The values of a column are the projection of the rows on its
    position. *)
Lemma column_of_rows_from n (df : DataFrame) i c :
  Forall (fun c => length (values c) = n) df ->
  df !! i = Some c ->
  (fun r : Row => r !!! i) <$> rows_from n df = values c.
Proof.
  intros Hwf. revert i. induction Hwf as [|c0 df Hc0 Hwf IH]; intros i Hi; [done|].
  pose proof (length_rows_from n df Hwf) as Hlen. simpl.
  destruct i as [|i]; simpl in *.
  - injection Hi as <-. apply project_zip_with_cons_0. congruence.
  - rewrite <-(IH i Hi). apply project_zip_with_cons_S. congruence.
Qed.

Lemma getitem_Ok_inv e (df : DataFrame) key s :
  getitem e df key = Ok s -> filter (fun c => name c = key) df = [s].
Proof.
  unfold getitem. intros H.
  destruct (filter _ df) as [|c [|c' l]]; simplify_eq; done.
Qed.

Lemma filter_singleton_index (df : DataFrame) key s :
  filter (fun c => name c = key) df = [s] ->
  exists i, column_index key df = Some i /\ df !! i = Some s /\ name s = key.
Proof.
  unfold column_index.
  induction df as [|c df IH]; intros Hf; [done|].
  rewrite filter_cons in Hf. simpl. destruct (decide (name c = key)) as [Hc|Hc].
  - injection Hf as -> _. exists 0%nat. done.
  - destruct (IH Hf) as (i & Hi & Hl & Hn).
    exists (S i). split_and!; [|done|done].
    destruct (list_find _ df) as [[j x]|]; simplify_eq/=. done.
Qed.

Lemma column_of_rows e (df : DataFrame) key s :
  well_formed df -> getitem e df key = Ok s ->
  at_label df key <$> rows df = values s.
Proof.
  intros Hwf Hg. apply getitem_Ok_inv, filter_singleton_index in Hg.
  destruct Hg as (i & Hi & Hl & _).
  unfold at_label. rewrite Hi. by apply column_of_rows_from.
Qed.

Lemma column_index_columns key (df df' : DataFrame) :
  columns df = columns df' -> column_index key df = column_index key df'.
Proof.
  intros Hcols.
  assert (forall d : DataFrame,
    column_index key d = fst <$> list_find (fun n => n = key) (columns d)) as Hd.
  { intros d. unfold column_index, columns.
    induction d as [|c d IH]; [done|]. cbn.
    destruct (decide (name c = key)); [done|].
    destruct (list_find (fun c => name c = key) d) as [[i x]|];
      destruct (list_find (fun n => n = key) (name <$> d)) as [[j y]|];
      simplify_eq/=; done. }
  by rewrite !Hd, Hcols.
Qed.

Lemma at_label_columns key (df df' : DataFrame) r :
  columns df = columns df' -> at_label df key r = at_label df' key r.
Proof. intros H. unfold at_label. by rewrite (column_index_columns key df df'). Qed.

Lemma getitem_elem_of e (df : DataFrame) key s :
  getitem e df key = Ok s -> s ∈ df /\ name s = key.
Proof.
  intros H%getitem_Ok_inv.
  assert (s ∈ filter (fun c => name c = key) df) as Hin by (rewrite H; set_solver).
  by apply list_elem_of_filter in Hin as [? ?].
Qed.

Lemma well_formed_length (df : DataFrame) s :
  well_formed df -> s ∈ df -> length (values s) = nrows df.
Proof. unfold well_formed. rewrite Forall_forall. auto. Qed.

Lemma filter_label_absent key (df : DataFrame) :
  key ∉ columns df -> filter (fun c => name c = key) df = [].
Proof.
  unfold columns. induction df as [|c df IH]; intros Hk; [done|].
  rewrite fmap_cons in Hk. apply not_elem_of_cons in Hk as [Hc Hk].
  rewrite filter_cons, decide_False by done. by apply IH.
Qed.

Lemma filter_label_unique key (df : DataFrame) s :
  NoDup (columns df) -> s ∈ df -> name s = key ->
  filter (fun c => name c = key) df = [s].
Proof.
  unfold columns. induction df as [|c df IH]; intros Hnd Hs Hn.
  - by apply elem_of_nil in Hs.
  - rewrite fmap_cons in Hnd. apply NoDup_cons in Hnd as [Hc Hnd].
    rewrite filter_cons. apply elem_of_cons in Hs as [->|Hs].
    + rewrite decide_True by done. f_equal.
      apply filter_label_absent. by rewrite Hn in Hc.
    + rewrite decide_False; [by apply IH|].
      intros Hcn. apply Hc. rewrite Hcn, <-Hn. by apply list_elem_of_fmap_2.
Qed.

Lemma getitem_unique e (df : DataFrame) key s :
  NoDup (columns df) -> s ∈ df -> name s = key -> getitem e df key = Ok s.
Proof.
  intros Hnd Hs Hn. unfold getitem. by rewrite (filter_label_unique key df s).
Qed.

Lemma getitem_absent e (df : DataFrame) key :
  ~ (key ∈ columns df) -> getitem e df key = Raise (KeyError key).
Proof. intros Hk. unfold getitem. by rewrite filter_label_absent. Qed.

Lemma getitem_present e (df : DataFrame) key :
  NoDup (columns df) -> key ∈ columns df -> exists c, getitem e df key = Ok c.
Proof.
  intros Hnd (c & -> & Hc)%list_elem_of_fmap. exists c. by apply getitem_unique.
Qed.

(** *** Assignment of a column *)

Lemma setitem_present (df : DataFrame) key s :
  key ∈ columns df ->
  setitem df key s
  = (fun c => if decide (name c = key)
              then mkSeries key (dtype s) (values s) else c) <$> df.
Proof. intros H. unfold setitem. by rewrite bool_decide_true. Qed.

Lemma setitem_absent (df : DataFrame) key s :
  key ∉ columns df ->
  setitem df key s = df ++ [mkSeries key (dtype s) (values s)].
Proof. intros H. unfold setitem. by rewrite bool_decide_false. Qed.

Lemma columns_setitem_present (df : DataFrame) key s :
  key ∈ columns df -> columns (setitem df key s) = columns df.
Proof.
  intros H. rewrite setitem_present by done. unfold columns.
  rewrite <-list_fmap_compose. apply list_fmap_ext.
  intros i c _. simpl. by destruct (decide (name c = key)).
Qed.

Lemma NoDup_columns_setitem (df : DataFrame) key s :
  NoDup (columns df) -> NoDup (columns (setitem df key s)).
Proof.
  intros Hnd. destruct (decide (key ∈ columns df)) as [Hk|Hk].
  - by rewrite columns_setitem_present.
  - rewrite setitem_absent by done. unfold columns in *.
    rewrite fmap_app. apply NoDup_app. split_and!; [done| |apply NoDup_singleton].
    intros x Hx Hx'. apply list_elem_of_singleton in Hx'. simpl in Hx'. by subst.
Qed.

Lemma getitem_setitem_eq e (df : DataFrame) key s :
  NoDup (columns df) ->
  getitem e (setitem df key s) key = Ok (mkSeries key (dtype s) (values s)).
Proof.
  intros Hnd. apply getitem_unique; [by apply NoDup_columns_setitem| |done].
  destruct (decide (key ∈ columns df)) as [Hk|Hk].
  - rewrite setitem_present by done.
    apply list_elem_of_fmap in Hk as (c & -> & Hc).
    apply list_elem_of_fmap. exists c. by rewrite decide_True.
  - rewrite setitem_absent by done. set_solver.
Qed.

Lemma getitem_setitem_ne e (df : DataFrame) key key' s :
  key <> key' -> getitem e (setitem df key s) key' = getitem e df key'.
Proof.
  intros Hne. unfold getitem.
  assert (filter (fun c => name c = key') (setitem df key s)
          = filter (fun c => name c = key') df) as ->; [|done].
  destruct (decide (key ∈ columns df)) as [Hk|Hk].
  - rewrite setitem_present by done. clear Hk.
    induction df as [|c df IH]; [done|].
    rewrite fmap_cons, !filter_cons, IH.
    destruct (decide (name c = key)) as [Hc|Hc]; simpl.
    + rewrite !decide_False by congruence. done.
    + done.
  - rewrite setitem_absent by done. rewrite filter_app, filter_cons. simpl.
    rewrite decide_False by done. by rewrite filter_nil, app_nil_r.
Qed.

Lemma nrows_setitem (df : DataFrame) key s :
  length (values s) = nrows df -> nrows (setitem df key s) = nrows df.
Proof.
  intros Hlen. destruct (decide (key ∈ columns df)) as [Hk|Hk].
  - rewrite setitem_present by done. destruct df as [|c df]; [done|]. simpl.
    by destruct (decide (name c = key)).
  - rewrite setitem_absent by done. by destruct df.
Qed.

Lemma well_formed_setitem (df : DataFrame) key s :
  well_formed df -> length (values s) = nrows df ->
  well_formed (setitem df key s).
Proof.
  intros Hwf Hlen. unfold well_formed. rewrite nrows_setitem by done.
  destruct (decide (key ∈ columns df)) as [Hk|Hk].
  - rewrite setitem_present by done. rewrite Forall_fmap.
    eapply Forall_impl; [exact Hwf|]. intros c Hc. simpl.
    by destruct (decide (name c = key)).
  - rewrite setitem_absent by done. apply Forall_app. split; [done|].
    by apply Forall_singleton.
Qed.

(** *** Rows depend on the values of the columns only *)

Lemma nrows_values (df df' : DataFrame) :
  values <$> df = values <$> df' -> nrows df = nrows df'.
Proof. destruct df, df'; intros H; simplify_eq/=; congruence. Qed.

Lemma rows_from_values n (df df' : DataFrame) :
  values <$> df = values <$> df' -> rows_from n df = rows_from n df'.
Proof.
  revert df'. induction df as [|c df IH]; intros [|c' df'] H; simplify_eq/=; [done|].
  f_equal; [done|by apply IH].
Qed.

Lemma rows_values (df df' : DataFrame) :
  values <$> df = values <$> df' -> rows df = rows df'.
Proof.
  intros H. unfold rows. rewrite (nrows_values df df' H). by apply rows_from_values.
Qed.

Lemma well_formed_values (df df' : DataFrame) :
  values <$> df = values <$> df' -> well_formed df -> well_formed df'.
Proof.
  intros H. unfold well_formed. rewrite (nrows_values df df' H).
  generalize (nrows df'). intros n Hwf.
  apply (Forall_fmap values (fun vs => length vs = n)).
  rewrite <-H. by apply Forall_fmap.
Qed.

Lemma values_set_columns (f : string -> string) (df : DataFrame) :
  values <$> set_columns (f <$> columns df) df = values <$> df.
Proof.
  unfold set_columns, columns. induction df as [|c df IH]; [done|].
  rewrite !fmap_cons. cbn [zip_with]. rewrite fmap_cons. by rewrite IH.
Qed.

Lemma length_duplicated (df : DataFrame) :
  well_formed df -> length (negb <$> duplicated df) = nrows df.
Proof.
  intros Hwf. unfold duplicated.
  by rewrite length_fmap, length_duplicated_from, length_rows.
Qed.

Lemma rows_drop_duplicates (df : DataFrame) :
  well_formed df -> rows (drop_duplicates df) = unique (rows df).
Proof.
  intros Hwf. unfold drop_duplicates.
  by rewrite rows_bool_index by (by try apply length_duplicated).
Qed.

Lemma well_formed_drop_duplicates (df : DataFrame) :
  well_formed df -> well_formed (drop_duplicates df).
Proof.
  intros Hwf. apply well_formed_bool_index; [done|by apply length_duplicated].
Qed.

Lemma rows_deduplicated (df : DataFrame) :
  well_formed df -> rows (deduplicated df) = unique (rows df).
Proof.
  intros Hwf. unfold deduplicated.
  rewrite rows_drop_duplicates.
  - by rewrite (rows_values _ df (values_set_columns clean_col df)).
  - eapply well_formed_values; [|exact Hwf]. symmetry. apply values_set_columns.
Qed.

Lemma well_formed_deduplicated (df : DataFrame) :
  well_formed df -> well_formed (deduplicated df).
Proof.
  intros Hwf. apply well_formed_drop_duplicates.
  eapply well_formed_values; [|exact Hwf]. symmetry. apply values_set_columns.
Qed.

Lemma Forall2_lengths_well_formed (l l' : DataFrame) :
  Forall2 (fun c c' => length (values c') = length (values c)) l l' ->
  well_formed l -> well_formed l' /\ nrows l' = nrows l.
Proof.
  intros HF Hwf.
  assert (nrows l' = nrows l) as Hn by (destruct HF; simpl; congruence).
  split; [|done]. unfold well_formed in *. rewrite Hn.
  revert Hwf. generalize (nrows l). clear Hn. intros n Hwf.
  induction HF as [|c c' l l' Hc _ IH]; [constructor|].
  apply Forall_cons in Hwf as [Hcn Hwf]. constructor; [congruence|by apply IH].
Qed.

(** ** Exceptions and traversals *)

Lemma bind_Ok_inv {A B} (m : result A) (f : A -> result B) b :
  m ≫= f = Ok b -> exists a, m = Ok a /\ f a = Ok b.
Proof. destruct m as [a|e]; simpl; [eauto|done]. Qed.

Lemma traverse_Ok_Forall2 {A B} (f : A -> result B) xs ys :
  traverse f xs = Ok ys <-> Forall2 (fun x y => f x = Ok y) xs ys.
Proof.
  revert ys. induction xs as [|x xs IH]; intros ys; simpl.
  - split; [intros [= <-]; constructor|by inversion 1].
  - split.
    + intros (y & Hy & H)%bind_Ok_inv. apply bind_Ok_inv in H as (ys' & Hys & [= <-]).
      constructor; [done|by apply IH].
    + inversion 1 as [|? y ? ys' Hy Hys]; subst.
      rewrite Hy. simpl. apply IH in Hys. rewrite Hys. done.
Qed.

(** ** Integers and integral floats *)

Lemma Qc_to_Z_of_Z z : Qc_to_Z (Qc_of_Z z) = Some z.
Proof.
  unfold Qc_to_Z, Qc_of_Z, inject_Z. simpl. unfold Qred.
  pose proof (Z.ggcd_gcd z 1) as Hg.
  pose proof (Z.ggcd_correct_divisors z 1) as Hd.
  destruct (Z.ggcd z 1) as [g [a b]]. simpl in *.
  rewrite Z.gcd_1_r in Hg. subst g. destruct Hd as [Ha Hb].
  assert (a = z) as -> by lia. assert (b = 1) as -> by lia.
  done.
Qed.

Lemma to_Int64_cell_to_float v : to_Int64_cell (to_float v) = to_Int64_cell v.
Proof. destruct v; simpl; try done. by rewrite Qc_to_Z_of_Z. Qed.

Lemma to_Int64_cell_Ok v v' :
  to_Int64_cell v = Some v' -> integer_or_null v'.
Proof.
  unfold integer_or_null.
  destruct v as [|s|z|q|b]; simpl; try done.
  - intros [= <-]. by left.
  - destruct (in_int64 z) eqn:Hz; [|done]. intros [= <-]. right. eauto.
  - destruct (Qc_to_Z q) as [z|]; [|done].
    destruct (in_int64 z) eqn:Hz; [|done]. intros [= <-]. right. eauto.
Qed.

Lemma to_Int64_cell_fixed v :
  integer_or_null v -> to_Int64_cell v = Some v.
Proof. intros [->|(z & -> & Hz)]; simpl; [done|]. by rewrite Hz. Qed.

Lemma mapM_fmap_compose {A B C} (f : B -> option C) (g : A -> B) xs :
  mapM f (g <$> xs) = mapM (fun x => f (g x)) xs.
Proof.
  induction xs as [|x xs IH]; [done|].
  rewrite fmap_cons. cbn [mapM]. by rewrite IH.
Qed.

Lemma traverse_total {A B} (f : A -> result B) xs :
  (forall x, x ∈ xs -> is_ok (f x) = true) -> exists ys, traverse f xs = Ok ys.
Proof.
  induction xs as [|x xs IH]; intros H; simpl; [eauto|].
  pose proof (H x ltac:(left)) as Hx. destruct (f x) as [y|]; [|done].
  destruct IH as [ys Hys]; [intros z Hz; apply H; by right|].
  rewrite Hys. simpl. eauto.
Qed.

Lemma Forall2_elem_of_r {A B} (P : A -> B -> Prop) xs ys y :
  Forall2 P xs ys -> y ∈ ys -> exists x, x ∈ xs /\ P x y.
Proof.
  intros HF (i & Hi)%list_elem_of_lookup_1.
  destruct (Forall2_lookup_r _ _ _ _ _ HF Hi) as (x & Hx & HP).
  exists x. split; [by eapply list_elem_of_lookup_2|done].
Qed.

Lemma Forall2_elem_of_l {A B} (P : A -> B -> Prop) xs ys x :
  Forall2 P xs ys -> x ∈ xs -> exists y, y ∈ ys /\ P x y.
Proof.
  intros HF (i & Hi)%list_elem_of_lookup_1.
  destruct (Forall2_lookup_l _ _ _ _ _ HF Hi) as (y & Hy & HP).
  exists y. split; [by eapply list_elem_of_lookup_2|done].
Qed.

(** ** The Normalizer, column by column *)

Section Normalizer_facts.

Variable parse_number : string -> option number.

Local Abbreviation convert_cell := (convert_cell parse_number).
Local Abbreviation to_numeric_coerce := (to_numeric_coerce parse_number).
Local Abbreviation to_numeric_ignore := (to_numeric_ignore parse_number).
Local Abbreviation year_to_integer := (year_to_integer parse_number).
Local Abbreviation year_column := (year_column parse_number).
Local Abbreviation year_cell := (year_cell parse_number).
Local Abbreviation coerce_column := (coerce_column parse_number).
Local Abbreviation normalize_column := (normalize_column parse_number).
Local Abbreviation coerce_step := (coerce_step parse_number).
Local Abbreviation normalize := (normalize parse_number).

Lemma name_pack_numeric label vs : name (pack_numeric label vs) = label.
Proof. unfold pack_numeric. by destruct (forallb is_int vs). Qed.

Lemma name_to_numeric_ignore c : name (to_numeric_ignore c) = name c.
Proof.
  unfold to_numeric_ignore. destruct (is_numeric_dtype (dtype c)); [done|].
  destruct (mapM _ _); [apply name_pack_numeric|done].
Qed.

Lemma name_to_numeric_coerce c : name (to_numeric_coerce c) = name c.
Proof.
  unfold to_numeric_coerce. destruct (is_numeric_dtype (dtype c)); [done|].
  apply name_pack_numeric.
Qed.

Lemma name_coerce_column c : name (coerce_column c) = name c.
Proof.
  unfold coerce_column. destruct (_ && _); [apply name_to_numeric_ignore|done].
Qed.

Lemma name_category_column c : name (category_column c) = name c.
Proof. unfold category_column. by destruct (decide _). Qed.

Lemma astype_Int64_Ok s s' :
  astype_Int64 s = Ok s' ->
  name s' = name s /\ dtype s' = Int64
  /\ Forall2 (fun v v' => to_Int64_cell v = Some v') (values s) (values s').
Proof.
  unfold astype_Int64. destruct (mapM _ _) as [vs|] eqn:Hvs; [|done].
  intros [= <-]. split_and!; [done|done|]. by apply mapM_Some.
Qed.

Lemma name_year_column c c' : year_column c = Ok c' -> name c' = name c.
Proof.
  unfold year_column. destruct (decide _).
  - intros (-> & _ & _)%astype_Int64_Ok. apply name_to_numeric_coerce.
  - by intros [= ->].
Qed.

Lemma name_normalize_column c c' : normalize_column c = Ok c' -> name c' = name c.
Proof.
  unfold normalize_column. intros (c1 & H1 & [= <-])%bind_Ok_inv.
  rewrite name_coerce_column. apply name_year_column in H1.
  by rewrite H1, name_category_column.
Qed.

(** A column that [pd.to_numeric] has produced is numeric, and one it
    has left alone is left alone again. *)
Lemma dtype_pack_numeric label vs :
  is_numeric_dtype (dtype (pack_numeric label vs)) = true.
Proof. unfold pack_numeric. by destruct (forallb is_int vs). Qed.

Lemma to_numeric_ignore_idem c :
  to_numeric_ignore (to_numeric_ignore c) = to_numeric_ignore c.
Proof.
  unfold to_numeric_ignore at 2 3.
  destruct (is_numeric_dtype (dtype c)) eqn:Hd.
  - unfold to_numeric_ignore. by rewrite Hd.
  - destruct (mapM _ _) as [vs|] eqn:Hm.
    + unfold to_numeric_ignore. by rewrite dtype_pack_numeric.
    + unfold to_numeric_ignore. by rewrite Hd, Hm.
Qed.

Lemma coerce_column_idem c : coerce_column (coerce_column c) = coerce_column c.
Proof.
  unfold coerce_column at 2 3.
  destruct (bool_decide (dtype c = object) && _) eqn:Hc.
  - unfold coerce_column. rewrite name_to_numeric_ignore.
    destruct (bool_decide (dtype (to_numeric_ignore c) = object) && _);
      [apply to_numeric_ignore_idem|done].
  - unfold coerce_column. by rewrite Hc.
Qed.


(** *** The assignments of lines 26-44 as maps over the columns *)

Lemma set_columns_fmap (f : string -> string) (df : DataFrame) :
  set_columns (f <$> columns df) df
  = (fun c => mkSeries (f (name c)) (dtype c) (values c)) <$> df.
Proof.
  unfold set_columns, columns. induction df as [|c df IH]; [done|].
  rewrite !fmap_cons. cbn [zip_with]. by rewrite IH.
Qed.

Lemma columns_set_columns (f : string -> string) (df : DataFrame) :
  columns (set_columns (f <$> columns df) df) = f <$> columns df.
Proof.
  rewrite set_columns_fmap. unfold columns. by rewrite <-!list_fmap_compose.
Qed.

Lemma filter_singleton_label (df : DataFrame) key c :
  filter (fun x => name x = key) df = [c] ->
  c ∈ df /\ name c = key /\ key ∈ columns df.
Proof.
  intros Hf.
  assert (c ∈ filter (fun x => name x = key) df) as Hin by (rewrite Hf; set_solver).
  apply list_elem_of_filter in Hin as [Hn Hin]. split_and!; [done|done|].
  unfold columns. rewrite <-Hn. by apply list_elem_of_fmap_2.
Qed.

Lemma filter_singleton_eq (df : DataFrame) key c x :
  filter (fun x => name x = key) df = [c] -> x ∈ df -> name x = key -> x = c.
Proof.
  intros Hf Hx Hn.
  assert (x ∈ filter (fun x => name x = key) df) as Hin
    by (by apply list_elem_of_filter).
  rewrite Hf in Hin. by apply list_elem_of_singleton in Hin.
Qed.

Lemma getitem_singleton e (df : DataFrame) key c :
  filter (fun x => name x = key) df = [c] -> getitem e df key = Ok c.
Proof. intros Hf. unfold getitem. by rewrite Hf. Qed.

Lemma fmap_ext_elem_of {A B} (f g : A -> B) (l : list A) :
  (forall x, x ∈ l -> f x = g x) -> f <$> l = g <$> l.
Proof.
  intros H. apply list_fmap_ext. intros i x Hx. apply H.
  by eapply list_elem_of_lookup_2.
Qed.

Lemma categorical_fmap key (df : DataFrame) :
  categorical key df
  = (fun c => if decide (name c = key) then astype_category c else c) <$> df.
Proof.
  unfold categorical. case_bool_decide as Hk; [done|].
  rewrite <-(list_fmap_id df) at 1. apply fmap_ext_elem_of.
  intros c Hc. rewrite decide_False; [done|].
  intros Hn. apply Hk. unfold columns. rewrite <-Hn. by apply list_elem_of_fmap_2.
Qed.

Lemma categorical_both (df : DataFrame) :
  categorical "gender" (categorical "country" df) = category_column <$> df.
Proof.
  rewrite !categorical_fmap, <-list_fmap_compose. apply list_fmap_ext.
  intros _ c _. unfold category_column. simpl.
  destruct (decide (name c = "country")) as [Hc|Hc]; simpl.
  - rewrite decide_False by (rewrite Hc; done). by rewrite decide_True by auto.
  - destruct (decide (name c = "gender")) as [Hg|Hg].
    + by rewrite decide_True by auto.
    + by rewrite decide_False by tauto.
Qed.

Lemma series_eta (s : Series) : mkSeries (name s) (dtype s) (values s) = s.
Proof. by destruct s. Qed.

Lemma year_to_integer_Ok (df df' : DataFrame) :
  year_to_integer df = Ok df' ->
  Forall2 (fun c c' => year_column c = Ok c') df df'.
Proof.
  unfold year_to_integer. case_bool_decide as Hy.
  - intros (year & Hg & H)%bind_Ok_inv.
    apply bind_Ok_inv in H as (year' & Ha & [= <-]).
    apply getitem_Ok_inv in Hg.
    destruct (filter_singleton_label _ _ _ Hg) as (Hin & Hn & Hk).
    rewrite setitem_present by done.
    apply Forall2_fmap_r, Forall_Forall2_diag, Forall_forall. intros c Hc.
    unfold year_column. simpl. destruct (decide (name c = "year")) as [Hcn|Hcn]; [|done].
    rewrite (filter_singleton_eq _ _ _ _ Hg Hc Hcn), Ha. f_equal.
    destruct (astype_Int64_Ok _ _ Ha) as (Hn' & _ & _).
    rewrite name_to_numeric_coerce, Hn in Hn'. rewrite <-Hn'. by rewrite series_eta.
  - intros [= <-]. apply Forall_Forall2_diag, Forall_forall. intros c Hc.
    unfold year_column. rewrite decide_False; [done|].
    intros Hn. apply Hy. unfold columns. rewrite <-Hn. by apply list_elem_of_fmap_2.
Qed.

Lemma Forall2_Ok_fmap {A B} (f : A -> result B) (g : A -> B) xs ys :
  Forall2 (fun x y => f x = Ok y) xs ys ->
  (forall x, x ∈ xs -> f x = Ok (g x)) ->
  ys = g <$> xs.
Proof.
  induction 1 as [|x y xs ys Hxy _ IH]; intros Hg; [done|].
  rewrite fmap_cons. f_equal.
  - specialize (Hg x ltac:(left)). congruence.
  - apply IH. intros x' Hx'. apply Hg. by right.
Qed.

Lemma year_to_integer_unique (df df' : DataFrame) :
  NoDup (columns df) ->
  Forall2 (fun c c' => year_column c = Ok c') df df' ->
  year_to_integer df = Ok df'.
Proof.
  intros Hnd HF. unfold year_to_integer. case_bool_decide as Hy.
  - apply list_elem_of_fmap in Hy as (year & Hn & Hin). symmetry in Hn.
    rewrite (getitem_unique _ df "year" year) by done. simpl.
    destruct (list_elem_of_lookup_1 _ _ Hin) as [i Hi].
    destruct (Forall2_lookup_l _ _ _ _ _ HF Hi) as (year' & _ & Hy').
    revert Hy'. unfold year_column at 1. rewrite decide_True by done.
    intros Hy'. rewrite Hy'. simpl. f_equal.
    rewrite setitem_present
      by (unfold columns; rewrite <-Hn; by apply list_elem_of_fmap_2).
    symmetry. eapply Forall2_Ok_fmap; [exact HF|].
    intros c Hc. unfold year_column. destruct (decide (name c = "year")) as [Hcn|Hcn]; [|done].
    assert (c = year) as ->.
    { eapply filter_singleton_eq; [|done|done].
      by apply filter_label_unique. }
    rewrite Hy'. f_equal.
    destruct (astype_Int64_Ok _ _ Hy') as (Hn' & _ & _).
    rewrite name_to_numeric_coerce, Hn in Hn'. rewrite <-Hn'. by rewrite series_eta.
  - f_equal. symmetry. rewrite <-(list_fmap_id df).
    eapply Forall2_Ok_fmap; [exact HF|].
    intros c Hc. unfold year_column. rewrite decide_False; [done|].
    intros Hn. apply Hy. unfold columns. rewrite <-Hn. by apply list_elem_of_fmap_2.
Qed.


(** *** The loop of lines 42-44 *)

Lemma filter_label_fmap (g : Series -> Series) key (df : DataFrame) :
  (forall x, name (g x) = name x) ->
  filter (fun x => name x = key) (g <$> df)
  = g <$> filter (fun x => name x = key) df.
Proof.
  intros Hg. induction df as [|c df IH]; [done|].
  rewrite fmap_cons, !filter_cons, Hg, IH. by destruct (decide (name c = key)).
Qed.

Lemma unique_label_fmap (g : Series -> Series) key (df : DataFrame) :
  (forall x, name (g x) = name x) ->
  unique_label (g <$> df) key <-> unique_label df key.
Proof.
  intros Hg. unfold unique_label. rewrite filter_label_fmap by done.
  destruct (filter _ df) as [|a [|b l]]; simpl; split; intros [c Hc];
    simplify_eq; eauto.
Qed.

Lemma coerce_step_singleton (df : DataFrame) col c :
  filter (fun x => name x = col) df = [c] ->
  coerce_step df col
  = Ok ((fun x => if decide (name x = col) then coerce_column x else x) <$> df).
Proof.
  intros Hf. destruct (filter_singleton_label _ _ _ Hf) as (Hin & Hn & Hk).
  unfold coerce_step. rewrite (getitem_singleton _ _ _ _ Hf). simpl.
  destruct (bool_decide (dtype c = object) && _) eqn:Hcond; f_equal.
  - rewrite setitem_present by done. apply fmap_ext_elem_of. intros x Hx.
    destruct (decide (name x = col)) as [Hxn|Hxn]; [|done].
    rewrite (filter_singleton_eq _ _ _ _ Hf Hx Hxn).
    unfold coerce_column. rewrite Hn, Hcond.
    rewrite <-Hn, <-(name_to_numeric_ignore c). apply series_eta.
  - rewrite <-(list_fmap_id df) at 1. apply fmap_ext_elem_of. intros x Hx.
    destruct (decide (name x = col)) as [Hxn|Hxn]; [|done].
    rewrite (filter_singleton_eq _ _ _ _ Hf Hx Hxn).
    unfold coerce_column. by rewrite Hn, Hcond.
Qed.

Lemma coerce_step_Ok (df : DataFrame) col df' :
  coerce_step df col = Ok df' -> unique_label df col.
Proof.
  unfold coerce_step. intros (c & Hg & _)%bind_Ok_inv.
  exists c. by apply getitem_Ok_inv in Hg.
Qed.

Lemma for_each_coerce_unique ns (df : DataFrame) :
  Forall (unique_label df) ns ->
  for_each coerce_step ns df
  = Ok ((fun x => if decide (name x ∈ ns) then coerce_column x else x) <$> df).
Proof.
  revert df. induction ns as [|n ns IH]; intros df Hns; simpl.
  - f_equal. rewrite <-(list_fmap_id df) at 1. by apply list_fmap_ext.
  - apply Forall_cons in Hns as [[c Hc] Hns].
    rewrite (coerce_step_singleton _ _ _ Hc). simpl.
    rewrite IH.
    + f_equal. rewrite <-list_fmap_compose. apply list_fmap_ext.
      intros _ x _. simpl.
      destruct (decide (name x = n)) as [Hx|Hx].
      * rewrite name_coerce_column.
        rewrite (decide_True (P := name x ∈ n :: ns)) by (rewrite Hx; left).
        destruct (decide (name x ∈ ns)); [apply coerce_column_idem|done].
      * destruct (decide (name x ∈ ns)) as [Hin|Hin].
        -- by rewrite decide_True by (by right).
        -- rewrite decide_False; [done|].
           intros [?|?]%elem_of_cons; done.
    + eapply Forall_impl; [exact Hns|]. intros k Hk.
      apply unique_label_fmap; [|done].
      intros x. destruct (decide (name x = n)); [apply name_coerce_column|done].
Qed.

Lemma for_each_coerce_Ok ns (df df' : DataFrame) :
  for_each coerce_step ns df = Ok df' -> Forall (unique_label df) ns.
Proof.
  revert df. induction ns as [|n ns IH]; intros df; simpl; [constructor|].
  intros (df1 & H1 & H)%bind_Ok_inv.
  pose proof (coerce_step_Ok _ _ _ H1) as [c Hc].
  constructor; [by exists c|].
  rewrite (coerce_step_singleton _ _ _ Hc) in H1. injection H1 as <-.
  apply IH in H. eapply Forall_impl; [exact H|]. intros k Hk.
  eapply unique_label_fmap; [|exact Hk].
  intros x. simpl. destruct (decide (name x = n)); [apply name_coerce_column|done].
Qed.

Lemma unique_labels_NoDup (df : DataFrame) :
  Forall (unique_label df) (columns df) <-> NoDup (columns df).
Proof.
  split.
  - unfold columns, unique_label. induction df as [|c df IH]; intros Hall.
    + constructor.
    + rewrite fmap_cons in Hall |- *. apply Forall_cons in Hall as [[c0 Hc0] Hall].
      rewrite filter_cons, decide_True in Hc0 by done.
      injection Hc0 as -> Hc0.
      assert (name c0 ∉ name <$> df) as Hnotin.
      { intros (x & Hx & Hin)%list_elem_of_fmap.
        assert (x ∈ filter (fun y => name y = name c0) df) as Hx'
          by (by apply list_elem_of_filter).
        rewrite Hc0 in Hx'. by apply elem_of_nil in Hx'. }
      constructor; [done|]. apply IH.
      apply Forall_forall. intros k Hk.
      rewrite Forall_forall in Hall. destruct (Hall k Hk) as [x Hx].
      rewrite filter_cons in Hx. destruct (decide (name c0 = k)) as [Heq|Hne].
      * subst k. done.
      * by exists x.
  - intros Hnd. apply Forall_forall. intros k (c & -> & Hc)%list_elem_of_fmap.
    exists c. by apply filter_label_unique.
Qed.

Lemma for_each_coerce_columns (df df' : DataFrame) :
  for_each coerce_step (columns df) df = Ok df'
  <-> NoDup (columns df) /\ df' = coerce_column <$> df.
Proof.
  split.
  - intros H. pose proof (for_each_coerce_Ok _ _ _ H) as Hall.
    rewrite (for_each_coerce_unique _ _ Hall) in H. injection H as <-.
    split; [by apply unique_labels_NoDup|].
    apply fmap_ext_elem_of. intros x Hx. rewrite decide_True; [done|].
    by apply list_elem_of_fmap_2.
  - intros [Hnd ->]. rewrite for_each_coerce_unique by (by apply unique_labels_NoDup).
    f_equal. apply fmap_ext_elem_of. intros x Hx. rewrite decide_True; [done|].
    by apply list_elem_of_fmap_2.
Qed.


(** *** The Normalizer as one pass over the columns *)

Lemma columns_Forall2 (f : Series -> result Series) (l l' : DataFrame) :
  (forall c c', f c = Ok c' -> name c' = name c) ->
  Forall2 (fun c c' => f c = Ok c') l l' -> columns l' = columns l.
Proof.
  intros Hf. unfold columns. induction 1 as [|c c' l l' Hc _ IH]; [done|].
  rewrite !fmap_cons. f_equal; [by apply Hf|done].
Qed.

Lemma columns_deduplicated (df : DataFrame) :
  columns (deduplicated df) = clean_col <$> columns df.
Proof.
  unfold deduplicated, drop_duplicates.
  by rewrite columns_bool_index, columns_set_columns.
Qed.

Lemma normalize_unfold (df : DataFrame) :
  normalize df
  = df4 ← year_to_integer (category_column <$> deduplicated df);
    for_each coerce_step (columns df4) df4.
Proof. unfold normalize. by rewrite categorical_both. Qed.

Lemma normalize_Ok (df df' : DataFrame) :
  normalize df = Ok df'
  <-> NoDup (clean_col <$> columns df)
      /\ Forall2 (fun c c' => normalize_column c = Ok c') (deduplicated df) df'.
Proof.
  rewrite normalize_unfold. split.
  - intros (df4 & H4 & Hloop)%bind_Ok_inv.
    apply year_to_integer_Ok in H4.
    apply for_each_coerce_columns in Hloop as [Hnd ->].
    assert (columns df4 = clean_col <$> columns df) as Hcols.
    { rewrite (columns_Forall2 _ _ _ name_year_column H4).
      rewrite <-columns_deduplicated. unfold columns.
      rewrite <-list_fmap_compose. apply list_fmap_ext.
      intros _ c _. apply name_category_column. }
    split; [by rewrite <-Hcols|].
    apply Forall2_fmap_r. apply Forall2_fmap_l in H4.
    eapply Forall2_impl; [exact H4|]. intros c c4 Hc. simpl in Hc.
    unfold normalize_column. by rewrite Hc.
  - intros [Hnd HF].
    assert (exists df4,
      Forall2 (fun c c4 => year_column c = Ok c4)
              (category_column <$> deduplicated df) df4
      /\ df' = coerce_column <$> df4) as (df4 & H4 & ->).
    { clear Hnd. induction HF as [|c c' l l' Hc _ (df4 & H4 & ->)].
      - exists []. split; [constructor|done].
      - unfold normalize_column in Hc.
        apply bind_Ok_inv in Hc as (c4 & Hc4 & [= <-]).
        exists (c4 :: df4). split; [by constructor|done]. }
    assert (columns df4 = clean_col <$> columns df) as Hcols.
    { rewrite (columns_Forall2 _ _ _ name_year_column H4).
      rewrite <-columns_deduplicated. unfold columns.
      rewrite <-list_fmap_compose. apply list_fmap_ext.
      intros _ c _. apply name_category_column. }
    rewrite (year_to_integer_unique _ df4); [|by rewrite <-Hcols in Hnd; rewrite
      (columns_Forall2 _ _ _ name_year_column H4) in Hnd|done].
    simpl. apply for_each_coerce_columns. split; [by rewrite Hcols|done].
Qed.

Lemma normalize_columns (df df' : DataFrame) :
  normalize df = Ok df' ->
  columns df' = clean_col <$> columns df /\ NoDup (columns df').
Proof.
  intros [Hnd HF]%normalize_Ok.
  assert (columns df' = clean_col <$> columns df) as ->; [|done].
  rewrite (columns_Forall2 _ _ _ name_normalize_column HF).
  apply columns_deduplicated.
Qed.


(** *** The Normalizer keeps the shape of the deduplicated table *)

Lemma length_pack_numeric label vs :
  length (values (pack_numeric label vs)) = length vs.
Proof.
  unfold pack_numeric. destruct (forallb is_int vs); simpl; [done|].
  by rewrite length_fmap.
Qed.

Lemma length_to_numeric_coerce c :
  length (values (to_numeric_coerce c)) = length (values c).
Proof.
  unfold to_numeric_coerce. destruct (is_numeric_dtype (dtype c)); [done|].
  by rewrite length_pack_numeric, length_fmap.
Qed.

Lemma length_to_numeric_ignore c :
  length (values (to_numeric_ignore c)) = length (values c).
Proof.
  unfold to_numeric_ignore. destruct (is_numeric_dtype (dtype c)); [done|].
  destruct (mapM _ _) as [vs|] eqn:Hm; [|done].
  rewrite length_pack_numeric. symmetry. by eapply length_mapM.
Qed.

Lemma length_normalize_column c c' :
  normalize_column c = Ok c' -> length (values c') = length (values c).
Proof.
  unfold normalize_column. intros (c1 & H1 & [= <-])%bind_Ok_inv.
  assert (length (values c1) = length (values c)) as <-.
  { revert H1. unfold year_column, category_column.
    destruct (decide (name _ = "year")).
    - intros (_ & _ & HF)%astype_Int64_Ok.
      rewrite <-(Forall2_length _ _ _ HF), length_to_numeric_coerce.
      by destruct (decide _).
    - intros [= <-]. by destruct (decide _). }
  unfold coerce_column. destruct (_ && _); [apply length_to_numeric_ignore|done].
Qed.

Lemma well_formed_normalize (df df' : DataFrame) :
  well_formed df -> normalize df = Ok df' ->
  well_formed df' /\ nrows df' = nrows (deduplicated df).
Proof.
  intros Hwf [_ HF]%normalize_Ok.
  apply Forall2_lengths_well_formed; [|by apply well_formed_deduplicated].
  eapply Forall2_impl; [exact HF|]. apply length_normalize_column.
Qed.


(** *** Lines 38-39, value by value *)

Lemma astype_Int64_to_numeric_coerce c :
  astype_Int64 (to_numeric_coerce c)
  = match mapM (year_cell (dtype c)) (values c) with
    | Some vs => Ok (mkSeries (name c) Int64 vs)
    | None =>
        Raise (cast_error (dtype (to_numeric_coerce c))
                 (values (to_numeric_coerce c)))
    end.
Proof.
  unfold astype_Int64.
  assert (mapM to_Int64_cell (values (to_numeric_coerce c))
          = mapM (year_cell (dtype c)) (values c)) as ->.
  { unfold to_numeric_coerce, year_cell.
    destruct (is_numeric_dtype (dtype c)) eqn:Hd; [done|].
    unfold pack_numeric. destruct (forallb is_int _); simpl.
    - by rewrite mapM_fmap_compose.
    - rewrite !mapM_fmap_compose.
      apply mapM_ext. intros v. apply to_Int64_cell_to_float. }
  by rewrite name_to_numeric_coerce.
Qed.

Lemma year_column_year c c' :
  name c = "year" ->
  year_column c = Ok c' <->
  exists vs, Forall2 (fun v v' => year_cell (dtype c) v = Some v') (values c) vs
             /\ c' = mkSeries "year" Int64 vs.
Proof.
  intros Hn. unfold year_column. rewrite decide_True by done.
  rewrite astype_Int64_to_numeric_coerce, Hn. split.
  - destruct (mapM _ _) as [vs|] eqn:Hvs; [|done]. intros [= <-]. exists vs.
    split; [by apply mapM_Some|done].
  - intros (vs & Hvs & ->). apply mapM_Some in Hvs. by rewrite Hvs.
Qed.

Lemma year_cell_Ok d v v' :
  year_cell d v = Some v' -> integer_or_null v'.
Proof. apply to_Int64_cell_Ok. Qed.

(** A column that is neither the year nor one of the categorical
    columns only meets the loop of lines 42-44. *)
Lemma normalize_column_other c :
  name c ∉ ["country"; "gender"; "year"] ->
  normalize_column c = Ok (coerce_column c).
Proof.
  intros Hn. unfold normalize_column, year_column, category_column.
  destruct (decide (name c = "country" \/ name c = "gender")) as [[H|H]|_];
    [exfalso; apply Hn; rewrite H; set_solver..|].
  destruct (decide (name c = "year")) as [H|_];
    [exfalso; apply Hn; rewrite H; set_solver|].
  done.
Qed.

Lemma normalize_column_categorical c :
  name c = "country" \/ name c = "gender" ->
  normalize_column c = Ok (astype_category c).
Proof.
  intros Hn. unfold normalize_column, year_column, category_column.
  destruct (decide (name c = "country" \/ name c = "gender")) as [_|]; [|done].
  simpl. destruct (decide (name c = "year")) as [H|_];
    [destruct Hn as [Hn|Hn]; by rewrite Hn in H|].
  simpl. by f_equal.
Qed.

Lemma normalize_column_year c :
  name c = "year" ->
  normalize_column c = year_column c.
Proof.
  intros Hn. unfold normalize_column, category_column.
  destruct (decide (name c = "country" \/ name c = "gender")) as [[H|H]|_];
    [by rewrite Hn in H..|].
  destruct (year_column c) as [c'|e] eqn:Hy; [|done]. simpl. f_equal.
  apply year_column_year in Hy as (vs & _ & ->); [|done].
  done.
Qed.


(** *** What a second run meets *)

Lemma lower_ascii_idem c : lower_ascii (lower_ascii c) = lower_ascii c.
Proof. destruct c as [[] [] [] [] [] [] [] []]; reflexivity. Qed.

Lemma lower_idem s : lower (lower s) = lower s.
Proof.
  induction s as [|c s IH]; simpl; [done|]. by rewrite lower_ascii_idem, IH.
Qed.

Lemma clean_col_idem label : clean_col (clean_col label) = clean_col label.
Proof. apply lower_idem. Qed.

Lemma set_columns_clean (df : DataFrame) :
  (forall label, label ∈ columns df -> clean_col label = label) ->
  set_columns (clean_col <$> columns df) df = df.
Proof.
  intros Hclean. rewrite set_columns_fmap.
  rewrite <-(list_fmap_id df) at 2. apply fmap_ext_elem_of.
  intros c Hc. rewrite Hclean by (by apply list_elem_of_fmap_2).
  apply series_eta.
Qed.

(** Every value of a column is still there once the duplicated rows are
    dropped: the first of the equal rows holds it. *)
Lemma drop_duplicates_keeps_values (df : DataFrame) c v :
  well_formed df -> c ∈ df -> v ∈ values c ->
  v ∈ mask_filter (negb <$> duplicated df) (values c).
Proof.
  intros Hwf (j & Hj)%list_elem_of_lookup_1 Hv.
  pose proof (column_of_rows_from _ _ _ _ Hwf Hj) as Hcol.
  fold (rows df) in Hcol. rewrite <-Hcol in Hv |- *.
  apply list_elem_of_fmap in Hv as (r & -> & Hr).
  rewrite mask_filter_fmap. apply list_elem_of_fmap_2.
  by apply (elem_of_unique (rows df)).
Qed.

Lemma normalize_column_stable c0 c1 vs :
  normalize_column c0 = Ok c1 ->
  (forall v, v ∈ values c1 -> v ∈ vs) ->
  (forall v, v ∈ vs -> v ∈ values c1) ->
  normalize_column (mkSeries (name c1) (dtype c1) vs)
  = Ok (mkSeries (name c1) (dtype c1) vs).
Proof.
  intros H01 Hsub Hsup.
  destruct (decide (name c0 = "country" \/ name c0 = "gender")) as [Hcat|Hcat].
  { rewrite normalize_column_categorical in H01 by done. injection H01 as <-.
    by rewrite normalize_column_categorical. }
  destruct (decide (name c0 = "year")) as [Hy|Hy].
  { rewrite normalize_column_year in H01 by done.
    apply year_column_year in H01 as (vs1 & Hvs1 & ->); [|done]. simpl in *.
    rewrite normalize_column_year by done.
    apply year_column_year; [done|]. exists vs. split; [|done].
    apply Forall_Forall2_diag, Forall_forall. intros v Hv. simpl.
    apply Hsup in Hv.
    destruct (Forall2_elem_of_r _ _ _ _ Hvs1 Hv) as (v0 & _ & Hv0).
    apply year_cell_Ok in Hv0. unfold year_cell. simpl.
    by apply to_Int64_cell_fixed. }
  assert (name c0 ∉ ["country"; "gender"; "year"]) as Hother.
  { rewrite !elem_of_cons, elem_of_nil. tauto. }
  rewrite normalize_column_other in H01 by done. injection H01 as <-.
  rewrite name_coerce_column in *.
  rewrite normalize_column_other by done. f_equal.
  unfold coerce_column in *.
  destruct (bool_decide (dtype c0 = object)
            && bool_decide (name c0 ∉ ["country"; "gender"])) eqn:Hcond.
  - apply andb_true_iff in Hcond as [Hd%bool_decide_eq_true Hl].
    unfold to_numeric_ignore in *. rewrite Hd in *. simpl in *.
    destruct (mapM convert_cell (values c0)) as [ns|] eqn:Hm.
    + simpl. rewrite (dtype_pack_numeric (name c0) ns).
      by destruct (_ && _).
    + simpl. rewrite Hl. simpl.
      apply mapM_None in Hm. apply Exists_exists in Hm as (v & Hv & Hfail).
      assert (mapM convert_cell vs = None) as ->; [|by rewrite Hd].
      apply mapM_None, Exists_exists. exists v. split; [by apply Hsub|done].
  - simpl. by rewrite Hcond.
Qed.


(** *** The year column of a normalized table *)

Lemma normalize_year_typed (df df' : DataFrame) year' :
  normalize df = Ok df' -> year' ∈ df' -> name year' = "year" ->
  dtype year' = Int64 /\ Forall integer_or_null (values year').
Proof.
  intros [_ HF]%normalize_Ok Hin Hname.
  destruct (Forall2_elem_of_r _ _ _ _ HF Hin) as (year & Hyin & Hy).
  assert (name year = "year") as Hyn
    by (by rewrite <-(name_normalize_column _ _ Hy)).
  rewrite normalize_column_year in Hy by done.
  apply year_column_year in Hy as (vs & Hvs & ->); [|done]. simpl.
  split; [done|]. apply Forall_forall. intros v' Hv'.
  destruct (Forall2_elem_of_r _ _ _ _ Hvs Hv') as (v & _ & Hv).
  by eapply year_cell_Ok.
Qed.

End Normalizer_facts.

(** * The claims *)

(** ** Duplicate rows (line 29) *)

(** C8 (amended). The Normalizer removes the exact duplicates among the
    rows of the table as loaded: a row is dropped exactly when an equal row
    (equality on all attributes) occurs before it, so the first occurrence
    of each distinct row is kept and the kept rows stay in their order.
    The type coercions that follow work on the kept rows, column by column,
    and remove no row. *)
Theorem drop_duplicates_keeps_first_loaded_rows
    (parse_number : string -> option number) (df df' : DataFrame) :
  well_formed df ->
  normalize parse_number df = Ok df' ->
  rows (deduplicated df)
    = mask_filter (negb <$> duplicated_from [] (rows df)) (rows df)
  /\ (forall i r, rows df !! i = Some r ->
        duplicated_from [] (rows df) !! i
        = Some (bool_decide (r ∈ take i (rows df))))
  /\ NoDup (rows (deduplicated df))
  /\ rows (deduplicated df) `sublist_of` rows df
  /\ (forall r, r ∈ rows (deduplicated df) <-> r ∈ rows df)
  /\ Forall2 (fun c c' => normalize_column parse_number c = Ok c')
             (deduplicated df) df'
  /\ nrows df' = length (rows (deduplicated df)).
Proof.
  intros Hwf Hn. rewrite rows_deduplicated by done.
  split_and!.
  - done.
  - intros i r Hi. rewrite (duplicated_from_lookup _ _ _ _ Hi). f_equal.
    apply bool_decide_ext. rewrite elem_of_nil. tauto.
  - apply NoDup_unique.
  - apply unique_sublist.
  - apply elem_of_unique.
  - by apply normalize_Ok in Hn as [_ ?].
  - destruct (well_formed_normalize _ _ _ Hwf Hn) as [_ ->].
    rewrite <-rows_deduplicated by done.
    symmetry. by apply length_rows, well_formed_deduplicated.
Qed.

Lemma drop_duplicates_keeps_first_loaded_rows_witness :
  duplicated_from [] (rows repeated_csv) !! 2%nat = Some true
  /\ rows (deduplicated repeated_csv)
     = [ [Str "France"; Str "Both sexes"; Int 2010];
         [Str "Japan"; Str "Both sexes"; Int 2010];
         [Str "France"; Str "Male"; Int 2010] ]
  /\ length (rows repeated_csv) = 4%nat
  /\ nrows repeated_normalized = 3%nat.
Proof.
  pose proof (drop_duplicates_keeps_first_loaded_rows
                parse_decimal repeated_csv repeated_normalized) as H.
  destruct H as (Hkept & Hflag & _ & _ & _ & _ & Hlen).
  - by_compute.
  - vm_compute. reflexivity.
  - split_and!.
    + rewrite (Hflag 2%nat [Str "France"; Str "Both sexes"; Int 2010]
                 ltac:(reflexivity)).
      vm_compute. reflexivity.
    + rewrite Hkept. vm_compute. reflexivity.
    + reflexivity.
    + rewrite Hlen, Hkept. vm_compute. reflexivity.
Defined.

(** C8 (as stated) fails: the two rows of [undated_csv] differ when
    duplicates are removed, and the year coercion that follows makes them
    equal; both survive normalization. *)
Lemma equal_rows_survive_normalization :
  normalize parse_decimal undated_csv = Ok undated_normalized
  /\ rows undated_normalized
     = [ [Str "France"; Str "Both sexes"; NA];
         [Str "France"; Str "Both sexes"; NA] ]
  /\ ~ NoDup (rows undated_normalized).
Proof.
  split_and!; [by vm_compute|by vm_compute|].
  intros Hnd. apply NoDup_cons in Hnd as [Hnotin _]. apply Hnotin. by left.
Qed.

(** ** The year column (lines 38-39) *)

(** C9. The year column of [fractional_year_csv] holds the texts "2010.5"
    and "unknown". Line 39 reads both with [errors='coerce']: the second is
    no number and becomes null, as the claim says; the first reads as a
    number with a fractional part, so it is no integer, and instead of
    becoming null it makes the cast to Int64 raise a TypeError. The
    Normalizer stops there and hands back no table. *)
Lemma fractional_year_aborts :
  (exists q, parse_decimal "2010.5" = Some (NumFloat q)
             /\ this q = (4021 # 2)%Q /\ Qc_to_Z q = None)
  /\ parse_decimal "unknown" = None
  /\ year_cell parse_decimal object (Str "unknown") = Some NA
  /\ year_cell parse_decimal object (Str "2010.5") = None
  /\ normalize parse_decimal fractional_year_csv = Raise TypeError.
Proof.
  split_and!; [|by vm_compute..].
  eexists. split_and!; [by vm_compute|by vm_compute..].
Qed.

(** ** The other text columns (lines 42-44) *)

(** C3 (amended). For every text-typed column other than country, gender
    and year, line 44 converts the column as a whole: when every value
    converts, the column becomes numeric and each value is the number it
    reads as (integers widened to floats unless all values are integers);
    as soon as one value does not convert, the column is handed back
    unchanged, so every value in it keeps its text, also those that read
    as numbers. *)
Theorem to_numeric_is_all_or_nothing
    (parse_number : string -> option number) (df df' : DataFrame) i c :
  normalize parse_number df = Ok df' ->
  deduplicated df !! i = Some c ->
  dtype c = object ->
  name c ∉ ["country"; "gender"; "year"] ->
  exists c',
    df' !! i = Some c' /\ name c' = name c
    /\ (Exists (fun v => convert_cell parse_number v = None) (values c) ->
        c' = c)
    /\ (forall ns,
          Forall2 (fun v n => convert_cell parse_number v = Some n) (values c) ns ->
          c' = pack_numeric (name c) ns
          /\ is_numeric_dtype (dtype c') = true
          /\ (values c' = ns \/ values c' = to_float <$> ns)).
Proof.
  intros [_ HF]%normalize_Ok Hi Hd Hn.
  destruct (Forall2_lookup_l _ _ _ _ _ HF Hi) as (c' & Hi' & Hc).
  rewrite normalize_column_other in Hc by done. injection Hc as <-.
  exists (coerce_column parse_number c).
  assert (coerce_column parse_number c = to_numeric_ignore parse_number c) as Heq.
  { unfold coerce_column. rewrite Hd.
    rewrite bool_decide_true by done. simpl.
    rewrite bool_decide_true; [done|].
    intros H. apply Hn. revert H. rewrite !elem_of_cons. tauto. }
  rewrite Heq in Hi' |- *. clear Heq.
  split_and!; [done|apply name_to_numeric_ignore| |].
  - intros Hex%mapM_None. unfold to_numeric_ignore. by rewrite Hd, Hex.
  - intros ns Hns%mapM_Some. unfold to_numeric_ignore. rewrite Hd, Hns. simpl.
    split_and!; [done|apply dtype_pack_numeric|].
    unfold pack_numeric. destruct (forallb is_int ns); simpl; auto.
Qed.

Lemma to_numeric_is_all_or_nothing_witness :
  exists c',
    [ mkSeries "country" category [Str "France"; Str "Japan"];
      mkSeries "smokers" object [Str "12"; Str "no data"] ] !! 1%nat = Some c'
    /\ c' = mkSeries "smokers" object [Str "12"; Str "no data"].
Proof.
  destruct (to_numeric_is_all_or_nothing parse_decimal partly_numeric_csv
              [ mkSeries "country" category [Str "France"; Str "Japan"];
                mkSeries "smokers" object [Str "12"; Str "no data"] ]
              1%nat (mkSeries "smokers" object [Str "12"; Str "no data"]))
    as (c' & Hc' & _ & Hsame & _).
  - vm_compute. reflexivity.
  - vm_compute. reflexivity.
  - reflexivity.
  - by_compute.
  - exists c'. split; [exact Hc'|]. apply Hsame. by_compute.
Defined.

(** C3 (as stated) fails: in [partly_numeric_csv] the value "12" reads as a
    number, and it is still the text "12" after normalization; the column
    does not hold mixed text and numeric values. *)
Lemma partly_numeric_column_stays_text :
  convert_cell parse_decimal (Str "12") = Some (Int 12)
  /\ convert_cell parse_decimal (Str "no data") = None
  /\ normalize parse_decimal partly_numeric_csv
     = Ok [ mkSeries "country" category [Str "France"; Str "Japan"];
            mkSeries "smokers" object [Str "12"; Str "no data"] ].
Proof. split_and!; by vm_compute. Qed.

(** ** A second run of the Normalizer *)

Lemma bool_index_all m (df : DataFrame) :
  well_formed df -> length m = nrows df -> Forall (fun b => b = true) m ->
  bool_index m df = df.
Proof.
  intros Hwf Hlen Hall. unfold bool_index.
  rewrite <-(list_fmap_id df) at 2. apply fmap_ext_elem_of. intros c Hc.
  rewrite mask_filter_all; [apply series_eta|done|].
  by rewrite (well_formed_length df c).
Qed.

Lemma drop_duplicates_NoDup (df : DataFrame) :
  well_formed df -> NoDup (rows df) -> drop_duplicates df = df.
Proof.
  intros Hwf Hnd. apply bool_index_all; [done|by apply length_duplicated|].
  apply Forall_fmap. eapply Forall_impl.
  - apply keep_first_NoDup; [exact Hnd|]. intros x _. apply not_elem_of_nil.
  - by intros b ->.
Qed.

(** C7 (amended). A second run of the Normalizer on a table the Normalizer
    has produced changes no column label, no column type and no value; all
    it does is drop the rows that are duplicates in that table (rows that
    the coercions of the first run have made equal). The second run
    therefore yields the identical table exactly when the first output
    holds no two equal rows. *)
Theorem normalizer_second_run_only_drops_duplicates
    (parse_number : string -> option number) (df df1 : DataFrame) :
  well_formed df ->
  normalize parse_number df = Ok df1 ->
  normalize parse_number df1 = Ok (drop_duplicates df1)
  /\ columns (drop_duplicates df1) = columns df1
  /\ dtype <$> drop_duplicates df1 = dtype <$> df1
  /\ rows (drop_duplicates df1) = unique (rows df1)
  /\ (normalize parse_number df1 = Ok df1 <-> NoDup (rows df1)).
Proof.
  intros Hwf H1.
  destruct (normalize_columns _ _ _ H1) as [Hcols Hnd].
  destruct (well_formed_normalize _ _ _ Hwf H1) as [Hwf1 _].
  assert (forall label, label ∈ columns df1 -> clean_col label = label) as Hclean.
  { intros label. rewrite Hcols. intros (l0 & -> & _)%list_elem_of_fmap.
    apply clean_col_idem. }
  assert (deduplicated df1 = drop_duplicates df1) as Hded.
  { unfold deduplicated. by rewrite set_columns_clean. }
  assert (normalize parse_number df1 = Ok (drop_duplicates df1)) as Hrun.
  { apply normalize_Ok. split.
    - assert (clean_col <$> columns df1 = columns df1) as ->; [|done].
      rewrite <-(list_fmap_id (columns df1)) at 2. by apply fmap_ext_elem_of.
    - rewrite Hded. apply Forall_Forall2_diag.
      unfold drop_duplicates, bool_index. apply Forall_fmap, Forall_forall.
      intros c1 Hc1. simpl.
      apply normalize_Ok in H1 as [_ HF].
      destruct (Forall2_elem_of_r _ _ _ _ HF Hc1) as (c0 & _ & Hc0).
      eapply normalize_column_stable; [exact Hc0| |].
      + intros v Hv. by apply drop_duplicates_keeps_values.
      + intros v Hv. by eapply elem_of_mask_filter. }
  split_and!.
  - done.
  - apply columns_bool_index.
  - unfold drop_duplicates, bool_index. by rewrite <-list_fmap_compose.
  - by apply rows_drop_duplicates.
  - rewrite Hrun. split.
    + intros [= Heq]. rewrite <-Heq, rows_drop_duplicates by done.
      apply NoDup_unique.
    + intros Hnodup. by rewrite drop_duplicates_NoDup.
Qed.

Lemma normalizer_second_run_only_drops_duplicates_witness :
  normalize parse_decimal health_normalized = Ok health_normalized.
Proof.
  destruct (normalizer_second_run_only_drops_duplicates
              parse_decimal health_csv health_normalized)
    as (_ & _ & _ & _ & Hiff).
  - by_compute.
  - vm_compute. reflexivity.
  - apply Hiff. by_compute.
Defined.

(** C7 (as stated) fails: the Normalizer turns [undated_csv] into a table
    with two equal rows, and run on that table it removes one of them. *)
Lemma second_run_removes_a_row :
  normalize parse_decimal undated_csv = Ok undated_normalized
  /\ normalize parse_decimal undated_normalized
     = Ok [ mkSeries "country" category [Str "France"];
            mkSeries "gender" category [Str "Both sexes"];
            mkSeries "year" Int64 [NA] ]
  /\ normalize parse_decimal undated_normalized <> Ok undated_normalized.
Proof. split_and!; by vm_compute. Qed.

(** ** Row filters: [dropna] and the gender filter *)

Lemma and_masks_fmap {A} (g h : A -> bool) (l : list A) :
  and_masks (g <$> l) (h <$> l) = (fun x => g x && h x) <$> l.
Proof.
  unfold and_masks. induction l as [|x l IH]; [done|].
  rewrite !fmap_cons. cbn [zip_with]. by rewrite IH.
Qed.

Lemma replicate_fmap_const {A B} (y : B) (l : list A) :
  replicate (length l) y = (fun _ => y) <$> l.
Proof. induction l as [|x l IH]; simpl; [done|]. by rewrite IH. Qed.

Lemma filter_unique_or_absent (df : DataFrame) key :
  NoDup (columns df) ->
  filter (fun c => name c = key) df = []
  \/ exists c, filter (fun c => name c = key) df = [c].
Proof.
  intros Hnd. destruct (filter (fun c => name c = key) df) as [|c cs] eqn:Hf; [by left|].
  right. exists c.
  assert (c ∈ filter (fun c => name c = key) df) as Hin by (rewrite Hf; by left).
  apply list_elem_of_filter in Hin as [Hn Hin].
  rewrite <-Hf. by apply filter_label_unique.
Qed.

Lemma dropna_mask_Ok (df : DataFrame) keys m :
  well_formed df -> NoDup (columns df) ->
  dropna_mask df keys (nrows df) = Ok m ->
  m = (fun r => bool_decide (Forall (fun k => at_label df k r <> NA) keys))
      <$> rows df.
Proof.
  intros Hwf Hnd. revert m. induction keys as [|k keys IH]; intros m; simpl.
  - intros [= <-]. rewrite <-(length_rows df Hwf), replicate_fmap_const.
    apply list_fmap_ext. by intros _ r _.
  - destruct (filter_unique_or_absent df k Hnd) as [->|[c Hc]]; [done|].
    rewrite Hc. intros (m' & Hm' & [= <-])%bind_Ok_inv.
    rewrite (IH m' Hm'). simpl.
    rewrite <-(column_of_rows TypeError df k c Hwf (getitem_singleton _ _ _ _ Hc)).
    rewrite <-list_fmap_compose, and_masks_fmap.
    apply list_fmap_ext. intros _ r _. simpl.
    destruct (at_label df k r) eqn:Hv; simpl.
    + symmetry. apply bool_decide_eq_false. intros HF.
      apply Forall_cons in HF as [HF _]. done.
    + apply bool_decide_ext. rewrite Forall_cons, Hv. split; [by split|by intros [_ ?]].
    + apply bool_decide_ext. rewrite Forall_cons, Hv. split; [by split|by intros [_ ?]].
    + apply bool_decide_ext. rewrite Forall_cons, Hv. split; [by split|by intros [_ ?]].
    + apply bool_decide_ext. rewrite Forall_cons, Hv. split; [by split|by intros [_ ?]].
Qed.

Lemma length_dropna_mask (df : DataFrame) keys m :
  well_formed df -> NoDup (columns df) ->
  dropna_mask df keys (nrows df) = Ok m -> length m = nrows df.
Proof.
  intros Hwf Hnd Hm. rewrite (dropna_mask_Ok _ _ _ Hwf Hnd Hm).
  by rewrite length_fmap, length_rows.
Qed.

Lemma dropna_Ok (subset : list string) (df df' : DataFrame) :
  well_formed df -> NoDup (columns df) ->
  dropna subset df = Ok df' ->
  columns df' = columns df
  /\ well_formed df'
  /\ rows df'
     = filter (fun r => Forall (fun k => at_label df k r <> NA) subset) (rows df)
  /\ (forall c', c' ∈ df' ->
        exists c, c ∈ df /\ name c' = name c /\ dtype c' = dtype c
                  /\ forall v, v ∈ values c' -> v ∈ values c).
Proof.
  intros Hwf Hnd. unfold dropna. intros (m & Hm & [= <-])%bind_Ok_inv.
  pose proof (length_dropna_mask _ _ _ Hwf Hnd Hm) as Hlen.
  split_and!.
  - apply columns_bool_index.
  - by apply well_formed_bool_index.
  - rewrite rows_bool_index by done.
    rewrite (dropna_mask_Ok _ _ _ Hwf Hnd Hm). apply mask_filter_pred.
  - intros c' (c & -> & Hc)%list_elem_of_fmap. exists c. simpl.
    split_and!; [done..|]. intros v. apply elem_of_mask_filter.
Qed.

Lemma dropna_mask_Raise (df : DataFrame) keys n e :
  dropna_mask df keys n = Raise e ->
  exists k, k ∈ keys /\ ~ (k ∈ columns df) /\ e = KeyError k.
Proof.
  induction keys as [|k keys IH]; simpl; [done|].
  destruct (filter (fun c => name c = k) df) as [|c cs] eqn:Hf.
  - intros [= <-]. exists k. split_and!; [by left| |done].
    intros (c & -> & Hc)%list_elem_of_fmap.
    assert (c ∈ filter (fun c' => name c' = name c) df) as Hin
      by (by apply list_elem_of_filter).
    rewrite Hf in Hin. by apply elem_of_nil in Hin.
  - destruct (dropna_mask df keys n) as [m|e'] eqn:Hm; simpl; [done|].
    intros [= ->]. destruct (IH eq_refl) as (k' & Hk' & Hnotin & ->).
    exists k'. split_and!; [by right|done|done].
Qed.

(** The mask of line 46 and what it selects. *)
Lemma both_sexes_Ok (df : DataFrame) gender :
  well_formed df ->
  getitem TypeError df "gender" = Ok gender ->
  exists df_both,
    both_sexes df = Ok df_both
    /\ df_both
       = bool_index ((fun v => bool_decide (v = Str "Both sexes")) <$> values gender) df
    /\ columns df_both = columns df
    /\ well_formed df_both
    /\ rows df_both
       = filter (fun r => at_label df "gender" r = Str "Both sexes") (rows df).
Proof.
  intros Hwf Hg. unfold both_sexes. rewrite Hg. simpl.
  eexists. split; [done|]. split; [done|].
  assert (length ((fun v => bool_decide (v = Str "Both sexes")) <$> values gender)
          = nrows df) as Hlen.
  { rewrite length_fmap. apply well_formed_length; [done|].
    by apply getitem_elem_of in Hg as [? _]. }
  split_and!.
  - apply columns_bool_index.
  - by apply well_formed_bool_index.
  - rewrite rows_bool_index by done.
    rewrite <-(column_of_rows _ _ _ _ Hwf Hg), <-list_fmap_compose.
    apply (mask_filter_pred (fun r => at_label df "gender" r = Str "Both sexes")).
Qed.

(** ** The continent column (lines 14-24 and 47) *)

Section Enrichment_facts.

Variable country_name_to_country_alpha2 : cell -> result string.
Variable country_alpha2_to_continent_code : string -> result string.
Variable convert_continent_code_to_continent_name : string -> result string.

Local Abbreviation continent_lookup :=
  (continent_lookup country_name_to_country_alpha2
     country_alpha2_to_continent_code
     convert_continent_code_to_continent_name).
Local Abbreviation country_to_continent :=
  (country_to_continent country_name_to_country_alpha2
     country_alpha2_to_continent_code
     convert_continent_code_to_continent_name).
Local Abbreviation add_continent :=
  (add_continent country_name_to_country_alpha2
     country_alpha2_to_continent_code
     convert_continent_code_to_continent_name).

Lemma country_to_continent_Raise v e :
  continent_lookup v = Raise e -> country_to_continent v = NA.
Proof. unfold country_to_continent. by intros ->. Qed.

Lemma country_to_continent_Ok v continent_name :
  continent_lookup v = Ok continent_name ->
  country_to_continent v = Str continent_name.
Proof. unfold country_to_continent. by intros ->. Qed.

Lemma elem_of_setitem (df : DataFrame) key s c :
  c ∈ setitem df key s -> name c <> key -> c ∈ df.
Proof.
  intros Hc Hn. destruct (decide (key ∈ columns df)) as [Hk|Hk].
  - rewrite setitem_present in Hc by done.
    apply list_elem_of_fmap in Hc as (c0 & -> & Hc0).
    destruct (decide (name c0 = key)); [done|done].
  - rewrite setitem_absent in Hc by done.
    apply elem_of_app in Hc as [Hc|Hc]; [done|].
    apply list_elem_of_singleton in Hc. by subst.
Qed.

Lemma add_continent_Ok (df : DataFrame) country :
  getitem TypeError df "country" = Ok country ->
  add_continent df
  = Ok (setitem df "continent"
          (mkSeries "country" object_or_category (country_to_continent <$> values country))).
Proof. intros Hg. unfold add_continent. by rewrite Hg. Qed.

Lemma add_continent_columns (df df_both : DataFrame) :
  well_formed df -> NoDup (columns df) ->
  add_continent df = Ok df_both ->
  well_formed df_both /\ NoDup (columns df_both)
  /\ nrows df_both = nrows df
  /\ (forall c, c ∈ df_both -> name c <> "continent" -> c ∈ df)
  /\ exists country,
       getitem TypeError df "country" = Ok country
       /\ getitem TypeError df_both "country" = Ok country
       /\ getitem TypeError df_both "continent"
          = Ok (mkSeries "continent" object_or_category
                  (country_to_continent <$> values country)).
Proof.
  intros Hwf Hnd. unfold add_continent.
  intros (country & Hg & [= <-])%bind_Ok_inv.
  assert (length (country_to_continent <$> values country) = nrows df) as Hlen.
  { rewrite length_fmap. apply well_formed_length; [done|].
    by apply getitem_elem_of in Hg as [? _]. }
  split_and!.
  - by apply well_formed_setitem.
  - by apply NoDup_columns_setitem.
  - by apply nrows_setitem.
  - intros c. apply elem_of_setitem.
  - exists country. split_and!; [done| |].
    + by rewrite getitem_setitem_ne.
    + by rewrite getitem_setitem_eq.
Qed.

End Enrichment_facts.

(** ** The gender filter (line 46) *)

(** C1 (amended). The Filter returns exactly the rows whose gender
    attribute equals the string "Both sexes", capital B, under an exact,
    case-sensitive comparison (line 26 lowercases the column labels, not the
    values): every row with any other gender value, "both sexes" included,
    or with a null gender is excluded, and every surviving row satisfies
    gender == "Both sexes". *)
Theorem gender_filter_keeps_exactly_Both_sexes (df : DataFrame) gender :
  well_formed df ->
  getitem TypeError df "gender" = Ok gender ->
  exists df_both,
    both_sexes df = Ok df_both
    /\ columns df_both = columns df
    /\ rows df_both
       = filter (fun r => at_label df "gender" r = Str "Both sexes") (rows df)
    /\ (forall r, r ∈ rows df_both
          <-> r ∈ rows df /\ at_label df "gender" r = Str "Both sexes")
    /\ (forall r, r ∈ rows df_both ->
          at_label df_both "gender" r = Str "Both sexes")
    /\ (forall r, r ∈ rows df -> at_label df "gender" r = NA ->
          ~ (r ∈ rows df_both)).
Proof.
  intros Hwf Hg.
  destruct (both_sexes_Ok df gender Hwf Hg) as (df_both & Hb & _ & Hcols & _ & Hrows).
  exists df_both.
  assert (forall r, r ∈ rows df_both
            <-> r ∈ rows df /\ at_label df "gender" r = Str "Both sexes") as Hiff.
  { intros r. rewrite Hrows, list_elem_of_filter. tauto. }
  split_and!; [done..| |].
  - intros r Hr%Hiff. rewrite (at_label_columns _ df_both df) by done. tauto.
  - intros r _ Hna Hr%Hiff. destruct Hr as [_ Hr]. congruence.
Qed.

Lemma gender_filter_keeps_exactly_Both_sexes_witness :
  exists df_both,
    both_sexes health_normalized = Ok df_both
    /\ forall r, r ∈ rows df_both ->
         at_label df_both "gender" r = Str "Both sexes".
Proof.
  destruct (gender_filter_keeps_exactly_Both_sexes health_normalized
              (mkSeries "gender" category
                 [Str "Both sexes"; Str "Male"; Str "Both sexes"; Str "both sexes"]))
    as (df_both & Hb & _ & _ & _ & Hall & _).
  - by_compute.
  - vm_compute. reflexivity.
  - exists df_both. split; [exact Hb|exact Hall].
Defined.

(** C1 (as stated) fails: a row whose gender is "both sexes" is excluded,
    and the row that survives has the gender "Both sexes", which is not
    "both sexes" under a case-sensitive comparison. *)
Lemma lowercase_both_sexes_is_filtered_out :
  both_sexes gender_table
  = Ok [ mkSeries "country" category [Str "France"];
         mkSeries "gender" category [Str "Both sexes"] ]
  /\ [Str "Japan"; Str "both sexes"] ∈ rows gender_table
  /\ at_label gender_table "gender" [Str "Japan"; Str "both sexes"]
     = Str "both sexes"
  /\ at_label gender_table "gender" [Str "France"; Str "Both sexes"]
     <> Str "both sexes".
Proof. split_and!; [by vm_compute|by_compute|by vm_compute|by vm_compute]. Qed.

(** ** The Geo-Enricher (lines 14-24 and 47) *)

(** C5. Whatever the three lookup calls do, the Geo-Enricher returns: for
    every table with a country column it yields the table with a continent
    column holding one value per row, null wherever a call raised (at any of
    the three steps, with any exception) and the continent name otherwise;
    the only exception the stage can raise is the one of the access to the
    country column itself. *)
Theorem geo_enricher_swallows_lookup_failures
    (country_name_to_country_alpha2 : cell -> result string)
    (country_alpha2_to_continent_code : string -> result string)
    (convert_continent_code_to_continent_name : string -> result string)
    (df : DataFrame) country :
  let lookup := continent_lookup country_name_to_country_alpha2
                  country_alpha2_to_continent_code
                  convert_continent_code_to_continent_name in
  let to_continent := country_to_continent country_name_to_country_alpha2
                  country_alpha2_to_continent_code
                  convert_continent_code_to_continent_name in
  let enrich := add_continent country_name_to_country_alpha2
                  country_alpha2_to_continent_code
                  convert_continent_code_to_continent_name in
  NoDup (columns df) ->
  getitem TypeError df "country" = Ok country ->
  (exists df_both continent,
     enrich df = Ok df_both
     /\ getitem TypeError df_both "continent" = Ok continent
     /\ values continent = to_continent <$> values country
     /\ (forall i v e, values country !! i = Some v -> lookup v = Raise e ->
           values continent !! i = Some NA)
     /\ (forall i v continent_name, values country !! i = Some v ->
           lookup v = Ok continent_name ->
           values continent !! i = Some (Str continent_name)))
  /\ (forall v e, country_name_to_country_alpha2 v = Raise e ->
        to_continent v = NA)
  /\ (forall v code e, country_name_to_country_alpha2 v = Ok code ->
        country_alpha2_to_continent_code code = Raise e ->
        to_continent v = NA)
  /\ (forall v code continent_code e,
        country_name_to_country_alpha2 v = Ok code ->
        country_alpha2_to_continent_code code = Ok continent_code ->
        convert_continent_code_to_continent_name continent_code = Raise e ->
        to_continent v = NA)
  /\ (forall df0 e, enrich df0 = Raise e ->
        getitem TypeError df0 "country" = Raise e).
Proof.
  intros lookup to_continent enrich Hnd Hg. split_and!.
  - exists (setitem df "continent"
              (mkSeries "country" object_or_category (to_continent <$> values country))),
           (mkSeries "continent" object_or_category (to_continent <$> values country)).
    split_and!.
    + by apply add_continent_Ok.
    + by rewrite getitem_setitem_eq.
    + done.
    + intros i v e Hi He. simpl. rewrite list_lookup_fmap, Hi. simpl. f_equal.
      by eapply country_to_continent_Raise.
    + intros i v n Hi Hn. simpl. rewrite list_lookup_fmap, Hi. simpl. f_equal.
      by eapply country_to_continent_Ok.
  - intros v e He. subst to_continent. unfold country_to_continent, continent_lookup.
    by rewrite He.
  - intros v code e Hc He. subst to_continent.
    unfold country_to_continent, continent_lookup.
    rewrite Hc. simpl. by rewrite He.
  - intros v code cc e Hc Hcc He. subst to_continent.
    unfold country_to_continent, continent_lookup.
    rewrite Hc. simpl. rewrite Hcc. simpl. by rewrite He.
  - intros df0 e. subst enrich. unfold add_continent.
    destruct (getitem TypeError df0 "country"); simpl; [done|]. by intros [= ->].
Qed.

Lemma geo_enricher_swallows_lookup_failures_witness :
  exists df_both continent,
    demo_add_continent health_filtered = Ok df_both
    /\ getitem TypeError df_both "continent" = Ok continent
    /\ values continent !! 1%nat = Some NA.
Proof.
  destruct (geo_enricher_swallows_lookup_failures
              demo_alpha2 demo_continent_code demo_continent_name
              health_filtered
              (mkSeries "country" category [Str "France"; Str "Neverland"]))
    as ((df_both & continent & He & Hc & _ & Hna & _) & _).
  - by_compute.
  - vm_compute. reflexivity.
  - exists df_both, continent. split_and!; [exact He|exact Hc|].
    apply (Hna 1%nat (Str "Neverland") (KeyError "Neverland")); reflexivity.
Defined.

(** ** Lines 26-47 as a whole *)

Lemma bool_index_setitem m (df : DataFrame) key s :
  bool_index m (setitem df key s)
  = setitem (bool_index m df) key
      (mkSeries (name s) (dtype s) (mask_filter m (values s))).
Proof.
  destruct (decide (key ∈ columns df)) as [Hk|Hk].
  - rewrite !setitem_present by (by rewrite ?columns_bool_index).
    unfold bool_index. rewrite <-!list_fmap_compose. apply list_fmap_ext.
    intros _ c _. simpl. by destruct (decide (name c = key)).
  - rewrite !setitem_absent by (by rewrite ?columns_bool_index).
    unfold bool_index. by rewrite fmap_app.
Qed.

Lemma getitem_bool_index e m (df : DataFrame) key :
  getitem e (bool_index m df) key
  = s ← getitem e df key;
    Ok (mkSeries (name s) (dtype s) (mask_filter m (values s))).
Proof.
  unfold getitem, bool_index. rewrite filter_label_fmap by done.
  by destruct (filter _ df) as [|c [|c' l]].
Qed.

Lemma fmap_eq_pointwise {A B} (f g : A -> B) (l : list A) x :
  f <$> l = g <$> l -> x ∈ l -> f x = g x.
Proof.
  intros H%Forall_fmap_ext Hx. rewrite Forall_forall in H. by apply H.
Qed.

Section Script_facts.

Variable parse_number : string -> option number.
Variable country_name_to_country_alpha2 : cell -> result string.
Variable country_alpha2_to_continent_code : string -> result string.
Variable convert_continent_code_to_continent_name : string -> result string.

Local Abbreviation normalize := (normalize parse_number).
Local Abbreviation continent_lookup :=
  (continent_lookup country_name_to_country_alpha2
     country_alpha2_to_continent_code
     convert_continent_code_to_continent_name).
Local Abbreviation country_to_continent :=
  (country_to_continent country_name_to_country_alpha2
     country_alpha2_to_continent_code
     convert_continent_code_to_continent_name).
Local Abbreviation add_continent :=
  (add_continent country_name_to_country_alpha2
     country_alpha2_to_continent_code
     convert_continent_code_to_continent_name).
Local Abbreviation prepare :=
  (prepare parse_number country_name_to_country_alpha2
     country_alpha2_to_continent_code
     convert_continent_code_to_continent_name).
Local Abbreviation enrich_then_filter :=
  (enrich_then_filter parse_number country_name_to_country_alpha2
     country_alpha2_to_continent_code
     convert_continent_code_to_continent_name).
Local Abbreviation script :=
  (script parse_number country_name_to_country_alpha2
     country_alpha2_to_continent_code
     convert_continent_code_to_continent_name).

(** The stages of a run that reaches line 48, with what each one hands
    to the next. *)
Lemma prepare_Ok (df df_both : DataFrame) :
  well_formed df ->
  prepare df = Ok df_both ->
  exists df_norm df_filtered gender country,
    normalize df = Ok df_norm
    /\ well_formed df_norm /\ NoDup (columns df_norm)
    /\ getitem TypeError df_norm "gender" = Ok gender
    /\ both_sexes df_norm = Ok df_filtered
    /\ df_filtered
       = bool_index ((fun v => bool_decide (v = Str "Both sexes")) <$> values gender)
           df_norm
    /\ well_formed df_filtered /\ NoDup (columns df_filtered)
    /\ getitem TypeError df_filtered "country" = Ok country
    /\ add_continent df_filtered = Ok df_both
    /\ df_both
       = setitem df_filtered "continent"
           (mkSeries "country" object_or_category (country_to_continent <$> values country))
    /\ well_formed df_both /\ NoDup (columns df_both)
    /\ nrows df_both = nrows df_filtered.
Proof.
  intros Hwf. unfold prepare.
  intros (df_norm & Hn & H)%bind_Ok_inv.
  apply bind_Ok_inv in H as (df_filtered & Hb & Ha).
  destruct (well_formed_normalize _ _ _ Hwf Hn) as [Hwf1 _].
  destruct (normalize_columns _ _ _ Hn) as [_ Hnd1].
  assert (exists gender, getitem TypeError df_norm "gender" = Ok gender)
    as [gender Hg].
  { revert Hb. unfold both_sexes.
    destruct (getitem TypeError df_norm "gender"); [eauto|done]. }
  destruct (both_sexes_Ok _ _ Hwf1 Hg) as (df_f & Hb' & Hdef & Hcols & Hwf2 & _).
  assert (df_f = df_filtered) as -> by congruence.
  assert (NoDup (columns df_filtered)) as Hnd2 by (by rewrite Hcols).
  destruct (add_continent_columns _ _ _ _ _ Hwf2 Hnd2 Ha)
    as (Hwf3 & Hnd3 & Hrows & _ & country & Hc & _ & _).
  exists df_norm, df_filtered, gender, country.
  split_and!; try done.
  rewrite (add_continent_Ok _ _ _ _ _ Hc) in Ha. by injection Ha as <-.
Qed.

Lemma prepare_year_typed (df df_both : DataFrame) year :
  well_formed df ->
  prepare df = Ok df_both ->
  year ∈ df_both -> name year = "year" ->
  dtype year = Int64 /\ Forall integer_or_null (values year).
Proof.
  intros Hwf Hp Hin Hname.
  destruct (prepare_Ok _ _ Hwf Hp)
    as (df_norm & df_filtered & gender & country & Hn & _ & _ & _ & _ & Hf
        & _ & _ & _ & _ & Hb & _).
  subst df_both. apply elem_of_setitem in Hin; [|by rewrite Hname].
  subst df_filtered. apply list_elem_of_fmap in Hin as (c & -> & Hc).
  simpl in *. destruct (normalize_year_typed _ _ _ _ Hn Hc Hname) as [Hd Hv].
  split; [done|]. rewrite Forall_forall in Hv |- *.
  intros v Hv'. apply Hv. by eapply elem_of_mask_filter.
Qed.

(** The value line 47 gives a row is the answer of the lookup for the
    country of that row. *)
Lemma continent_of_row (df df_both : DataFrame) r :
  well_formed df ->
  prepare df = Ok df_both ->
  r ∈ rows df_both ->
  at_label df_both "continent" r
  = country_to_continent (at_label df_both "country" r).
Proof.
  intros Hwf Hp Hr.
  destruct (prepare_Ok _ _ Hwf Hp)
    as (df_norm & df_filtered & gender & country & _ & _ & _ & _ & _ & _
        & Hwf2 & Hnd2 & Hc & Ha & Hdef & Hwf3 & Hnd3 & _).
  assert (getitem TypeError df_both "country" = Ok country) as Hc'.
  { rewrite Hdef. by rewrite getitem_setitem_ne. }
  assert (getitem TypeError df_both "continent"
          = Ok (mkSeries "continent" object_or_category
                  (country_to_continent <$> values country))) as Hk.
  { rewrite Hdef. by rewrite getitem_setitem_eq. }
  pose proof (column_of_rows _ _ _ _ Hwf3 Hc') as Hcol.
  pose proof (column_of_rows _ _ _ _ Hwf3 Hk) as Hcon. simpl in Hcon.
  rewrite <-Hcol, <-list_fmap_compose in Hcon.
  by apply (fmap_eq_pointwise _ _ _ r Hcon).
Qed.

(** Filtering first and enriching afterwards gives the table that the
    other order would give. *)
Lemma prepare_enrich_then_filter (df df_both : DataFrame) :
  well_formed df ->
  prepare df = Ok df_both -> enrich_then_filter df = Ok df_both.
Proof.
  intros Hwf Hp.
  destruct (prepare_Ok _ _ Hwf Hp)
    as (df_norm & df_filtered & gender & country & Hn & _ & _ & Hg & _ & Hf
        & _ & _ & Hc & _ & Hdef & _).
  unfold enrich_then_filter. rewrite Hn. simpl.
  rewrite Hf, getitem_bool_index in Hc.
  apply bind_Ok_inv in Hc as (country0 & Hc0 & [= <-]).
  rewrite (add_continent_Ok _ _ _ _ _ Hc0). simpl.
  unfold both_sexes. rewrite getitem_setitem_ne by done. rewrite Hg. simpl.
  f_equal. rewrite bool_index_setitem. simpl.
  rewrite Hdef, Hf. simpl. by rewrite mask_filter_fmap.
Qed.

End Script_facts.

Section Pipeline_claims.

Variable parse_number : string -> option number.
Variable country_name_to_country_alpha2 : cell -> result string.
Variable country_alpha2_to_continent_code : string -> result string.
Variable convert_continent_code_to_continent_name : string -> result string.

Local Abbreviation normalize := (normalize parse_number).
Local Abbreviation continent_lookup :=
  (continent_lookup country_name_to_country_alpha2
     country_alpha2_to_continent_code
     convert_continent_code_to_continent_name).
Local Abbreviation country_to_continent :=
  (country_to_continent country_name_to_country_alpha2
     country_alpha2_to_continent_code
     convert_continent_code_to_continent_name).
Local Abbreviation add_continent :=
  (add_continent country_name_to_country_alpha2
     country_alpha2_to_continent_code
     convert_continent_code_to_continent_name).
Local Abbreviation prepare :=
  (prepare parse_number country_name_to_country_alpha2
     country_alpha2_to_continent_code
     convert_continent_code_to_continent_name).
Local Abbreviation enrich_then_filter :=
  (enrich_then_filter parse_number country_name_to_country_alpha2
     country_alpha2_to_continent_code
     convert_continent_code_to_continent_name).
Local Abbreviation script :=
  (script parse_number country_name_to_country_alpha2
     country_alpha2_to_continent_code
     convert_continent_code_to_continent_name).

(** C4 (amended). The stages run in the order Loader, Normalizer, Filter,
    Geo-Enricher, each consuming the previous stage's output: the gender
    Filter is applied to the normalized table, and the Geo-Enricher then
    adds the continent attribute to every row of the filtered table. So a
    table without a gender attribute stops the script at the Filter, also
    when it has no country attribute either (the other order would stop at
    the country); the Filter hands on the columns of the normalized table
    and the rows whose gender is "Both sexes"; and the continent column
    holds one value for each of these rows, the answer of the lookup for
    its country. When both stages return, the table is the one the other
    order would give. *)
Theorem filter_runs_before_enrichment (df df_norm : DataFrame) :
  well_formed df ->
  normalize df = Ok df_norm ->
  prepare df = (df_filtered ← both_sexes df_norm; add_continent df_filtered)
  /\ (~ ("gender" ∈ columns df_norm) ->
      prepare df = Raise (KeyError "gender")
      /\ (~ ("country" ∈ columns df_norm) ->
          enrich_then_filter df = Raise (KeyError "country")))
  /\ (forall df_filtered,
        both_sexes df_norm = Ok df_filtered ->
        columns df_filtered = columns df_norm
        /\ rows df_filtered
           = filter (fun r => at_label df_norm "gender" r = Str "Both sexes")
               (rows df_norm)
        /\ prepare df = add_continent df_filtered
        /\ (~ ("country" ∈ columns df_norm) ->
            prepare df = Raise (KeyError "country")))
  /\ (forall df_both,
        prepare df = Ok df_both ->
        exists df_filtered country continent,
          both_sexes df_norm = Ok df_filtered
          /\ add_continent df_filtered = Ok df_both
          /\ getitem TypeError df_filtered "country" = Ok country
          /\ getitem TypeError df_both "continent" = Ok continent
          /\ values continent = country_to_continent <$> values country
          /\ length (values continent) = nrows df_filtered
          /\ nrows df_both = nrows df_filtered
          /\ (forall r, r ∈ rows df_both ->
                at_label df_both "continent" r
                = country_to_continent (at_label df_both "country" r))
          /\ enrich_then_filter df = Ok df_both).
Proof.
  intros Hwf Hn.
  destruct (well_formed_normalize _ _ _ Hwf Hn) as [Hwf1 _].
  assert (prepare df
          = (df_filtered ← both_sexes df_norm; add_continent df_filtered))
    as Hprepare by (unfold prepare; by rewrite Hn).
  split_and!.
  - exact Hprepare.
  - intros Hg. split.
    + rewrite Hprepare. unfold both_sexes. by rewrite getitem_absent.
    + intros Hc. unfold enrich_then_filter. rewrite Hn. simpl.
      unfold add_continent. by rewrite getitem_absent.
  - intros df_filtered Hb.
    assert (exists gender, getitem TypeError df_norm "gender" = Ok gender)
      as [gender Hg].
    { revert Hb. unfold both_sexes.
      destruct (getitem TypeError df_norm "gender"); [eauto|done]. }
    destruct (both_sexes_Ok _ _ Hwf1 Hg) as (df_f & Hb' & _ & Hcols & _ & Hrows).
    assert (df_f = df_filtered) as -> by congruence.
    split_and!; [done|done|by rewrite Hprepare, Hb|].
    intros Hc. rewrite Hprepare, Hb. simpl.
    unfold add_continent. rewrite getitem_absent; [done|by rewrite Hcols].
  - intros df_both Hp.
    destruct (prepare_Ok _ _ _ _ _ _ Hwf Hp)
      as (df_norm' & df_filtered & gender & country & Hn' & _ & _ & Hg & Hb & _
          & Hwf2 & Hnd2 & Hc & Ha & Hdef & _ & _ & Hrows).
    assert (df_norm' = df_norm) as -> by congruence.
    exists df_filtered, country,
      (mkSeries "continent" object_or_category
         (country_to_continent <$> values country)).
    split_and!; try done.
    + rewrite Hdef. by apply getitem_setitem_eq.
    + simpl. rewrite length_fmap. apply well_formed_length; [done|].
      by apply getitem_elem_of in Hc as [? _].
    + intros r Hr. exact (continent_of_row _ _ _ _ _ _ _ Hwf Hp Hr).
    + by apply prepare_enrich_then_filter.
Qed.

(** C2 (amended). For every row whose country label is not resolved by
    the continent lookup, the enriched row has continent = null, and that
    row is excluded from the input data of the bubble chart, whose builder
    requires a non-null continent. The scatter chart builder requires its
    two plotted attributes only: its input data are the rows in which both
    are non-null, whatever the continent. *)
Theorem unresolved_country_gets_null_continent (df df_both : DataFrame) :
  well_formed df ->
  prepare df = Ok df_both ->
  (forall r e, r ∈ rows df_both ->
     continent_lookup (at_label df_both "country" r) = Raise e ->
     at_label df_both "continent" r = NA)
  /\ (forall doc chart r,
        bubble_builder df_both = Ok doc -> chart ∈ layers doc ->
        r ∈ rows (data chart) ->
        r ∈ rows df_both /\ at_label df_both "continent" r <> NA)
  /\ (forall doc chart,
        scatter_builder df_both = Ok doc -> chart ∈ layers doc ->
        rows (data chart)
        = filter (fun r => Forall (fun k => at_label df_both k r <> NA)
                             scatter_columns)
            (rows df_both)).
Proof.
  intros Hwf Hp.
  destruct (prepare_Ok _ _ _ _ _ _ Hwf Hp)
    as (_ & _ & _ & _ & _ & _ & _ & _ & _ & _ & _ & _ & _ & _ & _ & Hwf3 & Hnd3 & _).
  split_and!.
  - intros r e Hr He. rewrite (continent_of_row _ _ _ _ _ _ _ Hwf Hp Hr).
    by eapply country_to_continent_Raise.
  - intros doc chart r. unfold bubble_builder.
    intros (dfg & Hd & H)%bind_Ok_inv.
    apply bind_Ok_inv in H as (years & _ & H).
    apply bind_Ok_inv in H as (? & _ & H).
    apply bind_Ok_inv in H as (? & _ & H).
    apply bind_Ok_inv in H as (lo & _ & H).
    apply bind_Ok_inv in H as (hi & _ & H).
    apply bind_Ok_inv in H as (v & _ & [= <-]). simpl.
    intros ->%list_elem_of_singleton. simpl.
    destruct (dropna_Ok _ _ _ Hwf3 Hnd3 Hd) as (_ & _ & -> & _).
    intros [HF Hr]%list_elem_of_filter. split; [done|].
    rewrite Forall_forall in HF. apply HF.
    unfold gapminder_columns. rewrite !elem_of_cons. tauto.
  - intros doc chart. unfold scatter_builder.
    intros (dfs & Hd & [= <-])%bind_Ok_inv. simpl.
    destruct (dropna_Ok _ _ _ Hwf3 Hnd3 Hd) as (_ & _ & Hrows & _).
    rewrite !elem_of_cons, elem_of_nil. intros [->|[->|[]]]; simpl; exact Hrows.
Qed.

End Pipeline_claims.

Lemma filter_runs_before_enrichment_witness :
  (demo_prepare year_only_csv = Raise (KeyError "gender")
   /\ demo_enrich_then_filter year_only_csv = Raise (KeyError "country"))
  /\ (rows health_filtered
      = filter (fun r => at_label health_normalized "gender" r = Str "Both sexes")
          (rows health_normalized)
      /\ demo_prepare health_csv = demo_add_continent health_filtered)
  /\ exists df_filtered continent,
       both_sexes health_normalized = Ok df_filtered
       /\ demo_add_continent df_filtered = Ok health_both
       /\ getitem TypeError health_both "continent" = Ok continent
       /\ length (values continent) = nrows df_filtered.
Proof.
  split; [|split].
  - destruct (filter_runs_before_enrichment
                parse_decimal demo_alpha2 demo_continent_code demo_continent_name
                year_only_csv [mkSeries "year" Int64 [Int 2010; Int 2011]])
      as (_ & Hstop & _).
    + by_compute.
    + vm_compute. reflexivity.
    + destruct (Hstop ltac:(by_compute)) as [Hg Hc].
      split; [exact Hg|]. apply Hc. by_compute.
  - destruct (filter_runs_before_enrichment
                parse_decimal demo_alpha2 demo_continent_code demo_continent_name
                health_csv health_normalized)
      as (_ & _ & Hfilter & _).
    + by_compute.
    + vm_compute. reflexivity.
    + destruct (Hfilter health_filtered) as (_ & Hrows & Hp & _).
      * vm_compute. reflexivity.
      * split; [exact Hrows|exact Hp].
  - destruct (filter_runs_before_enrichment
                parse_decimal demo_alpha2 demo_continent_code demo_continent_name
                health_csv health_normalized)
      as (_ & _ & _ & Hok).
    + by_compute.
    + vm_compute. reflexivity.
    + destruct (Hok health_both) as (df_filtered & _ & continent & Hb & Ha & _
                                     & Hk & _ & Hlen & _).
      * vm_compute. reflexivity.
      * exists df_filtered, continent.
        split_and!; [exact Hb|exact Ha|exact Hk|exact Hlen].
Defined.

(** C4 (as stated) fails: line 46 filters the normalized table of
    [health_csv], four rows without a continent column, and line 47 adds
    the continent to the two rows that are left; and on a table with neither
    column the script stops at the gender filter, where the order of the
    claim would stop at the country lookup. *)
Lemma enrichment_is_not_applied_to_the_normalized_table :
  normalize parse_decimal health_csv = Ok health_normalized
  /\ ~ ("continent" ∈ columns health_normalized)
  /\ nrows health_normalized = 4%nat
  /\ both_sexes health_normalized = Ok health_filtered
  /\ ~ ("continent" ∈ columns health_filtered)
  /\ nrows health_filtered = 2%nat
  /\ demo_add_continent health_filtered = Ok health_both
  /\ demo_prepare health_csv = Ok health_both
  /\ demo_prepare year_only_csv = Raise (KeyError "gender")
  /\ demo_enrich_then_filter year_only_csv = Raise (KeyError "country").
Proof.
  split_and!; try (by vm_compute); by_compute.
Qed.

Lemma unresolved_country_gets_null_continent_witness :
  at_label health_both "continent" neverland_row = NA.
Proof.
  destruct (unresolved_country_gets_null_continent
              parse_decimal demo_alpha2 demo_continent_code demo_continent_name
              health_csv health_both) as (Hnull & _).
  - by_compute.
  - vm_compute. reflexivity.
  - apply (Hnull neverland_row (KeyError "Neverland")).
    + by_compute.
    + vm_compute. reflexivity.
Defined.

(** C2 (as stated) fails: the row of "Neverland" has continent = null and
    is nevertheless among the input data of both layers of the scatter
    chart that the script writes; the bubble chart leaves it out. *)
Lemma null_continent_row_reaches_the_scatter_chart :
  demo_prepare health_csv = Ok health_both
  /\ neverland_row ∈ rows health_both
  /\ demo_continent_lookup (at_label health_both "country" neverland_row)
     = Raise (KeyError "Neverland")
  /\ at_label health_both "continent" neverland_row = NA
  /\ (exists scatter_doc,
        scatter_builder health_both = Ok scatter_doc
        /\ length (layers scatter_doc) = 2%nat
        /\ Forall (fun chart => neverland_row ∈ rows (data chart))
             (layers scatter_doc))
  /\ (exists bubble_doc,
        bubble_builder health_both = Ok bubble_doc
        /\ Forall (fun chart => ~ (neverland_row ∈ rows (data chart)))
             (layers bubble_doc)).
Proof.
  split_and!; try (by vm_compute); try by_compute.
  - destruct (scatter_builder health_both) as [doc|] eqn:Hdoc; [|by vm_compute in Hdoc].
    exists doc. split; [done|]. vm_compute in Hdoc. injection Hdoc as <-.
    split; [done|]. by_compute.
  - destruct (bubble_builder health_both) as [doc|] eqn:Hdoc; [|by vm_compute in Hdoc].
    exists doc. split; [done|]. vm_compute in Hdoc. injection Hdoc as <-.
    by_compute.
Qed.

(** ** The years of the bubble chart (lines 100-104 and 146-164) *)

Lemma as_int_Ok v z : as_int v = Ok z -> v = Int z.
Proof. destruct v; simpl; intros; by simplify_eq. Qed.

Lemma traverse_as_int vs zs : traverse as_int vs = Ok zs -> vs = Int <$> zs.
Proof.
  intros HF%traverse_Ok_Forall2.
  induction HF as [|v z vs zs Hv _ IH]; [done|].
  rewrite fmap_cons. f_equal; [by apply as_int_Ok|done].
Qed.

Lemma StronglySorted_head_le (ys : list Z) lo y :
  StronglySorted Z.le ys -> head ys = Some lo -> y ∈ ys -> lo <= y.
Proof.
  intros Hs Hh Hy. destruct Hs as [|x l Hs Hall]; [done|].
  injection Hh as ->. apply elem_of_cons in Hy as [->|Hy]; [lia|].
  rewrite Forall_forall in Hall. by apply Hall.
Qed.

Lemma StronglySorted_last_le (ys : list Z) hi y :
  StronglySorted Z.le ys -> last ys = Some hi -> y ∈ ys -> y <= hi.
Proof.
  induction 1 as [|x l Hs IH Hall]; intros Hl Hy; [done|].
  destruct l as [|x' l'].
  - injection Hl as <-. apply list_elem_of_singleton in Hy. lia.
  - rewrite last_cons_cons in Hl. apply elem_of_cons in Hy as [->|Hy].
    + rewrite Forall_forall in Hall. apply Hall. by apply last_Some_elem_of.
    + by apply IH.
Qed.

Lemma StronglySorted_le_lt (ys : list Z) :
  StronglySorted Z.le ys -> NoDup ys -> StronglySorted Z.lt ys.
Proof.
  induction 1 as [|x l Hs IH Hall]; intros Hnd; [constructor|].
  apply NoDup_cons in Hnd as [Hx Hnd]. constructor; [by apply IH|].
  rewrite Forall_forall in Hall |- *. intros y Hy.
  specialize (Hall y Hy). assert (x <> y) by (by intros ->). lia.
Qed.

Lemma StronglySorted_lt_le (ys : list Z) :
  StronglySorted Z.lt ys -> StronglySorted Z.le ys.
Proof.
  induction 1 as [|x l Hs IH Hall]; constructor; [done|].
  eapply Forall_impl; [exact Hall|]. intros y Hy. simpl in Hy. lia.
Qed.

Lemma first_item_Ok {A} (xs : list A) x : first_item xs = Ok x <-> head xs = Some x.
Proof. destruct xs; simpl; split; intros; by simplify_eq. Qed.

Lemma last_item_Ok {A} (xs : list A) x : last_item xs = Ok x <-> last xs = Some x.
Proof.
  unfold last_item. destruct (last xs); split; intros; by simplify_eq.
Qed.

Lemma sorted_years_Ok (df_gapminder : DataFrame) years :
  sorted_years df_gapminder = Ok years ->
  exists year,
    getitem TypeError df_gapminder "year" = Ok year
    /\ StronglySorted Z.lt years
    /\ forall y, y ∈ years <-> Int y ∈ values year.
Proof.
  unfold sorted_years. intros (year & Hg & H)%bind_Ok_inv.
  apply bind_Ok_inv in H as (ys & Hys & [= <-]).
  exists year. split; [done|].
  apply traverse_as_int in Hys.
  assert (NoDup ys) as Hnd.
  { apply (NoDup_fmap_1 Int). rewrite <-Hys. apply NoDup_unique. }
  split.
  - apply StronglySorted_le_lt.
    + apply StronglySorted_merge_sort; apply _.
    + by rewrite merge_sort_Permutation.
  - intros y. rewrite merge_sort_Permutation.
    rewrite <-(elem_of_unique (values year)), Hys.
    split; [by apply list_elem_of_fmap_2|].
    intros (z & [= ->] & Hz)%list_elem_of_fmap. done.
Qed.

Lemma and_masks_true_r m n :
  length m = n -> and_masks m (replicate n true) = m.
Proof.
  unfold and_masks. revert n. induction m as [|b m IH]; intros [|n] Hlen;
    simplify_eq/=; [done|].
  rewrite IH by done. by rewrite andb_true_r.
Qed.

(** The rows drawn with the slider at [chosen] are the rows of that
    year. *)
Lemma rendered_year_filter (df_gapminder : DataFrame) year chart sel chosen :
  well_formed df_gapminder ->
  getitem TypeError df_gapminder "year" = Ok year ->
  data chart = df_gapminder ->
  transforms chart = [transform_filter sel] ->
  fields sel = ["year"] ->
  rows (rendered chart chosen)
  = filter (fun r => at_label df_gapminder "year" r = Int chosen)
      (rows df_gapminder).
Proof.
  intros Hwf Hg Hdata Htr Hf. unfold rendered. rewrite Htr, Hdata. simpl.
  rewrite Hf. simpl. rewrite (getitem_Ok_inv _ _ _ _ Hg). simpl.
  assert (length (values year) = nrows df_gapminder) as Hlen.
  { apply well_formed_length; [done|]. by apply getitem_elem_of in Hg as [? _]. }
  rewrite and_masks_true_r by (by rewrite length_fmap).
  rewrite rows_bool_index by (by rewrite ?length_fmap).
  rewrite <-(column_of_rows _ _ _ _ Hwf Hg), <-list_fmap_compose.
  apply (mask_filter_pred (fun r => at_label df_gapminder "year" r = Int chosen)).
Qed.

Lemma dropna_mask_labels (df : DataFrame) keys n m k :
  dropna_mask df keys n = Ok m -> k ∈ keys -> k ∈ columns df.
Proof.
  revert m. induction keys as [|k0 keys IH]; intros m Hm Hk.
  - by apply elem_of_nil in Hk.
  - simpl in Hm.
    destruct (filter (fun c => name c = k0) df) as [|c cs] eqn:Hf; [done|].
    apply bind_Ok_inv in Hm as (m' & Hm' & _).
    apply elem_of_cons in Hk as [->|Hk]; [|by eapply IH].
    assert (c ∈ filter (fun c => name c = k0) df) as Hin by (rewrite Hf; by left).
    apply list_elem_of_filter in Hin as [<- Hin]. by apply list_elem_of_fmap_2.
Qed.

Lemma dropna_labels (subset : list string) (df df' : DataFrame) k :
  dropna subset df = Ok df' -> k ∈ subset -> k ∈ columns df.
Proof.
  unfold dropna. intros (m & Hm & _)%bind_Ok_inv. by eapply dropna_mask_labels.
Qed.

Section Chart_claims.

Variable parse_number : string -> option number.
Variable country_name_to_country_alpha2 : cell -> result string.
Variable country_alpha2_to_continent_code : string -> result string.
Variable convert_continent_code_to_continent_name : string -> result string.

Local Abbreviation prepare :=
  (prepare parse_number country_name_to_country_alpha2
     country_alpha2_to_continent_code
     convert_continent_code_to_continent_name).
Local Abbreviation script :=
  (script parse_number country_name_to_country_alpha2
     country_alpha2_to_continent_code
     convert_continent_code_to_continent_name).

(** C6 (amended). When the bubble chart is built, its year-selection
    control is a range control over the integer years present in the data
    of the chart, which are the filtered rows that the null-dropping of
    line 100 leaves: the distinct years, sorted, give the minimum (the
    first of them) and the maximum (the last), the step is 1 and the
    default value is the minimum. The selection is projected on the year
    field and drives a filter, so that selecting a year leaves exactly the
    rows of that year among the rendered points. *)
Theorem year_slider_spans_the_years_present (df df_both : DataFrame) doc :
  well_formed df ->
  prepare df = Ok df_both ->
  bubble_builder df_both = Ok doc ->
  exists df_gapminder years lo hi chart,
    dropna gapminder_columns df_both = Ok df_gapminder
    /\ rows df_gapminder
       = filter (fun r => Forall (fun k => at_label df_both k r <> NA)
                            gapminder_columns)
           (rows df_both)
    /\ sorted_years df_gapminder = Ok years
    /\ StronglySorted Z.lt years
    /\ (forall y, y ∈ years
          <-> exists r, r ∈ rows df_gapminder
                        /\ at_label df_gapminder "year" r = Int y)
    /\ head years = Some lo /\ last years = Some hi
    /\ lo ∈ years /\ hi ∈ years
    /\ (forall y, y ∈ years -> lo <= y <= hi)
    /\ layers doc = [chart]
    /\ data chart = df_gapminder
    /\ params chart
       = [selection_point ["year"] (binding_range lo hi 1 "Year: ") lo]
    /\ transforms chart
       = [transform_filter
            (selection_point ["year"] (binding_range lo hi 1 "Year: ") lo)]
    /\ (forall chosen,
          rows (rendered chart chosen)
          = filter (fun r => at_label df_gapminder "year" r = Int chosen)
              (rows df_gapminder)).
Proof.
  intros Hwf Hp.
  destruct (prepare_Ok _ _ _ _ _ _ Hwf Hp)
    as (_ & _ & _ & _ & _ & _ & _ & _ & _ & _ & _ & _ & _ & _ & _ & Hwf3 & Hnd3 & _).
  unfold bubble_builder. intros (dfg & Hd & H)%bind_Ok_inv.
  apply bind_Ok_inv in H as (years & Hy & H).
  apply bind_Ok_inv in H as (? & _ & H).
  apply bind_Ok_inv in H as (? & _ & H).
  apply bind_Ok_inv in H as (lo & Hlo & H).
  apply bind_Ok_inv in H as (hi & Hhi & H).
  apply bind_Ok_inv in H as (v & Hv & [= <-]). simpl.
  assert (v = lo) as -> by congruence.
  apply first_item_Ok in Hlo. apply last_item_Ok in Hhi.
  destruct (dropna_Ok _ _ _ Hwf3 Hnd3 Hd) as (_ & Hwfg & Hrows & _).
  destruct (sorted_years_Ok _ _ Hy) as (year & Hg & Hsorted & Hmem).
  assert (StronglySorted Z.le years) as Hle.
  { by apply StronglySorted_lt_le. }
  eexists dfg, years, lo, hi, _.
  split_and!; try done.
  - intros y. rewrite Hmem, <-(column_of_rows _ _ _ _ Hwfg Hg).
    rewrite list_elem_of_fmap.
    split; intros (r & H1 & H2); exists r; by split.
  - destruct years; [done|]. injection Hlo as ->. by left.
  - rewrite last_Some in Hhi. destruct Hhi as [l' ->].
    apply elem_of_app. right. by left.
  - intros y Hyin. split.
    + by eapply StronglySorted_head_le.
    + by eapply StronglySorted_last_le.
  - intros chosen. by eapply rendered_year_filter.
Qed.

(** C10. When the null-dropping of line 100 leaves no row, the list of
    years is empty and the bubble chart builder stops at its first use of
    [years[0]] with an IndexError, before its chart document is written:
    it returns no document, empty or not, and it raises no KeyError. *)
Theorem bubble_builder_raises_IndexError_on_empty_table
    (df df_both df_gapminder : DataFrame) :
  well_formed df ->
  prepare df = Ok df_both ->
  dropna gapminder_columns df_both = Ok df_gapminder ->
  nrows df_gapminder = 0%nat ->
  sorted_years df_gapminder = Ok []
  /\ first_item (@nil Z) = Raise IndexError
  /\ bubble_builder df_both = Raise IndexError
  /\ (forall doc, bubble_builder df_both <> Ok doc)
  /\ (forall key, bubble_builder df_both <> Raise (KeyError key))
  /\ (forall docs, script df <> (docs, None)).
Proof.
  intros Hwf Hp Hd Hzero.
  destruct (prepare_Ok _ _ _ _ _ _ Hwf Hp)
    as (_ & _ & _ & _ & _ & _ & _ & _ & _ & _ & _ & _ & _ & _ & _ & Hwf3 & Hnd3 & _).
  destruct (dropna_Ok _ _ _ Hwf3 Hnd3 Hd) as (Hcols & Hwfg & _ & _).
  assert (exists year, getitem TypeError df_gapminder "year" = Ok year)
    as [year Hg].
  { assert ("year" ∈ columns df_gapminder) as Hin.
    { rewrite Hcols. eapply dropna_labels; [exact Hd|].
      unfold gapminder_columns. rewrite !elem_of_cons. tauto. }
    apply list_elem_of_fmap in Hin as (c & Hn & Hc).
    exists c. apply getitem_unique; [by rewrite Hcols|done|done]. }
  assert (values year = []) as Hnil.
  { apply length_zero_iff_nil. rewrite <-Hzero.
    apply well_formed_length; [done|]. by apply getitem_elem_of in Hg as [? _]. }
  assert (sorted_years df_gapminder = Ok []) as Hyears.
  { unfold sorted_years. rewrite Hg. simpl. by rewrite Hnil. }
  assert (bubble_builder df_both = Raise IndexError) as Hb.
  { unfold bubble_builder. rewrite Hd. simpl. by rewrite Hyears. }
  split_and!; try done.
  - intros doc. by rewrite Hb.
  - intros key. by rewrite Hb.
  - intros docs. unfold script. fold prepare. rewrite Hp, Hb.
    by destruct (scatter_builder df_both).
Qed.

End Chart_claims.

Lemma year_slider_spans_the_years_present_witness :
  exists doc chart,
    bubble_builder sparse_years_both = Ok doc
    /\ layers doc = [chart]
    /\ sorted_years (data chart) = Ok [2010; 2012]
    /\ params chart
       = [selection_point ["year"] (binding_range 2010 2012 1 "Year: ") 2010].
Proof.
  destruct (bubble_builder sparse_years_both) as [doc|e] eqn:Hdoc;
    [|by vm_compute in Hdoc].
  destruct (year_slider_spans_the_years_present
              parse_decimal demo_alpha2 demo_continent_code demo_continent_name
              sparse_years_csv sparse_years_both doc)
    as (dfg & years & lo & hi & chart & _ & _ & Hy & _ & _ & Hlo & Hhi & _ & _ & _
        & Hl & Hdata & Hparams & _).
  - by_compute.
  - vm_compute. reflexivity.
  - exact Hdoc.
  - assert (sorted_years dfg = Ok [2010; 2012]) as Hyears.
    { rewrite <-Hdata. vm_compute in Hdoc. injection Hdoc as <-.
      injection Hl as <-. vm_compute. reflexivity. }
    assert (years = [2010; 2012]) as -> by congruence.
    injection Hlo as <-. injection Hhi as <-.
    exists doc, chart.
    split_and!; [reflexivity|exact Hl|by rewrite Hdata|exact Hparams].
Defined.

(** C6 (as stated) fails: every row of [sparse_years_csv] passes the gender
    filter, so the distinct sorted years present in the filtered data are
    2005, 2010, 2012 and 2015. The rows of 2005 and 2015 have no GDP and
    are dropped at line 100: the control runs from 2010 to 2012 and its
    default value is 2010, not 2005, the minimum year present. It is a
    range with step 1, so it also offers 2011, which is not in the set:
    no point is rendered there. *)
Lemma slider_ignores_the_years_dropped_at_line_100 :
  demo_prepare sparse_years_csv = Ok sparse_years_both
  /\ sorted_years sparse_years_both = Ok [2005; 2010; 2012; 2015]
  /\ exists doc chart sel,
       bubble_builder sparse_years_both = Ok doc
       /\ layers doc = [chart]
       /\ params chart = [sel]
       /\ range_min (bind sel) = 2010
       /\ range_max (bind sel) = 2012
       /\ range_step (bind sel) = 1
       /\ value sel = 2010
       /\ value sel <> 2005
       /\ rows (rendered chart 2005) = []
       /\ rows (rendered chart 2011) = []
       /\ length (rows (rendered chart 2012)) = 2%nat.
Proof.
  split_and!.
  - by vm_compute.
  - by vm_compute.
  - destruct (bubble_builder sparse_years_both) as [doc|e] eqn:Hdoc;
      [|by vm_compute in Hdoc].
    vm_compute in Hdoc. injection Hdoc as <-.
    eexists _, _, _.
    split_and!; [reflexivity|reflexivity|reflexivity|by vm_compute..].
Qed.

Lemma bubble_builder_raises_IndexError_on_empty_table_witness :
  bubble_builder neverland_both = Raise IndexError
  /\ (forall doc, bubble_builder neverland_both <> Ok doc)
  /\ (forall key, bubble_builder neverland_both <> Raise (KeyError key)).
Proof.
  destruct (bubble_builder_raises_IndexError_on_empty_table
              parse_decimal demo_alpha2 demo_continent_code demo_continent_name
              neverland_csv neverland_both
              (bool_index [false] neverland_both))
    as (_ & _ & Hb & Hdoc & Hkey & _).
  - by_compute.
  - vm_compute. reflexivity.
  - vm_compute. reflexivity.
  - reflexivity.
  - split_and!; [exact Hb|exact Hdoc|exact Hkey].
Defined.

(** On [neverland_csv] the scatter chart of line 94 has been written when
    the bubble chart builder raises: it is the one document the run leaves
    behind. *)
Lemma scatter_chart_is_written_before_the_IndexError :
  demo_prepare neverland_csv = Ok neverland_both
  /\ (exists df_gapminder,
        dropna gapminder_columns neverland_both = Ok df_gapminder
        /\ nrows df_gapminder = 0%nat)
  /\ bubble_builder neverland_both = Raise IndexError
  /\ demo_script neverland_csv = (neverland_documents, Some IndexError)
  /\ path <$> neverland_documents
     = ["../charts/fruit_vegetable_life_expectancy.html"].
Proof.
  split_and!; try (by vm_compute).
  exists (bool_index [false] neverland_both). split; by vm_compute.
Qed.

(** * Further properties of the script *)

(** ** Column labels (lines 10-12 and 26) *)

Lemma lower_ascii_not_upper c : is_upper (lower_ascii c) = false.
Proof. destruct c as [[] [] [] [] [] [] [] []]; reflexivity. Qed.

Lemma lower_no_uppercase s : no_uppercase (lower s).
Proof.
  unfold no_uppercase. induction s as [|c s IH]; simpl; [constructor|].
  constructor; [apply lower_ascii_not_upper|done].
Qed.

Lemma lower_ascii_ascii c :
  (N_of_ascii c < 128)%N -> (N_of_ascii (lower_ascii c) < 128)%N.
Proof. destruct c as [[] [] [] [] [] [] [] []]; vm_compute; done. Qed.

Lemma lower_ascii_label s : ascii_label s -> ascii_label (lower s).
Proof.
  unfold ascii_label. induction s as [|c s IH]; simpl; [done|].
  intros [Hc Hs]%Forall_cons. constructor; [by apply lower_ascii_ascii|auto].
Qed.

(** X1. When the loaded labels are ASCII and the Normalizer returns, the
    table has the columns of the loaded table, in the same order, under the
    lowercased labels; the labels are ASCII and pairwise distinct, none
    holds an uppercase letter, and [clean_col] leaves each of them as it
    is. *)
Theorem normalized_labels_are_the_lowercased_labels
    (parse_number : string -> option number) (df df' : DataFrame) :
  Forall ascii_label (columns df) ->
  normalize parse_number df = Ok df' ->
  columns df' = clean_col <$> columns df
  /\ length df' = length df
  /\ NoDup (columns df')
  /\ Forall ascii_label (columns df')
  /\ Forall no_uppercase (columns df')
  /\ Forall (fun label => clean_col label = label) (columns df').
Proof.
  intros Hascii Hn. destruct (normalize_columns _ _ _ Hn) as [Hcols Hnd].
  split_and!; [done| |done| | |].
  - rewrite <-(length_fmap name df'), <-(length_fmap name df).
    fold (columns df') (columns df). by rewrite Hcols, length_fmap.
  - rewrite Hcols. apply Forall_fmap.
    eapply Forall_impl; [exact Hascii|]. intros l Hl. simpl.
    by apply lower_ascii_label.
  - rewrite Hcols. apply Forall_fmap, Forall_forall. intros l _. simpl.
    apply lower_no_uppercase.
  - rewrite Hcols. apply Forall_fmap, Forall_forall. intros l _. simpl.
    apply clean_col_idem.
Qed.

Lemma normalized_labels_are_the_lowercased_labels_witness :
  columns health_normalized
  = [ "country"; "gender"; "year"; "gdp per capita"; "life expectancy";
      "total population"; "diet composition fruit and vegetables" ]
  /\ Forall ascii_label (columns health_normalized).
Proof.
  destruct (normalized_labels_are_the_lowercased_labels
              parse_decimal health_csv health_normalized)
    as (Hcols & _ & _ & Hascii & _).
  - by_compute.
  - vm_compute. reflexivity.
  - split; [|exact Hascii]. rewrite Hcols. vm_compute. reflexivity.
Defined.

(** ** What stops the Normalizer (lines 26-44) *)

Lemma filter_label_present key (df : DataFrame) :
  key ∈ columns df -> filter (fun c => name c = key) df <> [].
Proof.
  intros (c & -> & Hc)%list_elem_of_fmap Hf.
  assert (c ∈ filter (fun c' => name c' = name c) df) as Hin
    by (by apply list_elem_of_filter).
  rewrite Hf in Hin. by apply elem_of_nil in Hin.
Qed.


Section Normalizer_failures.

Variable parse_number : string -> option number.

Local Abbreviation year_to_integer := (year_to_integer parse_number).
Local Abbreviation coerce_step := (coerce_step parse_number).
Local Abbreviation coerce_column := (coerce_column parse_number).
Local Abbreviation normalize_column := (normalize_column parse_number).
Local Abbreviation normalize := (normalize parse_number).


Lemma year_to_integer_columns (df df' : DataFrame) :
  year_to_integer df = Ok df' -> columns df' = columns df.
Proof.
  intros HF%year_to_integer_Ok.
  eapply columns_Forall2; [|exact HF]. apply name_year_column.
Qed.



End Normalizer_failures.





(** ** What the coercions leave alone (lines 32-35 and 42-44) *)

(** X4. The country and gender columns keep every value exactly as loaded,
    also values that read as numbers: lines 33 and 35 change their type to
    categorical and the loop of lines 42-44 passes them by. *)
Theorem categorical_columns_keep_their_values
    (parse_number : string -> option number) (df df' : DataFrame) i c :
  normalize parse_number df = Ok df' ->
  deduplicated df !! i = Some c ->
  name c = "country" \/ name c = "gender" ->
  df' !! i = Some (mkSeries (name c) category (values c)).
Proof.
  intros [_ HF]%normalize_Ok Hi Hn.
  destruct (Forall2_lookup_l _ _ _ _ _ HF Hi) as (c' & Hi' & Hc).
  rewrite normalize_column_categorical in Hc by done. by injection Hc as <-.
Qed.

Lemma categorical_columns_keep_their_values_witness :
  health_normalized !! 1%nat
  = Some (mkSeries "gender" category
            [Str "Both sexes"; Str "Male"; Str "Both sexes"; Str "both sexes"]).
Proof.
  apply (categorical_columns_keep_their_values parse_decimal health_csv
           health_normalized 1%nat
           (mkSeries "gender" object
              [Str "Both sexes"; Str "Male"; Str "Both sexes"; Str "both sexes"])).
  - vm_compute. reflexivity.
  - vm_compute. reflexivity.
  - right. reflexivity.
Defined.

(** X5. A column that is not text-typed and is not the year column goes
    through the Normalizer untouched: apart from the lowercased label and
    the rows dropped as duplicates it is the column that was loaded, type
    and values. *)
Theorem non_text_columns_pass_unchanged
    (parse_number : string -> option number) (df df' : DataFrame) i c :
  normalize parse_number df = Ok df' ->
  deduplicated df !! i = Some c ->
  dtype c <> object ->
  name c ∉ ["country"; "gender"; "year"] ->
  df' !! i = Some c.
Proof.
  intros [_ HF]%normalize_Ok Hi Hd Hn.
  destruct (Forall2_lookup_l _ _ _ _ _ HF Hi) as (c' & Hi' & Hc).
  rewrite normalize_column_other in Hc by done. injection Hc as <-.
  rewrite Hi'. f_equal. unfold coerce_column.
  by rewrite bool_decide_false.
Qed.

Lemma non_text_columns_pass_unchanged_witness :
  health_normalized !! 5%nat
  = Some (mkSeries "total population" int64
            [Int 65000000; Int 32000000; Int 1000; Int 127000000]).
Proof.
  apply (non_text_columns_pass_unchanged parse_decimal health_csv
           health_normalized 5%nat).
  - vm_compute. reflexivity.
  - vm_compute. reflexivity.
  - discriminate.
  - by_compute.
Defined.

(** ** Lines 46-47: missing columns, and the continent column *)

Lemma columns_setitem (df : DataFrame) key s :
  columns (setitem df key s)
  = if bool_decide (key ∈ columns df) then columns df else columns df ++ [key].
Proof.
  case_bool_decide as Hk.
  - by apply columns_setitem_present.
  - rewrite setitem_absent by done. unfold columns. by rewrite fmap_app.
Qed.

Section Enrichment_properties.

Variable parse_number : string -> option number.
Variable country_name_to_country_alpha2 : cell -> result string.
Variable country_alpha2_to_continent_code : string -> result string.
Variable convert_continent_code_to_continent_name : string -> result string.

Local Abbreviation normalize := (normalize parse_number).
Local Abbreviation country_to_continent :=
  (country_to_continent country_name_to_country_alpha2
     country_alpha2_to_continent_code
     convert_continent_code_to_continent_name).
Local Abbreviation add_continent :=
  (add_continent country_name_to_country_alpha2
     country_alpha2_to_continent_code
     convert_continent_code_to_continent_name).
Local Abbreviation prepare :=
  (prepare parse_number country_name_to_country_alpha2
     country_alpha2_to_continent_code
     convert_continent_code_to_continent_name).

(** X6. Lines 46 and 47 have no guard of the kind lines 32-38 have: once
    the Normalizer has returned, the script stops with KeyError('gender')
    when there is no gender column, with KeyError('country') when there is a
    gender column and no country column, and gets past line 47 in every
    other case. *)
Theorem missing_gender_or_country_is_a_KeyError (df df_norm : DataFrame) :
  normalize df = Ok df_norm ->
  (~ ("gender" ∈ columns df_norm) -> prepare df = Raise (KeyError "gender"))
  /\ ("gender" ∈ columns df_norm -> ~ ("country" ∈ columns df_norm) ->
      prepare df = Raise (KeyError "country"))
  /\ ("gender" ∈ columns df_norm -> "country" ∈ columns df_norm ->
      exists df_both, prepare df = Ok df_both).
Proof.
  intros Hn. destruct (normalize_columns _ _ _ Hn) as [_ Hnd].
  unfold prepare. rewrite Hn. simpl. unfold both_sexes. split_and!.
  - intros Hg. by rewrite getitem_absent.
  - intros Hg Hc. destruct (getitem_present TypeError _ _ Hnd Hg) as [g ->]. simpl.
    unfold add_continent. rewrite getitem_absent; [done|].
    by rewrite columns_bool_index.
  - intros Hg Hc. destruct (getitem_present TypeError _ _ Hnd Hg) as [g ->]. simpl.
    unfold add_continent.
    destruct (getitem_present TypeError
                (bool_index ((fun v => bool_decide (v = Str "Both sexes")) <$> values g)
                   df_norm) "country") as [c ->].
    + by rewrite columns_bool_index.
    + by rewrite columns_bool_index.
    + simpl. eauto.
Qed.

(** X7. Line 47 adds the continent as the last column when the table has
    none, and overwrites in place a continent column that was loaded; it
    never leaves two of them, every other column is what it was, and the
    continent column holds, row by row, what [country_to_continent] makes
    of the country. *)
Theorem continent_column_is_added_or_overwritten (df df_both : DataFrame) :
  well_formed df ->
  NoDup (columns df) ->
  add_continent df = Ok df_both ->
  columns df_both
    = (if bool_decide ("continent" ∈ columns df) then columns df
       else columns df ++ ["continent"])
  /\ NoDup (columns df_both)
  /\ well_formed df_both
  /\ nrows df_both = nrows df
  /\ (forall e key, key <> "continent" ->
        getitem e df_both key = getitem e df key)
  /\ (exists country continent,
        getitem TypeError df "country" = Ok country
        /\ getitem TypeError df_both "continent" = Ok continent
        /\ values continent = country_to_continent <$> values country
        /\ length (values continent) = nrows df_both).
Proof.
  intros Hwf Hnd Ha.
  destruct (add_continent_columns _ _ _ _ _ Hwf Hnd Ha)
    as (Hwf' & Hnd' & Hrows & _ & country & Hc & _ & Hk).
  rewrite (add_continent_Ok _ _ _ _ _ Hc) in Ha. injection Ha as <-.
  split_and!; try done.
  - apply columns_setitem.
  - intros e key Hkey. by apply getitem_setitem_ne.
  - eexists country, _. split; [done|]. split; [exact Hk|]. split; [done|].
    simpl. rewrite length_fmap, Hrows. apply well_formed_length; [done|].
    by apply getitem_elem_of in Hc as [? _].
Qed.

End Enrichment_properties.

Lemma missing_gender_or_country_is_a_KeyError_witness :
  demo_prepare no_gender_csv = Raise (KeyError "gender")
  /\ demo_prepare no_country_csv = Raise (KeyError "country").
Proof.
  split.
  - destruct (missing_gender_or_country_is_a_KeyError
                parse_decimal demo_alpha2 demo_continent_code demo_continent_name
                no_gender_csv
                [ mkSeries "country" category [Str "France"];
                  mkSeries "year" Int64 [Int 2010] ]) as (Hg & _).
    + vm_compute. reflexivity.
    + apply Hg. by_compute.
  - destruct (missing_gender_or_country_is_a_KeyError
                parse_decimal demo_alpha2 demo_continent_code demo_continent_name
                no_country_csv
                [ mkSeries "gender" category [Str "Both sexes"];
                  mkSeries "year" Int64 [Int 2010] ]) as (_ & Hc & _).
    + vm_compute. reflexivity.
    + apply Hc; by_compute.
Defined.

Lemma continent_column_is_added_or_overwritten_witness :
  columns health_both = columns health_filtered ++ ["continent"]
  /\ exists df_both continent,
       demo_add_continent labelled_table = Ok df_both
       /\ columns df_both = columns labelled_table
       /\ getitem TypeError df_both "continent" = Ok continent
       /\ values continent = [Str "Europe"; NA].
Proof.
  split.
  - destruct (continent_column_is_added_or_overwritten
                demo_alpha2 demo_continent_code demo_continent_name
                health_filtered health_both) as (Hcols & _).
    + by_compute.
    + by_compute.
    + vm_compute. reflexivity.
    + rewrite Hcols. vm_compute. reflexivity.
  - destruct (demo_add_continent labelled_table) as [df_both|] eqn:Ha;
      [|by vm_compute in Ha].
    destruct (continent_column_is_added_or_overwritten
                demo_alpha2 demo_continent_code demo_continent_name
                labelled_table df_both)
      as (Hcols & _ & _ & _ & _ & country & continent & Hc & Hk & Hv & _).
    + by_compute.
    + by_compute.
    + exact Ha.
    + exists df_both, continent. split_and!; [done|exact Hcols|exact Hk|].
      rewrite Hv. revert Hc. vm_compute. by intros [= <-].
Defined.

(** X8. The continent column holds nothing but nulls and names that the
    last lookup call has returned: when that call only returns names with
    some property (being one of the seven continent names, say), every
    non-null continent of the table has it. *)
Theorem continent_is_null_or_a_name_of_the_lookup
    (country_name_to_country_alpha2 : cell -> result string)
    (country_alpha2_to_continent_code : string -> result string)
    (convert_continent_code_to_continent_name : string -> result string)
    (is_continent : string -> Prop) (df df_both : DataFrame) continent :
  (forall continent_code continent_name,
     convert_continent_code_to_continent_name continent_code = Ok continent_name ->
     is_continent continent_name) ->
  NoDup (columns df) ->
  add_continent country_name_to_country_alpha2 country_alpha2_to_continent_code
    convert_continent_code_to_continent_name df = Ok df_both ->
  getitem TypeError df_both "continent" = Ok continent ->
  Forall (fun v => v = NA \/ exists continent_name,
                     v = Str continent_name /\ is_continent continent_name)
         (values continent).
Proof.
  intros Hrange Hnd. unfold add_continent.
  intros (country & Hg & [= <-])%bind_Ok_inv.
  rewrite getitem_setitem_eq by done. intros [= <-]. simpl.
  apply Forall_fmap, Forall_forall. intros v _. simpl.
  unfold country_to_continent, continent_lookup.
  destruct (country_name_to_country_alpha2 v) as [code|]; simpl; [|by left].
  destruct (country_alpha2_to_continent_code code) as [cc|]; simpl; [|by left].
  destruct (convert_continent_code_to_continent_name cc) as [n|] eqn:Hn;
    [|by left].
  right. exists n. split; [done|]. by eapply Hrange.
Qed.

Lemma continent_is_null_or_a_name_of_the_lookup_witness :
  Forall (fun v => v = NA \/ exists continent_name,
                     v = Str continent_name
                     /\ continent_name ∈ ["Europe"; "Asia"])
         [Str "Europe"; NA].
Proof.
  apply (continent_is_null_or_a_name_of_the_lookup
           demo_alpha2 demo_continent_code demo_continent_name
           (fun n => n ∈ ["Europe"; "Asia"])
           health_filtered health_both
           (mkSeries "continent" object_or_category [Str "Europe"; NA])).
  - intros code n. unfold demo_continent_name.
    repeat case_decide; intros [= <-]; by_compute.
  - by_compute.
  - vm_compute. reflexivity.
  - vm_compute. reflexivity.
Defined.

(** X9. What the lookups answer decides the values of the continent column
    and nothing else of lines 26-47: with any two lookup capabilities the
    script either stops on the same exception with both, or gets past line
    47 with both, with the same columns in the same order and every column
    other than the continent identical. *)
Theorem lookups_only_decide_the_continent_column
    (parse_number : string -> option number)
    (alpha2 alpha2' : cell -> result string)
    (code code' name_of name_of' : string -> result string)
    (df : DataFrame) :
  match prepare parse_number alpha2 code name_of df,
        prepare parse_number alpha2' code' name_of' df with
  | Ok df_both, Ok df_both' =>
      columns df_both = columns df_both'
      /\ nrows df_both = nrows df_both'
      /\ forall e key, key <> "continent" ->
           getitem e df_both key = getitem e df_both' key
  | Raise e, Raise e' => e = e'
  | _, _ => False
  end.
Proof.
  unfold prepare. destruct (normalize parse_number df) as [df_norm|]; simpl; [|done].
  destruct (both_sexes df_norm) as [df_f|]; simpl; [|done].
  unfold add_continent. destruct (getitem TypeError df_f "country") as [c|];
    simpl; [|done].
  split_and!.
  - by rewrite !columns_setitem.
  - destruct (decide ("continent" ∈ columns df_f)) as [Hk|Hk].
    + rewrite !setitem_present by done. destruct df_f as [|c0 l]; [done|].
      simpl. destruct (decide (name c0 = "continent")); simpl;
        by rewrite ?length_fmap.
    + rewrite !setitem_absent by done. destruct df_f; simpl; [|done].
      by rewrite !length_fmap.
  - intros e key Hkey. by rewrite !getitem_setitem_ne.
Qed.

(** ** The gender filter, again (line 46) *)

Lemma both_sexes_gender_values (df df_both : DataFrame) :
  both_sexes df = Ok df_both ->
  exists gender,
    getitem TypeError df_both "gender" = Ok gender
    /\ Forall (fun v => v = Str "Both sexes") (values gender).
Proof.
  unfold both_sexes. intros (g & Hg & [= <-])%bind_Ok_inv.
  eexists. rewrite getitem_bool_index, Hg. simpl. split; [done|]. simpl.
  rewrite (mask_filter_pred (fun v => v = Str "Both sexes")).
  apply Forall_forall. by intros v [? _]%list_elem_of_filter.
Qed.

Lemma rows_at_label_Forall (P : cell -> Prop) (df : DataFrame) key c r :
  well_formed df -> getitem TypeError df key = Ok c ->
  Forall P (values c) -> r ∈ rows df -> P (at_label df key r).
Proof.
  intros Hwf Hg HP Hr. rewrite <-(column_of_rows _ _ _ _ Hwf Hg) in HP.
  rewrite Forall_fmap, Forall_forall in HP. by apply HP.
Qed.

(** X10. The gender filter is idempotent: applied to a table it has
    produced it returns that table. *)
Theorem gender_filter_is_idempotent (df df_both : DataFrame) :
  well_formed df ->
  both_sexes df = Ok df_both ->
  both_sexes df_both = Ok df_both.
Proof.
  intros Hwf Hb.
  destruct (both_sexes_gender_values _ _ Hb) as (g' & Hg' & Hall).
  assert (well_formed df_both) as Hwf'.
  { revert Hb. unfold both_sexes. intros (g & Hg & [= <-])%bind_Ok_inv.
    apply well_formed_bool_index; [done|]. rewrite length_fmap.
    apply well_formed_length; [done|]. by apply getitem_elem_of in Hg as [? _]. }
  unfold both_sexes. rewrite Hg'. simpl. f_equal.
  apply bool_index_all; [done| |].
  - rewrite length_fmap. apply well_formed_length; [done|].
    by apply getitem_elem_of in Hg' as [? _].
  - apply Forall_fmap. eapply Forall_impl; [exact Hall|].
    by intros v ->.
Qed.

Lemma gender_filter_is_idempotent_witness :
  both_sexes health_filtered = Ok health_filtered.
Proof.
  apply (gender_filter_is_idempotent health_normalized health_filtered).
  - by_compute.
  - vm_compute. reflexivity.
Defined.

(** ** What reaches the charts (lines 46, 54 and 100) *)

Lemma scatter_builder_data (df : DataFrame) doc chart :
  scatter_builder df = Ok doc -> chart ∈ layers doc ->
  dropna scatter_columns df = Ok (data chart).
Proof.
  unfold scatter_builder. intros (dfs & Hd & [= <-])%bind_Ok_inv. simpl.
  rewrite !elem_of_cons, elem_of_nil. by intros [->|[->|[]]].
Qed.

Lemma bubble_builder_Ok_inv (df_both : DataFrame) doc :
  bubble_builder df_both = Ok doc ->
  exists df_gapminder years lo hi chart,
    dropna gapminder_columns df_both = Ok df_gapminder
    /\ sorted_years df_gapminder = Ok years
    /\ head years = Some lo /\ last years = Some hi
    /\ layers doc = [chart]
    /\ path doc = "../charts/gdp_life_expectancy_bubble_chart.html"
    /\ data chart = df_gapminder
    /\ params chart
       = [selection_point ["year"] (binding_range lo hi 1 "Year: ") lo]
    /\ transforms chart
       = [transform_filter
            (selection_point ["year"] (binding_range lo hi 1 "Year: ") lo)].
Proof.
  unfold bubble_builder. intros (dfg & Hd & H)%bind_Ok_inv.
  apply bind_Ok_inv in H as (years & Hy & H).
  apply bind_Ok_inv in H as (? & _ & H).
  apply bind_Ok_inv in H as (? & _ & H).
  apply bind_Ok_inv in H as (lo & Hlo & H).
  apply bind_Ok_inv in H as (hi & Hhi & H).
  apply bind_Ok_inv in H as (v & Hv & [= <-]). simpl.
  assert (v = lo) as -> by congruence.
  apply first_item_Ok in Hlo. apply last_item_Ok in Hhi.
  eexists dfg, years, lo, hi, _. split_and!; done.
Qed.

Lemma bubble_builder_data (df : DataFrame) doc chart :
  bubble_builder df = Ok doc -> chart ∈ layers doc ->
  dropna gapminder_columns df = Ok (data chart).
Proof.
  intros (dfg & years & lo & hi & chart0 & Hd & _ & _ & _ & Hl & _ & Hdata & _)
    %bubble_builder_Ok_inv.
  rewrite Hl. intros ->%list_elem_of_singleton. by rewrite Hdata.
Qed.

Section Chart_properties.

Variable parse_number : string -> option number.
Variable country_name_to_country_alpha2 : cell -> result string.
Variable country_alpha2_to_continent_code : string -> result string.
Variable convert_continent_code_to_continent_name : string -> result string.

Local Abbreviation prepare :=
  (prepare parse_number country_name_to_country_alpha2
     country_alpha2_to_continent_code
     convert_continent_code_to_continent_name).

(** X11. Every row that reaches a chart is a "Both sexes" row: in the data
    of every layer of the scatter chart and of the bubble chart, the gender
    of every row is "Both sexes". *)
Theorem charts_hold_both_sexes_rows_only (df df_both : DataFrame) doc chart r :
  well_formed df ->
  prepare df = Ok df_both ->
  scatter_builder df_both = Ok doc \/ bubble_builder df_both = Ok doc ->
  chart ∈ layers doc ->
  r ∈ rows (data chart) ->
  r ∈ rows df_both
  /\ at_label (data chart) "gender" r = Str "Both sexes".
Proof.
  intros Hwf Hp Hdoc Hchart Hr.
  destruct (prepare_Ok _ _ _ _ _ _ Hwf Hp)
    as (df_norm & df_filtered & gender & country & _ & _ & _ & _ & Hb & _
        & _ & _ & _ & _ & Hdef & Hwf3 & Hnd3 & _).
  destruct (both_sexes_gender_values _ _ Hb) as (g & Hg & Hall).
  assert (getitem TypeError df_both "gender" = Ok g) as Hg'.
  { rewrite Hdef. by rewrite getitem_setitem_ne. }
  assert (exists subset, dropna subset df_both = Ok (data chart)) as [subset Hd].
  { destruct Hdoc as [Hdoc|Hdoc].
    - exists scatter_columns. by eapply scatter_builder_data.
    - exists gapminder_columns. by eapply bubble_builder_data. }
  destruct (dropna_Ok _ _ _ Hwf3 Hnd3 Hd) as (Hcols & _ & Hrows & _).
  rewrite Hrows in Hr. apply list_elem_of_filter in Hr as [_ Hr].
  split; [done|]. rewrite (at_label_columns _ _ df_both) by done.
  by apply (rows_at_label_Forall (fun v => v = Str "Both sexes") df_both "gender" g).
Qed.

End Chart_properties.

Lemma charts_hold_both_sexes_rows_only_witness :
  exists doc chart,
    scatter_builder health_both = Ok doc /\ chart ∈ layers doc
    /\ at_label (data chart) "gender" neverland_row = Str "Both sexes".
Proof.
  destruct (scatter_builder health_both) as [doc|e] eqn:Hdoc;
    [|by vm_compute in Hdoc].
  assert (exists chart, chart ∈ layers doc /\ neverland_row ∈ rows (data chart))
    as (chart & Hchart & Hr).
  { vm_compute in Hdoc. injection Hdoc as <-. eexists. split; [by left|].
    by_compute. }
  destruct (charts_hold_both_sexes_rows_only
              parse_decimal demo_alpha2 demo_continent_code demo_continent_name
              health_csv health_both doc chart neverland_row) as (_ & Hgender).
  - by_compute.
  - vm_compute. reflexivity.
  - left. exact Hdoc.
  - exact Hchart.
  - exact Hr.
  - exists doc, chart. split_and!; [reflexivity|exact Hchart|exact Hgender].
Defined.

(** ** The outcomes of the two chart builders *)

Lemma dropna_mask_present (df : DataFrame) keys n :
  Forall (fun k => k ∈ columns df) keys ->
  exists m, dropna_mask df keys n = Ok m.
Proof.
  induction 1 as [|k keys Hk _ [m Hm]]; simpl; [eauto|].
  apply filter_label_present in Hk.
  destruct (filter (fun c => name c = k) df) as [|c cs]; [done|].
  rewrite Hm. simpl. eauto.
Qed.

Lemma dropna_Raise (subset : list string) (df : DataFrame) e :
  dropna subset df = Raise e ->
  is_KeyError e /\ exists k, k ∈ subset /\ ~ (k ∈ columns df).
Proof.
  unfold dropna.
  destruct (dropna_mask df subset (nrows df)) as [m|e'] eqn:Hm; simpl; [done|].
  intros [= ->]. apply dropna_mask_Raise in Hm as (k & Hk & Hnotin & ->).
  split; [done|]. by exists k.
Qed.

Lemma dropna_missing (subset : list string) (df : DataFrame) k :
  k ∈ subset -> ~ (k ∈ columns df) ->
  exists e, dropna subset df = Raise e /\ is_KeyError e.
Proof.
  intros Hk Hnotin. destruct (dropna subset df) as [df'|e] eqn:Hd.
  - exfalso. apply Hnotin. by eapply dropna_labels.
  - exists e. split; [done|]. by apply dropna_Raise in Hd as [? _].
Qed.

(** X12. The scatter chart builder has two outcomes. It raises exactly
    when one of its two plotted columns is missing, and what it raises is
    a KeyError; otherwise it returns its document, whatever the table
    holds, a table without any row included: two layers, points and trend
    line, over the same data, which have the columns of the table and, in
    their order, the rows of the table in which both plotted attributes are
    non-null. *)
Theorem scatter_builder_outcomes (df : DataFrame) :
  ((exists e, scatter_builder df = Raise e)
   <-> exists k, k ∈ scatter_columns /\ ~ (k ∈ columns df))
  /\ (forall e, scatter_builder df = Raise e -> is_KeyError e)
  /\ (forall k, k ∈ scatter_columns -> ~ (k ∈ columns df) ->
        forall doc, scatter_builder df <> Ok doc)
  /\ (Forall (fun k => k ∈ columns df) scatter_columns ->
      exists df_scatter doc scatter lowess_curve,
        dropna scatter_columns df = Ok df_scatter
        /\ scatter_builder df = Ok doc
        /\ path doc = "../charts/fruit_vegetable_life_expectancy.html"
        /\ layers doc = [scatter; lowess_curve]
        /\ data scatter = df_scatter /\ mark scatter = mark_circle
        /\ data lowess_curve = df_scatter /\ mark lowess_curve = mark_line
        /\ columns df_scatter = columns df
        /\ (well_formed df -> NoDup (columns df) ->
            rows df_scatter `sublist_of` rows df
            /\ forall r, r ∈ rows df_scatter
                 <-> r ∈ rows df
                     /\ at_label df "diet composition fruit and vegetables" r <> NA
                     /\ at_label df "life expectancy" r <> NA)).
Proof.
  assert (forall e, scatter_builder df = Raise e ->
            is_KeyError e
            /\ exists k, k ∈ scatter_columns /\ ~ (k ∈ columns df)) as Hraise.
  { intros e. unfold scatter_builder.
    destruct (dropna scatter_columns df) as [dfs|e'] eqn:Hd; simpl; [done|].
    intros [= ->]. by apply dropna_Raise. }
  assert (forall k, k ∈ scatter_columns -> ~ (k ∈ columns df) ->
            exists e, scatter_builder df = Raise e) as Hmissing.
  { intros k Hk Hnotin.
    destruct (dropna_missing scatter_columns df k Hk Hnotin) as (e & He & _).
    exists e. unfold scatter_builder. by rewrite He. }
  split_and!.
  - split.
    + intros [e He]. by apply Hraise in He as [_ ?].
    + intros (k & Hk & Hnotin). by eapply Hmissing.
  - intros e He. by apply Hraise in He as [? _].
  - intros k Hk Hnotin doc Hdoc.
    destruct (Hmissing k Hk Hnotin) as [e He]. congruence.
  - intros Hall. unfold scatter_builder, dropna.
    destruct (dropna_mask_present df scatter_columns (nrows df) Hall) as [m Hm].
    rewrite Hm. simpl. eexists _, _, _, _.
    split_and!; try reflexivity.
    + apply columns_bool_index.
    + intros Hwf Hnd.
      assert (dropna scatter_columns df = Ok (bool_index m df)) as Hd
        by (unfold dropna; by rewrite Hm).
      destruct (dropna_Ok _ _ _ Hwf Hnd Hd) as (_ & _ & Hrows & _).
      rewrite Hrows. split; [apply sublist_filter|].
      intros r. rewrite list_elem_of_filter. unfold scatter_columns.
      rewrite !Forall_cons, Forall_nil. tauto.
Qed.

Lemma scatter_builder_outcomes_witness :
  (exists doc, scatter_builder neverland_both = Ok doc
               /\ length (layers doc) = 2%nat)
  /\ exists e, scatter_builder labelled_table = Raise e /\ is_KeyError e.
Proof.
  split.
  - destruct (scatter_builder_outcomes neverland_both) as (_ & _ & _ & Hok).
    destruct Hok as (dfs & doc & c1 & c2 & _ & Hdoc & _ & Hl & _).
    + by_compute.
    + exists doc. split; [exact Hdoc|]. by rewrite Hl.
  - destruct (scatter_builder_outcomes labelled_table) as (Hiff & Hkind & _).
    destruct (proj2 Hiff) as [e He].
    + exists "life expectancy". split; by_compute.
    + exists e. split; [exact He|]. by apply Hkind.
Defined.

Lemma last_is_Some {A} (xs : list A) : xs <> [] -> is_Some (last xs).
Proof.
  induction xs as [|x [|y xs] IH]; intros Hne; [done|by eexists|].
  rewrite last_cons_cons. by apply IH.
Qed.

Section Bubble_properties.

Variable parse_number : string -> option number.
Variable country_name_to_country_alpha2 : cell -> result string.
Variable country_alpha2_to_continent_code : string -> result string.
Variable convert_continent_code_to_continent_name : string -> result string.

Local Abbreviation prepare :=
  (prepare parse_number country_name_to_country_alpha2
     country_alpha2_to_continent_code
     convert_continent_code_to_continent_name).

(** The years of the table the bubble chart is built from: the year
    column holds integers only, so that line 103 sorts without raising. *)
Lemma gapminder_years (df df_both df_gapminder : DataFrame) :
  well_formed df ->
  prepare df = Ok df_both ->
  dropna gapminder_columns df_both = Ok df_gapminder ->
  exists year years,
    well_formed df_gapminder
    /\ getitem TypeError df_gapminder "year" = Ok year
    /\ Forall (fun v => exists z, v = Int z) (values year)
    /\ sorted_years df_gapminder = Ok years
    /\ StronglySorted Z.lt years
    /\ (forall y, y ∈ years <-> Int y ∈ values year)
    /\ (years = [] <-> rows df_gapminder = []).
Proof.
  intros Hwf Hp Hd.
  destruct (prepare_Ok _ _ _ _ _ _ Hwf Hp)
    as (_ & _ & _ & _ & _ & _ & _ & _ & _ & _ & _ & _ & _ & _ & _ & Hwf3 & Hnd3 & _).
  destruct (dropna_Ok _ _ _ Hwf3 Hnd3 Hd) as (Hcols & Hwfg & Hrows & Hsub).
  assert (exists year, getitem TypeError df_gapminder "year" = Ok year)
    as [year Hg].
  { apply getitem_present; [by rewrite Hcols|]. rewrite Hcols.
    eapply dropna_labels; [exact Hd|].
    unfold gapminder_columns. rewrite !elem_of_cons. tauto. }
  assert (Forall (fun v => exists z, v = Int z) (values year)) as Hint.
  { apply Forall_forall. intros v Hv.
    destruct (getitem_elem_of _ _ _ _ Hg) as [Hyin Hyn].
    destruct (Hsub year Hyin) as (c & Hc & Hcn & _ & Hvals).
    destruct (prepare_year_typed _ _ _ _ _ _ _ Hwf Hp Hc) as [_ Htyped];
      [congruence|].
    rewrite Forall_forall in Htyped.
    destruct (Htyped v (Hvals v Hv)) as [->|(z & -> & _)]; [|by eexists].
    exfalso.
    rewrite <-(column_of_rows _ _ _ _ Hwfg Hg) in Hv.
    apply list_elem_of_fmap in Hv as (r & Hna & Hr).
    rewrite Hrows in Hr. apply list_elem_of_filter in Hr as [HF _].
    rewrite Forall_forall in HF.
    apply (HF "year"); [unfold gapminder_columns; rewrite !elem_of_cons; tauto|].
    by rewrite <-(at_label_columns _ df_gapminder df_both). }
  destruct (traverse_total as_int (unique (values year))) as [ys Hys].
  { intros v Hv. rewrite elem_of_unique in Hv.
    pose proof (proj1 (Forall_forall _ _) Hint v Hv) as [z ->]. done. }
  assert (sorted_years df_gapminder = Ok (merge_sort Z.le ys)) as Hyears.
  { unfold sorted_years. rewrite Hg. simpl. by rewrite Hys. }
  destruct (sorted_years_Ok _ _ Hyears) as (year' & Hg' & Hsorted & Hmem).
  assert (year' = year) as -> by congruence.
  exists year, (merge_sort Z.le ys). split_and!; try done.
  assert (length (rows df_gapminder) = length (values year)) as Hlen.
  { rewrite length_rows by done. symmetry. apply well_formed_length; [done|].
    by apply getitem_elem_of in Hg as [? _]. }
  split.
  - intros Hnil. apply length_zero_iff_nil. rewrite Hlen.
    apply length_zero_iff_nil.
    destruct (values year) as [|v vs] eqn:Hv; [done|]. exfalso.
    apply Forall_cons in Hint as [[z ->] _].
    assert (z ∈ merge_sort Z.le ys) as Hz by (apply Hmem; by left).
    rewrite Hnil in Hz. by apply elem_of_nil in Hz.
  - intros Hnil. rewrite Hnil in Hlen. simpl in Hlen. symmetry in Hlen.
    apply length_zero_iff_nil in Hlen.
    destruct (merge_sort Z.le ys) as [|y l] eqn:Hm; [done|]. exfalso.
    assert (Int y ∈ values year) as Hy by (apply Hmem; by left).
    rewrite Hlen in Hy. by apply elem_of_nil in Hy.
Qed.

(** The builder stops at line 104 exactly when there is no year. *)
Lemma bubble_builder_by_years (df df_both : DataFrame) :
  well_formed df ->
  prepare df = Ok df_both ->
  forall dfg, dropna gapminder_columns df_both = Ok dfg ->
    exists years,
      sorted_years dfg = Ok years /\ (years = [] <-> rows dfg = [])
      /\ bubble_builder df_both
         = match years with
           | [] => Raise IndexError
           | _ => bubble_builder df_both
           end
      /\ (years <> [] -> exists doc, bubble_builder df_both = Ok doc).
Proof.
  intros Hwf Hp dfg Hd.
  destruct (gapminder_years _ _ _ Hwf Hp Hd)
    as (year & years & _ & _ & _ & Hy & _ & _ & Hnil).
  exists years. split_and!; [done|done| |].
  - destruct years; [|done]. unfold bubble_builder. rewrite Hd. simpl.
    by rewrite Hy.
  - intros Hne. unfold bubble_builder. rewrite Hd. simpl. rewrite Hy. simpl.
    destruct years as [|y l]; [done|]. simpl.
    destruct (last_is_Some (y :: l)) as [hi Hhi]; [done|].
    unfold last_item. rewrite Hhi. simpl. eauto.
Qed.

(** X13. On a table that has come through lines 26-47 the bubble chart
    builder has three outcomes: a KeyError when one of its five required
    columns is missing; an IndexError when they are all there and no row
    has all five non-null; and its document in every other case. It never
    raises on sorting the years, which are integers. *)
Theorem bubble_builder_outcomes (df df_both : DataFrame) :
  well_formed df ->
  prepare df = Ok df_both ->
  (forall e, bubble_builder df_both = Raise e ->
     (is_KeyError e
      /\ exists k, k ∈ gapminder_columns /\ ~ (k ∈ columns df_both))
     \/ (e = IndexError
         /\ exists df_gapminder,
              dropna gapminder_columns df_both = Ok df_gapminder
              /\ rows df_gapminder = []))
  /\ (forall doc, bubble_builder df_both = Ok doc ->
        exists df_gapminder,
          dropna gapminder_columns df_both = Ok df_gapminder
          /\ rows df_gapminder <> [])
  /\ (forall df_gapminder,
        dropna gapminder_columns df_both = Ok df_gapminder ->
        rows df_gapminder <> [] ->
        exists doc, bubble_builder df_both = Ok doc)
  /\ (forall df_gapminder,
        dropna gapminder_columns df_both = Ok df_gapminder ->
        rows df_gapminder
        = filter (fun r => Forall (fun k => at_label df_both k r <> NA)
                             gapminder_columns)
            (rows df_both)).
Proof.
  intros Hwf Hp.
  pose proof (bubble_builder_by_years df df_both Hwf Hp) as Hcases.
  split_and!.
  - intros e He.
    destruct (dropna gapminder_columns df_both) as [dfg|e'] eqn:Hd.
    + right. destruct (Hcases dfg eq_refl) as (years & Hy & Hnil & Hb & Hok).
      destruct years as [|y l].
      * rewrite Hb in He. injection He as <-. split; [done|].
        exists dfg. split; [done|]. by apply Hnil.
      * destruct Hok as [doc Hdoc]; [done|]. congruence.
    + left. assert (e = e') as ->.
      { revert He. unfold bubble_builder. rewrite Hd. simpl. congruence. }
      by apply dropna_Raise.
  - intros doc Hdoc.
    destruct (bubble_builder_Ok_inv _ _ Hdoc)
      as (dfg & years & lo & hi & chart & Hd & Hy & Hlo & _).
    exists dfg. split; [done|].
    destruct (Hcases dfg Hd) as (years' & Hy' & Hnil & _).
    assert (years' = years) as -> by congruence.
    intros Hrows. apply Hnil in Hrows. by subst.
  - intros dfg Hd Hne.
    destruct (Hcases dfg Hd) as (years & _ & Hnil & _ & Hok).
    apply Hok. intros Hy. by apply Hne, Hnil.
  - intros dfg Hd.
    destruct (prepare_Ok _ _ _ _ _ _ Hwf Hp)
      as (_ & _ & _ & _ & _ & _ & _ & _ & _ & _ & _ & _ & _ & _ & _ & Hwf3 & Hnd3 & _).
    by destruct (dropna_Ok _ _ _ Hwf3 Hnd3 Hd) as (_ & _ & Hrows & _).
Qed.

End Bubble_properties.

Lemma bubble_builder_outcomes_witness :
  exists doc, bubble_builder health_both = Ok doc.
Proof.
  destruct (bubble_builder_outcomes
              parse_decimal demo_alpha2 demo_continent_code demo_continent_name
              health_csv health_both) as (_ & _ & Hok & _).
  - by_compute.
  - vm_compute. reflexivity.
  - apply (Hok (bool_index [true; false] health_both)).
    + vm_compute. reflexivity.
    + by vm_compute.
Defined.

(** ** The year slider and the rows it shows (lines 146-164) *)

Lemma not_nil_elem_of {A} (l : list A) : l <> [] <-> exists x, x ∈ l.
Proof.
  destruct l as [|x l]; split; try done.
  - intros [x Hx]. by apply elem_of_nil in Hx.
  - intros _. exists x. by left.
Qed.

Section Slider_properties.

Variable parse_number : string -> option number.
Variable country_name_to_country_alpha2 : cell -> result string.
Variable country_alpha2_to_continent_code : string -> result string.
Variable convert_continent_code_to_continent_name : string -> result string.

Local Abbreviation prepare :=
  (prepare parse_number country_name_to_country_alpha2
     country_alpha2_to_continent_code
     convert_continent_code_to_continent_name).

(** X14. With the slider at a year, the bubble chart shows rows exactly
    when that year is present in its data: a position of the range that
    lies between two years present shows nothing. The default position is
    the lower end of the range and shows rows; every row of the data is
    shown at one position of the slider and at no other; and no position
    shows a row that is not in the data. *)
Theorem slider_shows_rows_exactly_at_the_years_present
    (df df_both : DataFrame) doc chart sel :
  well_formed df ->
  prepare df = Ok df_both ->
  bubble_builder df_both = Ok doc ->
  chart ∈ layers doc ->
  sel ∈ params chart ->
  exists years,
    sorted_years (data chart) = Ok years
    /\ (forall chosen, rows (rendered chart chosen) <> [] <-> chosen ∈ years)
    /\ value sel = range_min (bind sel)
    /\ value sel ∈ years
    /\ range_max (bind sel) ∈ years
    /\ (forall r, r ∈ rows (data chart) ->
          exists y, y ∈ years /\ r ∈ rows (rendered chart y)
                    /\ forall y', r ∈ rows (rendered chart y') -> y' = y)
    /\ (forall chosen, rows (rendered chart chosen) `sublist_of` rows (data chart)).
Proof.
  intros Hwf Hp Hdoc Hchart Hsel.
  destruct (bubble_builder_Ok_inv _ _ Hdoc)
    as (dfg & years & lo & hi & chart0 & Hd & Hy & Hlo & Hhi & Hl & _ & Hdata
        & Hparams & Htr).
  rewrite Hl in Hchart. apply list_elem_of_singleton in Hchart. subst chart0.
  rewrite Hparams in Hsel. apply list_elem_of_singleton in Hsel. subst sel.
  destruct (gapminder_years _ _ _ _ _ _ _ Hwf Hp Hd)
    as (year & years' & Hwfg & Hg & Hint & Hy' & _ & Hmem & _).
  assert (years' = years) as -> by congruence.
  assert (forall chosen,
            rows (rendered chart chosen)
            = filter (fun r => at_label dfg "year" r = Int chosen) (rows dfg))
    as Hrendered.
  { intros chosen. by eapply rendered_year_filter. }
  exists years. rewrite Hdata. simpl. split_and!.
  - done.
  - intros chosen. rewrite Hrendered, not_nil_elem_of, Hmem.
    rewrite <-(column_of_rows _ _ _ _ Hwfg Hg), list_elem_of_fmap.
    split.
    + intros (r & [Hr Hin]%list_elem_of_filter). by exists r.
    + intros (r & Hr & Hin). exists r. by apply list_elem_of_filter.
  - done.
  - by apply head_Some_elem_of.
  - by apply last_Some_elem_of.
  - intros r Hr.
    assert (at_label dfg "year" r ∈ values year) as Hv.
    { rewrite <-(column_of_rows _ _ _ _ Hwfg Hg). by apply list_elem_of_fmap_2. }
    rewrite Forall_forall in Hint. destruct (Hint _ Hv) as [z Hz].
    exists z. split_and!.
    + apply Hmem. by rewrite <-Hz.
    + rewrite Hrendered. by apply list_elem_of_filter.
    + intros y'. rewrite Hrendered. intros [Hy'' _]%list_elem_of_filter.
      congruence.
  - intros chosen. rewrite Hrendered. apply sublist_filter.
Qed.

End Slider_properties.

Lemma slider_shows_rows_exactly_at_the_years_present_witness :
  exists doc chart,
    bubble_builder health_both = Ok doc /\ chart ∈ layers doc
    /\ rows (rendered chart 2010) <> [] /\ rows (rendered chart 2011) = [].
Proof.
  destruct (bubble_builder health_both) as [doc|e] eqn:Hdoc;
    [|by vm_compute in Hdoc].
  assert (exists chart sel, layers doc = [chart] /\ params chart = [sel]
                            /\ sorted_years (data chart) = Ok [2010])
    as (chart & sel & Hl & Hparams & Hyears).
  { vm_compute in Hdoc. injection Hdoc as <-. eexists _, _.
    split_and!; reflexivity. }
  destruct (slider_shows_rows_exactly_at_the_years_present
              parse_decimal demo_alpha2 demo_continent_code demo_continent_name
              health_csv health_both doc chart sel)
    as (years & Hy & Hshown & _).
  - by_compute.
  - vm_compute. reflexivity.
  - exact Hdoc.
  - rewrite Hl. by left.
  - rewrite Hparams. by left.
  - assert (years = [2010]) as -> by congruence.
    exists doc, chart. split_and!; [reflexivity|rewrite Hl; by left| |].
    + apply Hshown. by left.
    + destruct (rows (rendered chart 2011)) as [|r l] eqn:Hr; [done|].
      exfalso. assert (2011 ∈ [2010]) as Hin by (apply Hshown; by rewrite Hr).
      by apply list_elem_of_singleton in Hin.
Defined.

(** ** The script as a whole *)


Section Script_properties.

Variable parse_number : string -> option number.
Variable country_name_to_country_alpha2 : cell -> result string.
Variable country_alpha2_to_continent_code : string -> result string.
Variable convert_continent_code_to_continent_name : string -> result string.

Local Abbreviation prepare :=
  (prepare parse_number country_name_to_country_alpha2
     country_alpha2_to_continent_code
     convert_continent_code_to_continent_name).
Local Abbreviation script :=
  (script parse_number country_name_to_country_alpha2
     country_alpha2_to_continent_code
     convert_continent_code_to_continent_name).



End Script_properties.


(** ** The year column as it is usually loaded (lines 38-39) *)

(** X16. A year column that was loaded with a numeric type is cast by
    line 39 without being parsed. When the Normalizer returns, every integer
    and every null of the column is unchanged, every float in it is a whole
    number and has become the integer it stands for, and the type of the
    column is Int64. *)
Theorem numeric_year_column_is_cast_not_parsed
    (parse_number : string -> option number) (df df' : DataFrame) i c :
  normalize parse_number df = Ok df' ->
  deduplicated df !! i = Some c ->
  name c = "year" ->
  is_numeric_dtype (dtype c) = true ->
  df' !! i = Some (mkSeries "year" Int64 (as_integer <$> values c))
  /\ Forall integer_or_null (as_integer <$> values c)
  /\ (forall v, v ∈ values c ->
        v = NA \/ (exists z, v = Int z /\ as_integer v = v)
        \/ exists q z, v = Float q /\ Qc_to_Z q = Some z
                       /\ as_integer v = Int z).
Proof.
  intros [_ HF]%normalize_Ok Hi Hn Hd.
  destruct (Forall2_lookup_l _ _ _ _ _ HF Hi) as (c' & Hi' & Hc).
  rewrite normalize_column_year in Hc by done.
  apply year_column_year in Hc as (vs & Hvs & ->); [|done].
  assert (forall v, v ∈ values c ->
            year_cell parse_number (dtype c) v = Some (as_integer v)
            /\ (v = NA \/ (exists z, v = Int z /\ as_integer v = v)
                \/ exists q z, v = Float q /\ Qc_to_Z q = Some z
                               /\ as_integer v = Int z)) as Hcast.
  { intros v Hv. destruct (Forall2_elem_of_l _ _ _ _ Hvs Hv) as (v' & _ & Hv').
    revert Hv'. unfold year_cell. rewrite Hd.
    destruct v as [|s|z|q|b]; simpl; [|done| | |done].
    - intros _. split; [done|by left].
    - destruct (in_int64 z); [|done]. intros _. split; [done|]. right. left. eauto.
    - destruct (Qc_to_Z q) as [z|] eqn:Hq; [|done].
      destruct (in_int64 z); [|done]. intros _. split; [done|].
      right. right. eauto. }
  assert (vs = as_integer <$> values c) as ->.
  { apply mapM_Some in Hvs. apply (inj Some). rewrite <-Hvs. clear Hvs.
    revert Hcast. generalize (values c). intros l.
    induction l as [|v l IH]; intros Hcast; [done|].
    rewrite fmap_cons. cbn [mapM].
    rewrite (proj1 (Hcast v ltac:(left))). simpl.
    rewrite IH by (intros v' Hv'; apply Hcast; by right). done. }
  split_and!; [by rewrite Hi'| |intros v Hv; by apply Hcast].
  apply Forall_forall. intros v' Hv'.
  destruct (Forall2_elem_of_r _ _ _ _ Hvs Hv') as (v & _ & Hv).
  by eapply year_cell_Ok.
Qed.

Lemma numeric_year_column_is_cast_not_parsed_witness :
  float_year_normalized !! 2%nat = Some (mkSeries "year" Int64 [Int 2010; NA; Int 2011])
  /\ Forall integer_or_null [Int 2010; NA; Int 2011].
Proof.
  destruct (numeric_year_column_is_cast_not_parsed parse_decimal float_year_csv
              float_year_normalized 2%nat
              (mkSeries "year" float64
                 [Float (Qc_of_Z 2010); NA; Float (Qc_of_Z 2011)]))
    as (Hlookup & Hall & _).
  - vm_compute. reflexivity.
  - vm_compute. reflexivity.
  - reflexivity.
  - reflexivity.
  - split; [exact Hlookup|exact Hall].
Defined.

(** ** The year column loaded as text (lines 38-39) *)

(** X17. Whenever the Normalizer returns, the year column has type Int64
    and holds nothing but nulls and integers of the 64-bit range. For a
    year column loaded as text, value by value: a null stays null, a text
    that does not read as a number is null, and a text that reads as an
    integer of magnitude at most 2^53 is that integer. *)
Theorem text_year_column_is_coerced_or_nulled
    (parse_number : string -> option number) (df df' : DataFrame) :
  normalize parse_number df = Ok df' ->
  (forall year', year' ∈ df' -> name year' = "year" ->
     dtype year' = Int64 /\ Forall integer_or_null (values year'))
  /\ (forall i c, deduplicated df !! i = Some c -> name c = "year" ->
        dtype c = object ->
        exists c',
          df' !! i = Some c' /\ name c' = "year"
          /\ length (values c') = length (values c)
          /\ (forall j, values c !! j = Some NA -> values c' !! j = Some NA)
          /\ (forall j s, values c !! j = Some (Str s) ->
                parse_number s = None -> values c' !! j = Some NA)
          /\ (forall j s z, values c !! j = Some (Str s) ->
                parse_number s = Some (NumInt z) -> Z.abs z <= 2 ^ 53 ->
                values c' !! j = Some (Int z))).
Proof.
  intros Hn. split.
  - intros year' Hin Hname. by eapply normalize_year_typed.
  - apply normalize_Ok in Hn as [_ HF]. intros i c Hi Hname Hd.
    destruct (Forall2_lookup_l _ _ _ _ _ HF Hi) as (c' & Hi' & Hc).
    rewrite normalize_column_year in Hc by done.
    apply year_column_year in Hc as (vs & Hvs & ->); [|done].
    exists (mkSeries "year" Int64 vs). simpl.
    split_and!; [done|done|symmetry; by eapply Forall2_length| | |].
    + intros j Hj.
      destruct (Forall2_lookup_l _ _ _ _ _ Hvs Hj) as (v' & -> & Hv').
      revert Hv'. unfold year_cell. rewrite Hd. simpl. congruence.
    + intros j s Hj Hs.
      destruct (Forall2_lookup_l _ _ _ _ _ Hvs Hj) as (v' & -> & Hv').
      revert Hv'. unfold year_cell. rewrite Hd. simpl. rewrite Hs. simpl.
      congruence.
    + intros j s z Hj Hs _.
      destruct (Forall2_lookup_l _ _ _ _ _ Hvs Hj) as (v' & -> & Hv').
      revert Hv'. unfold year_cell. rewrite Hd. simpl. rewrite Hs. simpl.
      destruct (in_int64 z); [congruence|done].
Qed.

Lemma text_year_column_is_coerced_or_nulled_witness :
  exists year',
    text_year_normalized !! 1%nat = Some year'
    /\ dtype year' = Int64
    /\ values year' !! 0%nat = Some (Int 2010)
    /\ values year' !! 1%nat = Some NA
    /\ values year' !! 2%nat = Some NA.
Proof.
  destruct (text_year_column_is_coerced_or_nulled parse_decimal text_year_csv
              text_year_normalized) as (Htyped & Hvalues).
  - vm_compute. reflexivity.
  - destruct (Hvalues 1%nat
                (mkSeries "year" object [Str "2010"; Str "unknown"; NA]))
      as (year' & Hi & Hname & _ & Hna & Hnone & Hint).
    + vm_compute. reflexivity.
    + reflexivity.
    + reflexivity.
    + exists year'. split_and!.
      * exact Hi.
      * apply Htyped; [by eapply list_elem_of_lookup_2|exact Hname].
      * apply (Hint 0%nat "2010" 2010); [reflexivity|by vm_compute|by vm_compute].
      * apply (Hnone 1%nat "unknown"); [reflexivity|by vm_compute].
      * apply (Hna 2%nat). reflexivity.
Defined.

(** ** A year that reads as infinity (line 39) *)

Lemma nanmax_from_infinity vs :
  foldl (fun acc v =>
           match v, acc with
           | NA, _ => acc
           | _, None => Some v
           | _, Some m => if leb_float v m then Some m else Some v
           end) (Some (Inf false)) vs = Some (Inf false).
Proof.
  induction vs as [|v vs IH]; [done|]. simpl.
  by destruct v as [|s|z|q|[]].
Qed.

Lemma nanmax_infinity vs : Inf false ∈ vs -> nanmax vs = Some (Inf false).
Proof.
  unfold nanmax. generalize (@None cell).
  induction vs as [|v vs IH]; intros acc Hin; [by apply elem_of_nil in Hin|].
  apply elem_of_cons in Hin as [<-|Hin].
  - simpl. destruct acc as [m|]; [|apply nanmax_from_infinity].
    destruct m as [| | | |[]]; apply nanmax_from_infinity.
  - simpl. by apply IH.
Qed.

(** When the labels stay distinct, what line 39 raises on the year column
    is what the Normalizer raises. *)
Lemma normalize_year_Raise
    (parse_number : string -> option number) (df : DataFrame) year e :
  NoDup (clean_col <$> columns df) ->
  year ∈ deduplicated df -> name year = "year" ->
  astype_Int64 (to_numeric_coerce parse_number year) = Raise e ->
  normalize parse_number df = Raise e.
Proof.
  intros Hnd Hin Hname Hcast. rewrite normalize_unfold.
  assert (columns (category_column <$> deduplicated df)
          = clean_col <$> columns df) as Hcols.
  { rewrite <-columns_deduplicated. unfold columns.
    rewrite <-list_fmap_compose. apply list_fmap_ext.
    intros _ c _. apply name_category_column. }
  assert (year ∈ category_column <$> deduplicated df) as Hin'.
  { apply list_elem_of_fmap. exists year. split; [|done].
    unfold category_column. rewrite decide_False; [done|].
    rewrite Hname. by intros [|]. }
  unfold year_to_integer. rewrite bool_decide_eq_true_2.
  - rewrite (getitem_unique _ _ "year" year); [|by rewrite Hcols|done|done].
    simpl. by rewrite Hcast.
  - unfold columns. rewrite <-Hname. by apply list_elem_of_fmap_2.
Qed.

(** X18. A year column loaded as text in which one value reads as
    positive infinity stops the Normalizer with an OverflowError, whatever
    the other values are: [errors='coerce'] lets the infinity through as a
    float, and the cast to Int64 of line 39 cannot hold it. *)
Theorem infinite_year_raises_OverflowError
    (parse_number : string -> option number) (df : DataFrame) year s :
  Forall ascii_label (columns df) ->
  NoDup (clean_col <$> columns df) ->
  year ∈ deduplicated df -> name year = "year" -> dtype year = object ->
  Str s ∈ values year ->
  parse_number s = Some (NumInf false) ->
  normalize parse_number df = Raise OverflowError.
Proof.
  intros _ Hnd Hin Hname Hd Hs Hinf.
  eapply normalize_year_Raise; [done..|].
  set (vs := (fun v => default NA (convert_cell parse_number v)) <$> values year).
  assert (Inf false ∈ vs) as Hvs.
  { apply list_elem_of_fmap. exists (Str s). split; [|done].
    simpl. by rewrite Hinf. }
  assert (forallb is_int vs = false) as Hints.
  { apply not_true_iff_false. intros Hall.
    rewrite forallb_forall in Hall. apply list_elem_of_In in Hvs.
    by specialize (Hall _ Hvs). }
  assert (to_numeric_coerce parse_number year
          = mkSeries (name year) float64 (to_float <$> vs)) as ->.
  { unfold to_numeric_coerce, pack_numeric. rewrite Hd. simpl.
    fold vs. by rewrite Hints. }
  assert (Inf false ∈ to_float <$> vs) as Hvs'.
  { apply list_elem_of_fmap. by exists (Inf false). }
  unfold astype_Int64. simpl.
  assert (mapM to_Int64_cell (to_float <$> vs) = None) as ->.
  { apply mapM_None, Exists_exists. by exists (Inf false). }
  unfold cast_error. by rewrite (nanmax_infinity _ Hvs').
Qed.

Lemma infinite_year_raises_OverflowError_witness :
  normalize parse_decimal infinite_year_csv = Raise OverflowError.
Proof.
  apply (infinite_year_raises_OverflowError parse_decimal infinite_year_csv
           (mkSeries "year" object [Str "2010"; Str "inf"]) "inf").
  - by_compute.
  - by_compute.
  - by_compute.
  - reflexivity.
  - reflexivity.
  - by_compute.
  - vm_compute. reflexivity.
Defined.
